(** * Esports tournament tracker backend: enrichment and reconciliation

    A shallow embedding of [backend/services/pandascore.py],
    [backend/models.py] and the route handlers of [backend/main.py],
    followed by the properties the specification states about them.

    Python objects decoded from JSON are values of [value]; a Python
    exception is the [Raise] branch of [result]; the provider and the
    database driver are oracles carried by [World]; a SQLAlchemy session is
    a transaction view with a list of pending inserts. *)

From Stdlib Require Import ZArith List String Ascii Bool Lia Arith.
From Stdlib Require Import DecimalString.
From Stdlib Require Import Floats.PrimFloat Floats.SpecFloat Floats.FloatOps.
From Stdlib Require Import Numbers.Cyclic.Int63.Uint63.
Import ListNotations.

Local Open Scope string_scope.
Local Open Scope Z_scope.
Local Open Scope list_scope.

(* ===================================================================== *)
(** ** Python values, exceptions, and the handful of builtins the code uses *)
(* ===================================================================== *)

(** What [response.json()] can produce, and what the enrichment builds. *)
#[warnings="-register-all"]
Inductive value : Type :=
| VNone
| VBool (b : bool)
| VInt (z : Z)
| VFloat (f : float)
| VStr (s : string)
| VList (l : list value)
| VDict (d : list (string * value)).

(** A Python dict keeps insertion order; [dict_set] overwrites in place and
    appends a key that is new. *)
Definition pydict := list (string * value).

Inductive exn : Type :=
| HTTPException (status_code : Z) (detail : string)
| Error (cls : string) (msg : string).   (* any other Exception; str(e) = msg *)

Inductive result (A : Type) : Type :=
| Ok (a : A)
| Raise (e : exn).
Arguments Ok {A} a.
Arguments Raise {A} e.

Definition bind {A B} (m : result A) (k : A -> result B) : result B :=
  match m with
  | Ok a => k a
  | Raise e => Raise e
  end.

Notation "x <- m ;; k" := (bind m (fun x => k))
  (at level 61, m at next level, right associativity).
Notation "' p <- m ;; k" := (bind m (fun x => let p := x in k))
  (at level 61, p pattern, m at next level, right associativity).

Definition type_name (v : value) : string :=
  match v with
  | VNone => "NoneType"
  | VBool _ => "bool"
  | VInt _ => "int"
  | VFloat _ => "float"
  | VStr _ => "str"
  | VList _ => "list"
  | VDict _ => "dict"
  end.

Definition AttributeError {A} (v : value) (attr : string) : result A :=
  Raise (Error "AttributeError"
           ("'" ++ type_name v ++ "' object has no attribute '" ++ attr ++ "'")).

Definition KeyError {A} (key : string) : result A :=
  Raise (Error "KeyError" ("'" ++ key ++ "'")).

Definition TypeError {A} (msg : string) : result A :=
  Raise (Error "TypeError" msg).

Fixpoint dict_get (k : string) (d : pydict) : option value :=
  match d with
  | [] => None
  | (k', v) :: d' => if String.eqb k k' then Some v else dict_get k d'
  end.

Fixpoint dict_set (k : string) (v : value) (d : pydict) : pydict :=
  match d with
  | [] => [(k, v)]
  | (k', v') :: d' =>
      if String.eqb k k' then (k', v) :: d' else (k', v') :: dict_set k v d'
  end.

Definition dict_has (k : string) (d : pydict) : bool :=
  match dict_get k d with Some _ => true | None => false end.

(** [float(z) == f] decided exactly, as Python compares an int with a float. *)
Definition float_is_int (f : float) (z : Z) : bool :=
  match Prim2SF f with
  | S754_zero _ => z =? 0
  | S754_finite s m e =>
      let v := if s then Z.neg m else Z.pos m in
      if 0 <=? e then z =? v * 2 ^ e
      else (v mod 2 ^ (- e) =? 0) && (z =? v / 2 ^ (- e))
  | _ => false
  end.

Inductive number : Type :=
| NInt (z : Z)
| NFloat (f : float).

Definition as_number (v : value) : option number :=
  match v with
  | VBool b => Some (NInt (if b then 1 else 0))
  | VInt z => Some (NInt z)
  | VFloat f => Some (NFloat f)
  | _ => None
  end.

Definition number_eq (a b : number) : bool :=
  match a, b with
  | NInt x, NInt y => x =? y
  | NFloat x, NFloat y => PrimFloat.eqb x y
  | NInt x, NFloat y => float_is_int y x
  | NFloat x, NInt y => float_is_int x y
  end.

(** Python's [==] on decoded JSON: numbers (bools included) by value, strings
    and lists structurally, dicts regardless of key order. *)
Fixpoint py_eq (a b : value) : bool :=
  match a, b with
  | VNone, VNone => true
  | VStr s, VStr t => String.eqb s t
  | VList l, VList m =>
      (fix all2 (l : list value) (m : list value) : bool :=
         match l, m with
         | [], [] => true
         | x :: l', y :: m' => py_eq x y && all2 l' m'
         | _, _ => false
         end) l m
  | VDict d, VDict e =>
      (List.length d =? List.length e)%nat &&
      (fix sub (d : pydict) : bool :=
         match d with
         | [] => true
         | (k, v) :: d' =>
             match dict_get k e with
             | Some w => py_eq v w
             | None => false
             end && sub d'
         end) d
  | VBool _, _ | VInt _, _ | VFloat _, _ =>
      match as_number a, as_number b with
      | Some x, Some y => number_eq x y
      | _, _ => false
      end
  | _, _ => false
  end.

(** Truth value of an object in a condition. *)
Definition truthy (v : value) : bool :=
  match v with
  | VNone => false
  | VBool b => b
  | VInt z => negb (z =? 0)
  | VFloat f => negb (PrimFloat.eqb f 0%float)
  | VStr s => negb (String.eqb s "")
  | VList l => match l with [] => false | _ => true end
  | VDict d => match d with [] => false | _ => true end
  end.

(** [obj.get(key, default)]: only a dict has the method. *)
Definition py_get (obj : value) (key : string) (default : value) : result value :=
  match obj with
  | VDict d => Ok (match dict_get key d with Some v => v | None => default end)
  | _ => AttributeError obj "get"
  end.

Fixpoint chars (s : string) : list value :=
  match s with
  | EmptyString => []
  | String c r => VStr (String c EmptyString) :: chars r
  end.

(** [for x in obj]: a list yields its items, a dict its keys, a str its
    characters; nothing else decoded from JSON is iterable. *)
Definition py_iter (obj : value) : result (list value) :=
  match obj with
  | VList l => Ok l
  | VDict d => Ok (map (fun kv => VStr (fst kv)) d)
  | VStr s => Ok (chars s)
  | _ => TypeError ("'" ++ type_name obj ++ "' object is not iterable")
  end.

(** [s.replace('Z', '+00:00')]. *)
Fixpoint replace_Z (s : string) : string :=
  match s with
  | EmptyString => EmptyString
  | String c r =>
      if Ascii.eqb c "Z"%char then "+00:00" ++ replace_Z r
      else String c (replace_Z r)
  end.

(** The parts of the Python runtime the handlers call but whose text is not
    in the repository: [datetime.fromisoformat] (its error message on the
    left), and [repr] of a float or a container, which [str()] and f-strings
    fall back to. *)
Class Runtime : Type := {
  datetime : Type;
  fromisoformat : string -> string + datetime;
  repr : value -> string
}.

Section Builtins.
Context {RT : Runtime}.

(** [str(v)]. *)
Definition py_str (v : value) : string :=
  match v with
  | VNone => "None"
  | VBool true => "True"
  | VBool false => "False"
  | VInt z => NilZero.string_of_int (Z.to_int z)
  | VStr s => s
  | VFloat _ | VList _ | VDict _ => repr v
  end.

(** [datetime.fromisoformat(x.replace('Z', '+00:00')) if x else None]. *)
Definition parse_date (x : value) : result (option datetime) :=
  if truthy x then
    match x with
    | VStr s =>
        match fromisoformat (replace_Z s) with
        | inr d => Ok (Some d)
        | inl msg => Raise (Error "ValueError" msg)
        end
    | _ => AttributeError x "replace"
    end
  else Ok None.
End Builtins.

(** [d[key]]. *)
Definition dict_getitem (key : string) (d : pydict) : result value :=
  match dict_get key d with
  | Some v => Ok v
  | None => KeyError key
  end.

(** [key in lst] for a list: some item equals the string. *)
Definition list_contains (key : string) (l : list value) : bool :=
  existsb (fun x => py_eq x (VStr key)) l.

(** Truth value of an [Optional[str]] argument: [None] and [""] are false. *)
Definition given (s : option string) : bool :=
  match s with
  | Some s => negb (String.eqb s "")
  | None => false
  end.

(** [arg == "literal"] for an [Optional[str]] argument. *)
Definition is_str (arg : option string) (lit : string) : bool :=
  match arg with
  | Some s => String.eqb s lit
  | None => false
  end.

(* ===================================================================== *)
(** ** requests: what one outbound GET can come back with *)
(* ===================================================================== *)

Module requests.

Record Response : Type := mkResponse {
  status_code : Z;
  http_error : string;        (* str() of the HTTPError raise_for_status raises *)
  body : string + value       (* the decoded JSON, or the decoder's error text *)
}.

(** The provider: what the [n]-th request of a handler invocation comes
    back with, given its endpoint and query parameters; [inl] is a failure
    to connect, on which [requests.get] itself raises. *)
Definition Provider := nat -> string -> pydict -> string + Response.

Definition get (p : Provider) (n : nat) (endpoint : string) (params : pydict)
  : result Response :=
  match p n endpoint params with
  | inl msg => Raise (Error "ConnectionError" msg)
  | inr r => Ok r
  end.

Definition ok (r : Response) : bool :=
  negb ((400 <=? status_code r) && (status_code r <? 600)).

Definition raise_for_status (r : Response) : result unit :=
  if ok r then Ok tt else Raise (Error "HTTPError" (http_error r)).

Definition json (r : Response) : result value :=
  match body r with
  | inr v => Ok v
  | inl msg => Raise (Error "JSONDecodeError" msg)
  end.

End requests.

(* ===================================================================== *)
(** ** services/pandascore.py: class PandaScoreAPI *)
(* ===================================================================== *)

Module PandaScoreAPI.
Section PandaScoreAPI.
Context {RT : Runtime}.
Variable provider : requests.Provider.

Definition BASE_URL : string := "https://api.pandascore.co".

Definition SUPPORTED_GAMES : list (string * string) :=
  [("lol", "league-of-legends"); ("valorant", "valorant")].

Fixpoint games_get (g : string) (t : list (string * string)) : option string :=
  match t with
  | [] => None
  | (k, v) :: t' => if String.eqb g k then Some v else games_get g t'
  end.

(** [game in self.SUPPORTED_GAMES]. *)
Definition supported (game : option string) : bool :=
  match game with
  | Some g => match games_get g SUPPORTED_GAMES with Some _ => true | None => false end
  | None => false
  end.

(** [self.SUPPORTED_GAMES[game]]. *)
Definition games_getitem (game : option string) : result string :=
  match game with
  | Some g =>
      match games_get g SUPPORTED_GAMES with
      | Some slug => Ok slug
      | None => KeyError g
      end
  | None => Raise (Error "KeyError" "None")
  end.

Definition unsupported_game_message : string :=
  "Unsupported game. Supported games are: "
    ++ String.concat ", " (map fst SUPPORTED_GAMES).

(** *** _calculate_win_rate *)

Definition float_of_nat (n : nat) : float :=
  PrimFloat.of_uint63 (Uint63.of_Z (Z.of_nat n)).

(** [sum(1 for match in matches if match.get("winner_id") == team_id)]. *)
Fixpoint count_wins (matches : list value) (team_id : value) : result nat :=
  match matches with
  | [] => Ok 0%nat
  | m :: rest =>
      winner_id <- py_get m "winner_id" VNone ;;
      wins <- count_wins rest team_id ;;
      Ok (if py_eq winner_id team_id then S wins else wins)
  end.

(** Both operands of [/] are ints below 2^53 (a list that long cannot be
    held), so the true division is the IEEE quotient of their doubles. *)
Definition _calculate_win_rate (matches : value) (team_id : value) : result float :=
  if negb (truthy matches) then Ok 0%float
  else
    items <- py_iter matches ;;
    wins <- count_wins items team_id ;;
    Ok (PrimFloat.mul
          (PrimFloat.div (float_of_nat wins) (float_of_nat (List.length items)))
          100%float).

(** *** get_tournaments *)

(** The body of the loop for one provider record: [None] when the
    post-filter skips it ([continue]). *)
Definition enhance_tournament (game : option string) (tournament : value)
  : result (option value) :=
  videogame <- py_get tournament "videogame" (VDict []) ;;
  game_slug <- match videogame with
               | VDict _ => py_get videogame "slug" VNone
               | _ => Ok VNone
               end ;;
  skip <- (if given game && supported game then
             expected <- games_getitem game ;;
             Ok (negb (py_eq game_slug (VStr expected)))
           else Ok false) ;;
  if (skip : bool) then Ok None
  else
    match tournament with
    | VDict t =>
        let enhanced_tournament := t in
        enhanced_tournament <-
          (if dict_has "league" t then
             league <- dict_getitem "league" t ;;
             name <- py_get league "name" VNone ;;
             image_url <- py_get league "image_url" VNone ;;
             region <- py_get league "region" VNone ;;
             Ok (dict_set "league_info"
                   (VDict [("name", name); ("image_url", image_url);
                           ("region", region)])
                   enhanced_tournament)
           else Ok enhanced_tournament) ;;
        enhanced_tournament <-
          (if dict_has "series" t then
             series <- dict_getitem "series" t ;;
             name <- py_get series "name" VNone ;;
             season <- py_get series "season" VNone ;;
             Ok (dict_set "series_info"
                   (VDict [("name", name); ("season", season)])
                   enhanced_tournament)
           else Ok enhanced_tournament) ;;
        let enhanced_tournament :=
          if is_str game "lol" then
            dict_set "game_details"
              (VDict [("patch_version",
                        match dict_get "patch_version" t with
                        | Some v => v | None => VNone end);
                      ("tournament_type",
                        match dict_get "tournament_type" t with
                        | Some v => v | None => VStr "Unknown" end);
                      ("region",
                        match dict_get "region" t with
                        | Some v => v | None => VStr "International" end)])
              enhanced_tournament
          else if is_str game "valorant" then
            dict_set "game_details"
              (VDict [("patch",
                        match dict_get "patch" t with
                        | Some v => v | None => VStr "Unknown" end);
                      ("series_type",
                        match dict_get "serie_type" t with
                        | Some v => v | None => VStr "Unknown" end);
                      ("region",
                        match dict_get "region" t with
                        | Some v => v | None => VStr "International" end)])
              enhanced_tournament
          else enhanced_tournament in
        Ok (Some (VDict enhanced_tournament))
    | _ => AttributeError tournament "get"   (* unreachable: [.get] above *)
    end.

Fixpoint filter_tournaments (game : option string) (tournaments : list value)
  : result (list value) :=
  match tournaments with
  | [] => Ok []
  | tournament :: rest =>
      kept <- enhance_tournament game tournament ;;
      filtered_tournaments <- filter_tournaments game rest ;;
      Ok (match kept with
          | Some e => e :: filtered_tournaments
          | None => filtered_tournaments
          end)
  end.

(** [n] is the index of the request among those of the running handler. *)
Definition get_tournaments (n : nat) (game : option string) (status : string)
           (per_page : Z) : result (list value) :=
  if given game && negb (supported game) then
    Raise (Error "ValueError" unsupported_game_message)
  else
    let endpoint :=
      (if is_str game "lol" then BASE_URL ++ "/lol/tournaments"
       else if is_str game "valorant" then BASE_URL ++ "/valorant/tournaments"
       else BASE_URL ++ "/tournaments")%string in
    let params := [("per_page", VInt per_page); ("status", VStr status)] in
    params <-
      (if given game && negb (is_str game "lol" || is_str game "valorant") then
         slug <- games_getitem game ;;
         Ok (dict_set "videogame" (VStr slug) params)
       else Ok params) ;;
    response <- requests.get provider n endpoint params ;;
    _ <- requests.raise_for_status response ;;
    tournaments <- requests.json response ;;
    items <- py_iter tournaments ;;
    filter_tournaments game items.

(** *** get_teams *)

Definition list_index_error {A} : result A :=
  TypeError "list indices must be integers or slices, not str".

(** One entry of the roster comprehension. *)
Definition roster_entry (player : value) : result value :=
  name <- py_get player "name" VNone ;;
  role <- py_get player "role" VNone ;;
  hometown <- py_get player "hometown" VNone ;;
  image_url <- py_get player "image_url" VNone ;;
  Ok (VDict [("name", name); ("role", role); ("hometown", hometown);
             ("image_url", image_url)]).

Fixpoint map_result {A B} (f : A -> result B) (l : list A) : result (list B) :=
  match l with
  | [] => Ok []
  | x :: rest =>
      y <- f x ;;
      ys <- map_result f rest ;;
      Ok (y :: ys)
  end.

(** The body of the loop for one provider record; [k] is the index the next
    outbound request gets, returned advanced by the requests made here. A
    list has [.copy()] too, so a record that is a list passes when nothing
    indexes it by a string. *)
Definition enhance_team (k : nat) (game : option string) (team : value)
  : result (value * nat) :=
  match team with
  | VDict t =>
      let enhanced_team := t in
      enhanced_team <-
        (if dict_has "players" t then
           players <- dict_getitem "players" t ;;
           items <- py_iter players ;;
           roster <- map_result roster_entry items ;;
           Ok (dict_set "roster" (VList roster) enhanced_team)
         else Ok enhanced_team) ;;
      if is_str game "lol" then
        team_id <- dict_getitem "id" t ;;
        let matches_endpoint :=
          (BASE_URL ++ "/teams/" ++ py_str team_id ++ "/matches")%string in
        matches_response <-
          requests.get provider k matches_endpoint [("per_page", VInt 5)] ;;
        if requests.ok matches_response then
          recent_matches <- requests.json matches_response ;;
          win_rate <- _calculate_win_rate recent_matches team_id ;;
          Ok (VDict (dict_set "recent_performance"
                       (VDict [("matches", recent_matches);
                               ("win_rate", VFloat win_rate)])
                       enhanced_team),
              S k)
        else Ok (VDict enhanced_team, S k)
      else Ok (VDict enhanced_team, k)
  | VList l =>
      if list_contains "players" l then list_index_error
      else if is_str game "lol" then list_index_error
      else Ok (VList l, k)
  | _ => AttributeError team "copy"
  end.

Fixpoint enhance_teams (k : nat) (game : option string) (teams : list value)
  : result (list value) :=
  match teams with
  | [] => Ok []
  | team :: rest =>
      '(enhanced_team, k') <- enhance_team k game team ;;
      enhanced_teams <- enhance_teams k' game rest ;;
      Ok (enhanced_team :: enhanced_teams)
  end.

Definition get_teams (n : nat) (game : option string) (per_page : Z)
  : result (list value) :=
  if given game && negb (supported game) then
    Raise (Error "ValueError" unsupported_game_message)
  else
    let endpoint := (BASE_URL ++ "/teams")%string in
    let params := [("per_page", VInt per_page)] in
    params <-
      (if given game then
         slug <- games_getitem game ;;
         Ok (dict_set "videogame" (VStr slug) params)
       else Ok params) ;;
    response <- requests.get provider n endpoint params ;;
    _ <- requests.raise_for_status response ;;
    teams <- requests.json response ;;
    items <- py_iter teams ;;
    enhance_teams (S n) game items.

(** *** get_tournament *)

(** The detail block is chosen here by the record's own videogame slug, read
    with [.get] and no [isinstance] guard. A list passes [.copy()] and the
    two [in] tests, and stops at [tournament.get]. *)
Definition get_tournament (n : nat) (tournament_id : string) : result value :=
  let endpoint := (BASE_URL ++ "/tournaments/" ++ tournament_id)%string in
  response <- requests.get provider n endpoint [] ;;
  _ <- requests.raise_for_status response ;;
  tournament <- requests.json response ;;
  match tournament with
  | VDict t =>
      let enhanced_tournament := t in
      enhanced_tournament <-
        (if dict_has "league" t then
           league <- dict_getitem "league" t ;;
           name <- py_get league "name" VNone ;;
           image_url <- py_get league "image_url" VNone ;;
           region <- py_get league "region" VNone ;;
           Ok (dict_set "league_info"
                 (VDict [("name", name); ("image_url", image_url);
                         ("region", region)])
                 enhanced_tournament)
         else Ok enhanced_tournament) ;;
      enhanced_tournament <-
        (if dict_has "series" t then
           series <- dict_getitem "series" t ;;
           name <- py_get series "name" VNone ;;
           season <- py_get series "season" VNone ;;
           Ok (dict_set "series_info"
                 (VDict [("name", name); ("season", season)])
                 enhanced_tournament)
         else Ok enhanced_tournament) ;;
      videogame <- py_get tournament "videogame" (VDict []) ;;
      slug <- py_get videogame "slug" VNone ;;
      if py_eq slug (VStr "league-of-legends") then
        Ok (VDict
              (dict_set "game_details"
                 (VDict [("patch_version",
                           match dict_get "patch_version" t with
                           | Some v => v | None => VNone end);
                         ("tournament_type",
                           match dict_get "tournament_type" t with
                           | Some v => v | None => VStr "Unknown" end);
                         ("region",
                           match dict_get "region" t with
                           | Some v => v | None => VStr "International" end)])
                 enhanced_tournament))
      else if py_eq slug (VStr "valorant") then
        Ok (VDict
              (dict_set "game_details"
                 (VDict [("patch",
                           match dict_get "patch" t with
                           | Some v => v | None => VStr "Unknown" end);
                         ("series_type",
                           match dict_get "serie_type" t with
                           | Some v => v | None => VStr "Unknown" end);
                         ("region",
                           match dict_get "region" t with
                           | Some v => v | None => VStr "International" end)])
                 enhanced_tournament))
      else Ok (VDict enhanced_tournament)
  | VList l =>
      if list_contains "league" l then list_index_error
      else if list_contains "series" l then list_index_error
      else AttributeError tournament "get"
  | _ => AttributeError tournament "copy"
  end.

(** *** get_match *)

Definition get_match (n : nat) (match_id : string) : result value :=
  let endpoint := (BASE_URL ++ "/matches/" ++ match_id)%string in
  response <- requests.get provider n endpoint [] ;;
  _ <- requests.raise_for_status response ;;
  requests.json response.

(** *** get_matches *)

(** One entry of the opponents comprehension: the four fields are each read
    through [opponent.get("opponent", {})]. *)
Definition opponent_entry (opponent : value) : result value :=
  o <- py_get opponent "opponent" (VDict []) ;;
  id <- py_get o "id" VNone ;;
  name <- py_get o "name" VNone ;;
  image_url <- py_get o "image_url" VNone ;;
  acronym <- py_get o "acronym" VNone ;;
  Ok (VDict [("opponent",
               VDict [("id", id); ("name", name); ("image_url", image_url);
                      ("acronym", acronym)])]).

Definition enhance_match (m : value) : result value :=
  match m with
  | VDict d =>
      if dict_has "opponents" d then
        opponents <- dict_getitem "opponents" d ;;
        items <- py_iter opponents ;;
        normalized <- map_result opponent_entry items ;;
        Ok (VDict (dict_set "opponents" (VList normalized) d))
      else Ok (VDict d)
  | VList l =>
      if list_contains "opponents" l then list_index_error else Ok (VList l)
  | _ => AttributeError m "copy"
  end.

Definition get_matches (n : nat) (tournament_id : option string)
           (status : string) (per_page : Z) : result (list value) :=
  let endpoint := (BASE_URL ++ "/matches")%string in
  let params := [("per_page", VInt per_page); ("status", VStr status)] in
  let params :=
    match tournament_id with
    | Some t => if given tournament_id
                then dict_set "tournament_id" (VStr t) params else params
    | None => params
    end in
  response <- requests.get provider n endpoint params ;;
  _ <- requests.raise_for_status response ;;
  matches <- requests.json response ;;
  items <- py_iter matches ;;
  map_result enhance_match items.

End PandaScoreAPI.
End PandaScoreAPI.

(** [len(obj)]. *)
Definition py_len (obj : value) : result nat :=
  match obj with
  | VList l => Ok (List.length l)
  | VDict d => Ok (List.length d)
  | VStr s => Ok (String.length s)
  | _ => TypeError ("object of type '" ++ type_name obj ++ "' has no len()")
  end.

(** [obj["key"]]. *)
Definition py_getitem (obj : value) (key : string) : result value :=
  match obj with
  | VDict d => dict_getitem key d
  | VList _ => TypeError "list indices must be integers or slices, not str"
  | VStr _ => TypeError "string indices must be integers, not 'str'"
  | _ => TypeError ("'" ++ type_name obj ++ "' object is not subscriptable")
  end.

(** [obj["key"] = v]. *)
Definition py_setitem (obj : value) (key : string) (v : value) : result value :=
  match obj with
  | VDict d => Ok (VDict (dict_set key v d))
  | VList _ => TypeError "list indices must be integers or slices, not str"
  | _ => TypeError ("'" ++ type_name obj
                      ++ "' object does not support item assignment")
  end.

(** [obj[i]] for a literal index [i >= 0]. *)
Definition py_index (obj : value) (i : nat) : result value :=
  match obj with
  | VList l =>
      match nth_error l i with
      | Some v => Ok v
      | None => Raise (Error "IndexError" "list index out of range")
      end
  | VDict _ => Raise (Error "KeyError" (NilZero.string_of_int (Z.to_int (Z.of_nat i))))
  | VStr s =>
      match nth_error (chars s) i with
      | Some v => Ok v
      | None => Raise (Error "IndexError" "string index out of range")
      end
  | _ => TypeError ("'" ++ type_name obj ++ "' object is not subscriptable")
  end.

(* ===================================================================== *)
(** ** models.py: the mapped classes *)
(* ===================================================================== *)

Section Models.
Context {RT : Runtime}.

(** A [Tournament] object; [Tournament_id] is the primary key, [None] until
    the row is inserted. [tournament_dict] of the handler is such an object
    without a key: unpacking the dict into the constructor sets exactly
    its seven columns. *)
Record Tournament : Type := mkTournament {
  Tournament_id : option Z;
  Tournament_external_id : string;        (* unique *)
  Tournament_name : value;
  Tournament_game : value;
  Tournament_start_date : option datetime;
  Tournament_end_date : option datetime;
  Tournament_status : value;
  Tournament_prize_pool : value
}.

Record Team : Type := mkTeam {
  Team_id : option Z;
  Team_external_id : string;              (* unique *)
  Team_name : value;
  Team_acronym : value;
  Team_image_url : value;
  Team_game : value;
  Team_rating : option float              (* default 1500.0 on insert *)
}.

(** What the session needs of a mapped class. *)
Class Mapped (R : Type) : Type := {
  primary_key : R -> option Z;
  with_primary_key : Z -> R -> R;
  external_id : R -> string;
  insert_defaults : R -> R;
  (** every column of [src] copied onto [dst], the primary key left alone *)
  setattrs : R -> R -> R
}.

#[export] Instance Tournament_Mapped : Mapped Tournament := {
  primary_key := Tournament_id;
  with_primary_key i t :=
    mkTournament (Some i) (Tournament_external_id t) (Tournament_name t)
      (Tournament_game t) (Tournament_start_date t) (Tournament_end_date t)
      (Tournament_status t) (Tournament_prize_pool t);
  external_id := Tournament_external_id;
  insert_defaults t := t;
  setattrs dst src :=
    mkTournament (Tournament_id dst) (Tournament_external_id src)
      (Tournament_name src) (Tournament_game src) (Tournament_start_date src)
      (Tournament_end_date src) (Tournament_status src)
      (Tournament_prize_pool src)
}.

#[export] Instance Team_Mapped : Mapped Team := {
  primary_key := Team_id;
  with_primary_key i t :=
    mkTeam (Some i) (Team_external_id t) (Team_name t) (Team_acronym t)
      (Team_image_url t) (Team_game t) (Team_rating t);
  external_id := Team_external_id;
  insert_defaults t :=
    mkTeam (Team_id t) (Team_external_id t) (Team_name t) (Team_acronym t)
      (Team_image_url t) (Team_game t)
      (match Team_rating t with Some r => Some r | None => Some 1500%float end);
  setattrs dst src :=
    mkTeam (Team_id dst) (Team_external_id src) (Team_name src)
      (Team_acronym src) (Team_image_url src) (Team_game src)
      (Team_rating src)
}.

(** The persisted store: the two tables the handlers write. The association
    table [tournament_teams] is never touched by them. *)
Record Store : Type := mkStore {
  tournaments : list Tournament;
  teams : list Team
}.
End Models.

(* ===================================================================== *)
(** ** The SQLAlchemy session the handlers receive from [get_db] *)
(* ===================================================================== *)

(** [database.py] is not part of the sources, so what it configures stays
    open: whether the session flushes before a query ([autoflush]), and when
    the driver fails ([db_error k] is the error, if any, of the [k]-th round
    trip of the request). The outbound side of a request is [provider]. *)
Record World : Type := mkWorld {
  provider : requests.Provider;
  autoflush : bool;
  db_error : nat -> option string
}.

Module Session.
Section Session.
Context {R : Type} {M : Mapped R}.
Variable w : World.

(** The transaction in progress: [rows] is the table as the transaction
    sees it (loaded objects carry their attribute changes), [pending] the
    objects added and not yet inserted, in the order they were added. *)
Record t : Type := mk {
  rows : list R;
  pending : list R;
  round_trips : nat
}.

Definition begin (table : list R) : t := mk table [] 0.

Definition has_external_id (e : string) (r : R) : bool :=
  String.eqb (external_id r) e.

Definition has_primary_key (i : Z) (r : R) : bool :=
  match primary_key r with
  | Some j => i =? j
  | None => false
  end.

(** The key an INSERT without one is given: one above the largest. *)
Definition next_id (table : list R) : Z :=
  1 + fold_right Z.max 0
        (map (fun r => match primary_key r with Some i => i | None => 0 end)
             table).

Definition IntegrityError {A} : result A :=
  Raise (Error "IntegrityError" "UNIQUE constraint failed").

(** INSERT the pending objects one by one. [external_id] is declared
    [unique=True] and the primary key is unique, so a row that repeats
    either is refused. *)
Fixpoint flush (table : list R) (news : list R) : result (list R) :=
  match news with
  | [] => Ok table
  | p :: rest =>
      if existsb (has_external_id (external_id p)) table then IntegrityError
      else
        match primary_key p with
        | Some i =>
            if existsb (has_primary_key i) table then IntegrityError
            else flush (table ++ [insert_defaults p]) rest
        | None =>
            flush (table ++ [with_primary_key (next_id table)
                               (insert_defaults p)]) rest
        end
  end.

Definition round_trip (s : t) : result t :=
  match db_error w (round_trips s) with
  | Some msg => Raise (Error "OperationalError" msg)
  | None => Ok (mk (rows s) (pending s) (S (round_trips s)))
  end.

Definition flush_if_auto (s : t) : result t :=
  if autoflush w then
    table <- flush (rows s) (pending s) ;;
    Ok (mk table [] (round_trips s))
  else Ok s.

Fixpoint find_index (f : R -> bool) (l : list R) : option nat :=
  match l with
  | [] => None
  | r :: rest =>
      if f r then Some 0%nat
      else match find_index f rest with
           | Some i => Some (S i)
           | None => None
           end
  end.

(** [db.query(C).filter(C.external_id == e).first()]: the object found is
    referred to by its position in [rows]. *)
Definition query_first (e : string) (s : t) : result (option nat * t) :=
  s <- round_trip s ;;
  s <- flush_if_auto s ;;
  Ok (find_index (has_external_id e) (rows s), s).

Fixpoint update_nth (i : nat) (f : R -> R) (l : list R) : list R :=
  match l, i with
  | [], _ => []
  | r :: rest, O => f r :: rest
  | r :: rest, S j => r :: update_nth j f rest
  end.

(** [for key, value in d.items(): setattr(obj, key, value)]. *)
Definition overwrite (i : nat) (src : R) (s : t) : t :=
  mk (update_nth i (fun dst => setattrs dst src) (rows s)) (pending s)
     (round_trips s).

(** [db.add(obj)]. *)
Definition add (obj : R) (s : t) : t :=
  mk (rows s) (pending s ++ [obj]) (round_trips s).

(** [db.merge(obj)] reconciles on the primary key, and on nothing else: an
    object without one becomes a new pending object without any lookup; an
    object with one is copied onto the row of that key when there is one. *)
Definition merge (obj : R) (s : t) : result t :=
  match primary_key obj with
  | None => Ok (add obj s)
  | Some i =>
      s <- round_trip s ;;
      s <- flush_if_auto s ;;
      match find_index (has_primary_key i) (rows s) with
      | Some j => Ok (overwrite j obj s)
      | None => Ok (add obj s)
      end
  end.

(** [db.commit()]: flush, then make the transaction's view the table. *)
Definition commit (s : t) : result (list R) :=
  s <- round_trip s ;;
  flush (rows s) (pending s).

End Session.
End Session.

(* ===================================================================== *)
(** ** main.py: the route handlers *)
(* ===================================================================== *)

(** What the framework sends back: the returned dict with status 200, or the
    status code and detail of the [HTTPException] that left the handler. *)
Inductive HTTPResponse : Type :=
| OK (content : value)
| Failed (status_code : Z) (detail : string).

Module main.
Section main.
Context {RT : Runtime}.
Variable w : World.

Definition pandascore_SUPPORTED_GAMES := PandaScoreAPI.SUPPORTED_GAMES.

(** *** GET /tournaments *)

Definition tournament_dict (t_data : value) : result Tournament :=
  begin_at <- py_get t_data "begin_at" VNone ;;
  end_at <- py_get t_data "end_at" VNone ;;
  id <- py_getitem t_data "id" ;;
  name <- py_get t_data "name" (VStr "Unnamed Tournament") ;;
  videogame <- py_get t_data "videogame" (VDict []) ;;
  game <- py_get videogame "name" (VStr "Unknown Game") ;;
  start_date <- parse_date begin_at ;;
  end_date <- parse_date end_at ;;
  status <- py_get t_data "status" (VStr "unknown") ;;
  prize_pool <- py_get t_data "prize_pool" (VStr "") ;;
  Ok (mkTournament None (py_str id) name game start_date end_date status
        prize_pool).

(** The loop over [tournaments_data]. *)
Fixpoint process_tournaments (tournaments_data : list value)
         (db : Session.t (R := Tournament)) : result Session.t :=
  match tournaments_data with
  | [] => Ok db
  | t_data :: rest =>
      d <- tournament_dict t_data ;;
      '(existing_tournament, db) <-
        Session.query_first w (Tournament_external_id d) db ;;
      let db :=
        match existing_tournament with
        | Some i => Session.overwrite i d db
        | None => Session.add d db
        end in
      process_tournaments rest db
  end.

(** The body of the outer [try]: the payload and the committed table. *)
Definition get_tournaments_try (game : option string) (status : string)
           (db : Session.t) : result (value * list Tournament) :=
  if given game && negb (PandaScoreAPI.supported game) then
    Raise (HTTPException 400
             ("Unsupported game. Supported games are: "
                ++ String.concat ", " (map fst pandascore_SUPPORTED_GAMES)))
  else
    tournaments_data <-
      PandaScoreAPI.get_tournaments (provider w) 0 game status 50 ;;
    db <- process_tournaments tournaments_data db ;;
    match Session.commit w db with
    | Ok table => Ok (VDict [("tournaments", VList tournaments_data)], table)
    | Raise _ =>
        (* db.rollback() *)
        Raise (HTTPException 500 "Failed to save tournaments to database")
    end.

(** A handler maps the store before the request to the response and the
    store after it. Only a commit changes the store: [db.rollback()], and
    closing a session that was not committed, leave it as it was. *)
Definition get_tournaments (game : option string) (status : string)
           (store : Store) : HTTPResponse * Store :=
  match get_tournaments_try game status (Session.begin (tournaments store)) with
  | Ok (content, table) => (OK content, mkStore table (teams store))
  | Raise (HTTPException status_code detail) => (Failed status_code detail, store)
  | Raise (Error _ msg) =>
      (* db.rollback() *)
      (Failed 500 ("Failed to fetch tournaments: " ++ msg), store)
  end.

(** *** GET /teams *)

Definition new_Team (t_data : value) : result Team :=
  id <- py_getitem t_data "id" ;;
  name <- py_get t_data "name" (VStr "Unnamed Team") ;;
  acronym <- py_get t_data "acronym" (VStr "") ;;
  image_url <- py_get t_data "image_url" (VStr "") ;;
  current_videogame <- py_get t_data "current_videogame" (VDict []) ;;
  game <- py_get current_videogame "name" (VStr "Unknown Game") ;;
  Ok (mkTeam None (py_str id) name acronym image_url game None).

Fixpoint process_teams (teams_data : list value)
         (db : Session.t (R := Team)) : result Session.t :=
  match teams_data with
  | [] => Ok db
  | t_data :: rest =>
      team <- new_Team t_data ;;
      db <- Session.merge w team db ;;
      process_teams rest db
  end.

Definition get_teams_try (game : option string) (db : Session.t)
  : result (value * list Team) :=
  teams_data <- PandaScoreAPI.get_teams (provider w) 0 game 50 ;;
  db <- process_teams teams_data db ;;
  table <- Session.commit w db ;;
  Ok (VDict [("teams", VList teams_data)], table).

(** [str(e)] of the exception the blanket handler caught. *)
Definition str_exn (e : exn) : string :=
  match e with
  | HTTPException status_code detail =>
      NilZero.string_of_int (Z.to_int status_code) ++ ": " ++ detail
  | Error _ msg => msg
  end.

Definition get_teams (game : option string) (store : Store)
  : HTTPResponse * Store :=
  match get_teams_try game (Session.begin (teams store)) with
  | Ok (content, table) => (OK content, mkStore (tournaments store) table)
  | Raise e =>
      (* db.rollback() *)
      (Failed 500 ("Failed to fetch teams: " ++ str_exn e), store)
  end.

(** *** GET /predictions/{match_id} *)

Definition get_match_prediction_try (match_id : string) : result value :=
  matches <- PandaScoreAPI.get_matches (provider w) 0 (Some match_id)
               "running,upcoming" 50 ;;
  let match_data := VList matches in
  if negb (truthy match_data) then
    Raise (HTTPException 404 ("Match with ID " ++ match_id ++ " not found"))
  else
    opponents <- py_get match_data "opponents" (VList []) ;;
    n <- py_len opponents ;;
    teams <-
      (if (2 <=? n)%nat then
         o <- py_getitem match_data "opponents" ;;
         o0 <- py_index o 0 ;;
         t0 <- py_getitem o0 "opponent" ;;
         name0 <- py_getitem t0 "name" ;;
         o <- py_getitem match_data "opponents" ;;
         o1 <- py_index o 1 ;;
         t1 <- py_getitem o1 "opponent" ;;
         name1 <- py_getitem t1 "name" ;;
         Ok [name0; name1]
       else Ok []) ;;
    Ok (VDict [("match_id", VStr match_id); ("teams", VList teams);
               ("prediction", VStr "pending"); ("confidence", VFloat 0%float)]).

Definition get_match_prediction (match_id : string) (store : Store)
  : HTTPResponse * Store :=
  match get_match_prediction_try match_id with
  | Ok content => (OK content, store)
  | Raise (HTTPException status_code detail) => (Failed status_code detail, store)
  | Raise (Error _ msg) =>
      (Failed 500 ("Failed to get match prediction: " ++ msg), store)
  end.

(** *** GET /tournaments/{tournament_id} *)

Definition get_tournament_details_try (tournament_id : string) : result value :=
  tournament_data <- PandaScoreAPI.get_tournament (provider w) 0 tournament_id ;;
  if negb (truthy tournament_data) then
    Raise (HTTPException 404
             ("Tournament with ID " ++ tournament_id ++ " not found"))
  else
    matches <- PandaScoreAPI.get_matches (provider w) 1 (Some tournament_id)
                 "running,upcoming" 50 ;;
    py_setitem tournament_data "matches" (VList matches).

Definition get_tournament_details (tournament_id : string) (store : Store)
  : HTTPResponse * Store :=
  match get_tournament_details_try tournament_id with
  | Ok content => (OK content, store)
  | Raise (HTTPException status_code detail) => (Failed status_code detail, store)
  | Raise (Error _ msg) =>
      (Failed 500 ("Failed to fetch tournament details: " ++ msg), store)
  end.

(** *** POST /predictions/{match_id} *)

Definition create_prediction_try (match_id : string) (prediction : value)
  : result value :=
  match_data <- PandaScoreAPI.get_match (provider w) 0 match_id ;;
  if negb (truthy match_data) then
    Raise (HTTPException 404 ("Match with ID " ++ match_id ++ " not found"))
  else
    status <- py_get match_data "status" VNone ;;
    if py_eq status (VStr "finished") then
      Raise (HTTPException 400 "Cannot make predictions for finished matches")
    else
      Ok (VDict [("status", VStr "success");
                 ("message", VStr "Prediction recorded");
                 ("prediction", prediction)]).

Definition create_prediction (match_id : string) (prediction : value)
           (store : Store) : HTTPResponse * Store :=
  match create_prediction_try match_id prediction with
  | Ok content => (OK content, store)
  | Raise (HTTPException status_code detail) => (Failed status_code detail, store)
  | Raise (Error _ msg) =>
      (Failed 500 ("Failed to create prediction: " ++ msg), store)
  end.

End main.
End main.

(* ===================================================================== *)
(** ** Notions the specification speaks in *)
(* ===================================================================== *)

Definition is_dict (v : value) : bool :=
  match v with VDict _ => true | _ => false end.

(** The videogame slug of a tournament record. *)
Definition videogame_slug (record : value) : option value :=
  match record with
  | VDict d =>
      match dict_get "videogame" d with
      | Some (VDict v) => dict_get "slug" v
      | _ => None
      end
  | _ => None
  end.

(** A match counts as a win of [team_id] when its [winner_id] equals it. *)
Definition is_win (team_id : value) (m : value) : bool :=
  match m with
  | VDict d =>
      py_eq (match dict_get "winner_id" d with Some v => v | None => VNone end)
            team_id
  | _ => false
  end.

(** The keys the tournament fetch and the team fetch attach. *)
Definition tournament_enrichment_keys : list string :=
  ["league_info"; "series_info"; "game_details"].
Definition team_enrichment_keys : list string :=
  ["roster"; "recent_performance"].

(** Every key of [raw] with its value in [enriched]. *)
Definition keeps_every_key (raw enriched : pydict) : Prop :=
  forall k v, dict_get k raw = Some v -> dict_get k enriched = Some v.

(** [enriched] is [raw] up to the keys in [added]: no key of [raw] is lost,
    and outside [added] the two have the same keys with the same values. *)
Definition enriches (added : list string) (raw enriched : value) : Prop :=
  match raw, enriched with
  | VDict r, VDict e =>
      (forall k, dict_has k r = true -> dict_has k e = true) /\
      (forall k, ~ In k added -> dict_get k e = dict_get k r)
  | _, _ => enriched = raw
  end.

(** [d.get(k, default)] of a dict. *)
Definition dict_get_or (k : string) (default : value) (d : pydict) : value :=
  match dict_get k d with Some v => v | None => default end.

(** The detail block attached for a League of Legends tournament, and the
    one attached for a Valorant tournament. *)
Definition lol_game_details (t : pydict) : value :=
  VDict [("patch_version", dict_get_or "patch_version" VNone t);
         ("tournament_type", dict_get_or "tournament_type" (VStr "Unknown") t);
         ("region", dict_get_or "region" (VStr "International") t)].

Definition valorant_game_details (t : pydict) : value :=
  VDict [("patch", dict_get_or "patch" (VStr "Unknown") t);
         ("series_type", dict_get_or "serie_type" (VStr "Unknown") t);
         ("region", dict_get_or "region" (VStr "International") t)].

(** The field [k] of an opponent as the match list fetch reads it:
    [opponent.get("opponent", {}).get(k)]. *)
Definition opponent_field (k : string) (opponent : value) : value :=
  match opponent with
  | VDict o =>
      match dict_get "opponent" o with
      | Some (VDict team) => dict_get_or k VNone team
      | _ => VNone
      end
  | _ => VNone
  end.

(** The fixed shape an opponent is normalized to. *)
Definition normalized_opponent (opponent : value) : value :=
  VDict [("opponent",
           VDict [("id", opponent_field "id" opponent);
                  ("name", opponent_field "name" opponent);
                  ("image_url", opponent_field "image_url" opponent);
                  ("acronym", opponent_field "acronym" opponent)])].

(** The roster entry made of a player. *)
Definition roster_of (player : pydict) : value :=
  VDict [("name", dict_get_or "name" VNone player);
         ("role", dict_get_or "role" VNone player);
         ("hometown", dict_get_or "hometown" VNone player);
         ("image_url", dict_get_or "image_url" VNone player)].

(** An exception other than [HTTPException]: what the blanket handlers turn
    into status 500. *)
Definition plain_error (e : exn) : Prop :=
  match e with
  | Error _ _ => True
  | HTTPException _ _ => False
  end.

(** The records the provider sent in reply to a list request. *)
Definition provider_records (p : requests.Provider) (n : nat)
           (endpoint : string) (params : pydict) : option (list value) :=
  match p n endpoint params with
  | inr r =>
      match requests.body r with
      | inr content =>
          match py_iter content with
          | Ok raw => Some raw
          | Raise _ => None
          end
      | inl _ => None
      end
  | inl _ => None
  end.

Section Upsert.
Context {R : Type} {M : Mapped R}.

(** Upsert in the glossary's words: insert if absent, else overwrite in
    place, keyed by external id. *)
Definition upsert (table : list R) (d : R) : list R :=
  match Session.find_index (Session.has_external_id (external_id d)) table with
  | Some i => Session.update_nth i (fun dst => setattrs dst d) table
  | None =>
      table ++ [with_primary_key (Session.next_id table) (insert_defaults d)]
  end.

(** Plain insertion of a new row under a fresh key. *)
Definition insert (table : list R) (d : R) : list R :=
  table ++ [with_primary_key (Session.next_id table) (insert_defaults d)].

Definition rows_with (e : string) (table : list R) : list R :=
  filter (Session.has_external_id e) table.

(** The table constraint [unique=True] on [external_id]. *)
Definition unique_external_ids (table : list R) : Prop :=
  NoDup (map external_id table).

(** Two tables with the same external ids and primary keys, row by row. *)
Definition same_keys : list R -> list R -> Prop :=
  Forall2 (fun r r' => external_id r = external_id r' /\
                       primary_key r = primary_key r').

(** What a session amounts to: the table its pending inserts would make,
    were they flushed now. *)
Definition effect (s : Session.t) : result (list R) :=
  Session.flush (Session.rows s) (Session.pending s).
End Upsert.

(** What the proofs use of a mapped class: [setattrs] writes every column
    but the primary key, and neither the key assigned on insert nor a column
    default touches the external id. *)
Class MappedLaws (R : Type) {M : Mapped R} : Prop := {
  setattrs_external_id : forall dst src : R,
    external_id (setattrs dst src) = external_id src;
  setattrs_primary_key : forall dst src : R,
    primary_key (setattrs dst src) = primary_key dst;
  setattrs_setattrs : forall dst x src : R,
    setattrs (setattrs dst x) src = setattrs dst src;
  with_primary_key_external_id : forall i (r : R),
    external_id (with_primary_key i r) = external_id r;
  insert_defaults_external_id : forall r : R,
    external_id (insert_defaults r) = external_id r
}.

(** A computation that, when it raises, raises a plain error. *)
Definition raises_plain {A : Type} (m : result A) : Prop :=
  forall e, m = Raise e -> plain_error e.

(** What the match list fetch makes of a match: a dict keeps every key but
    [opponents], whose entries are each put in the fixed shape; anything else
    that passes is returned as it is. *)
Definition normalizes (m e : value) : Prop :=
  match m with
  | VDict d =>
      exists d',
        e = VDict d' /\
        (forall k, k <> "opponents" -> dict_get k d' = dict_get k d) /\
        match dict_get "opponents" d with
        | Some opponents =>
            exists items,
              py_iter opponents = Ok items /\
              dict_get "opponents" d'
              = Some (VList (map normalized_opponent items))
        | None => d' = d
        end
  | _ => e = m
  end.

(** What the team fetch makes of the players of a team. *)
Definition has_roster (team e : value) : Prop :=
  match team, e with
  | VDict t, VDict d =>
      match dict_get "players" t with
      | Some players =>
          exists items roster,
            py_iter players = Ok items /\
            dict_get "roster" d = Some (VList roster) /\
            Forall2 (fun player entry =>
                       exists p, player = VDict p /\ entry = roster_of p)
                    items roster
      | None => dict_get "roster" d = dict_get "roster" t
      end
  | _, _ => e = team
  end.

Section RecentPerformance.
Context {RT : Runtime}.

(** What the team fetch for League of Legends makes of a team with its
    [k]-th request: the team's five most recent matches are asked for; a
    reply with a success status gives [recent_performance], any other reply
    leaves the key as it was. *)
Definition recent_performance_of (provider : requests.Provider) (k : nat)
           (team e : value) : Prop :=
  exists t d id response,
    team = VDict t /\ e = VDict d /\
    dict_get "id" t = Some id /\
    provider k
      (PandaScoreAPI.BASE_URL ++ "/teams/" ++ py_str id ++ "/matches")%string
      [("per_page", VInt 5)]
    = inr response /\
    if requests.ok response then
      exists recent_matches win_rate,
        requests.body response = inr recent_matches /\
        PandaScoreAPI._calculate_win_rate recent_matches id = Ok win_rate /\
        dict_get "recent_performance" d
        = Some (VDict [("matches", recent_matches);
                       ("win_rate", VFloat win_rate)])
    else dict_get "recent_performance" d = dict_get "recent_performance" t.
End RecentPerformance.

(** The row GET /teams inserts for a team object: the object's columns under
    a primary key, with the default rating. *)
Definition inserted_row (team row : Team) : Prop :=
  exists i,
    row = mkTeam (Some i) (Team_external_id team) (Team_name team)
            (Team_acronym team) (Team_image_url team) (Team_game team)
            (Some 1500%float).

Section Overwrite.
Context {R : Type} {M : Mapped R}.

(** What upserting [d] does to a row when the key of [d] has a row. *)
Definition overwrite_row (d r : R) : R :=
  if Session.has_external_id (external_id d) r then setattrs r d else r.

Definition overwrite_rows (ds : list R) (r : R) : R :=
  fold_left (fun r d => overwrite_row d r) ds r.
End Overwrite.

(* ===================================================================== *)
(** ** Concrete inputs used to exercise the statements below *)
(* ===================================================================== *)

Module Sample.

(** A runtime in which every date string parses, to itself. *)
Definition runtime : Runtime :=
  {| datetime := string;
     fromisoformat := fun s => inr s;
     repr := fun _ => "<repr>" |}.

Definition reply (status_code : Z) (content : value) : string + requests.Response :=
  inr (requests.mkResponse status_code "HTTP error" (inr content)).

(** A provider that answers every request with [content] and status 200. *)
Definition always (content : value) : requests.Provider :=
  fun _ _ _ => reply 200 content.

(** A provider that answers every request with status 404. *)
Definition not_found : requests.Provider :=
  fun _ _ _ =>
    inr (requests.mkResponse 404 "404 Client Error: Not Found"
           (inr (VDict [("error", VStr "Not Found")]))).

Definition world (p : requests.Provider) : World :=
  mkWorld p false (fun _ => None).

Definition empty_store : Store (RT := runtime) := mkStore [] [].

Definition record (id : Z) (name : string) : value :=
  VDict [("id", VInt id); ("name", VStr name)].

Definition lol_record (id : Z) (name : string) : value :=
  VDict [("id", VInt id); ("name", VStr name);
         ("videogame", VDict [("slug", VStr "league-of-legends")])].

Definition won_by (id : Z) : value := VDict [("winner_id", VInt id)].

(** The store after a first GET /teams that fetched [record 1 "T1"]. *)
Definition store_with_T1 : Store (RT := runtime) :=
  mkStore []
    [mkTeam (Some 1) "1" (VStr "T1") (VStr "") (VStr "")
       (VStr "Unknown Game") (Some 1500%float)].

(** What [main.tournament_dict] makes of [record id name]. *)
Definition tournament_dict_of (id : Z) (name : string)
  : Tournament (RT := runtime) :=
  mkTournament None (NilZero.string_of_int (Z.to_int id)) (VStr name)
    (VStr "Unknown Game") None None (VStr "unknown") (VStr "").

(** The store after a first GET /tournaments that fetched [record 1 "LCK"],
    and after a second that fetched [record 1 "LCK Spring"] and
    [record 2 "LEC"]. *)
Definition store_after_first : Store (RT := runtime) :=
  mkStore [with_primary_key 1 (tournament_dict_of 1 "LCK")] [].

Definition store_after_second : Store (RT := runtime) :=
  mkStore [with_primary_key 1 (tournament_dict_of 1 "LCK Spring");
           with_primary_key 2 (tournament_dict_of 2 "LEC")] [].

(** A world whose database answers the first round trip of a request and
    fails the second: with one record fetched, that is the commit. *)
Definition commit_fails (p : requests.Provider) : World :=
  mkWorld p false
    (fun k => if (k =? 1)%nat then Some "database is locked" else None).

(** A match between two teams, as the provider lists it. *)
Definition match_fields (id : Z) (status home away : string) : pydict :=
  [("id", VInt id); ("status", VStr status);
   ("opponents",
     VList [VDict [("opponent", VDict [("name", VStr home)])];
            VDict [("opponent", VDict [("name", VStr away)])]])].

Definition match_record (id : Z) (status home away : string) : value :=
  VDict (match_fields id status home away).

Definition prediction : value := VDict [("winner", VStr "T1")].

(** A record that already carries a key the enrichment writes. *)
Definition record_with_league_info : pydict :=
  [("id", VInt 1); ("league", VDict [("name", VStr "LCK")]);
   ("league_info", VStr "as sent")].

(** A provider that answers with status 200: [first] to the first request
    of a handler, [later] to every other one. *)
Definition first_then (first later : value) : requests.Provider :=
  fun n _ _ =>
    match n with
    | O => reply 200 first
    | S _ => reply 200 later
    end.

Definition not_found_response : requests.Response :=
  requests.mkResponse 404 "404 Client Error: Not Found"
    (inr (VDict [("error", VStr "Not Found")])).

Definition lol_tournament : pydict :=
  [("id", VInt 7); ("name", VStr "Worlds");
   ("videogame", VDict [("slug", VStr "league-of-legends")]);
   ("league", VDict [("name", VStr "LoL Worlds")])].

(** A record of a league whose videogame is null. *)
Definition null_videogame : pydict :=
  [("id", VInt 8); ("league", VDict [("name", VStr "LCK")]);
   ("videogame", VNone)].

Definition team_with_players : value :=
  VDict [("id", VInt 3);
         ("players", VList [VDict [("name", VStr "Faker"); ("role", VStr "mid")]])].

Definition two_tournaments : value :=
  VList [record 1 "LCK"; lol_record 2 "LEC"].

Definition lol_teams : requests.Provider :=
  first_then (VList [VDict [("id", VInt 3)]]) (VList [won_by 3; won_by 4]).

Definition details_world : World :=
  world (first_then (VDict lol_tournament)
           (VList [match_record 42 "running" "T1" "G2"])).

Definition second_refresh : World :=
  world (always (VList [record 1 "LCK Spring"; record 2 "LEC"])).

Definition returned {A : Type} (default : A) (m : result A) : A :=
  match m with
  | Ok a => a
  | Raise _ => default
  end.

Definition content_of (r : HTTPResponse) : value :=
  match r with
  | OK content => content
  | Failed _ _ => VNone
  end.

(** What the fetches and handlers return on these inputs, by evaluation. *)
Definition unfiltered_result : list value :=
  Eval vm_compute in
    returned []
      (PandaScoreAPI.get_tournaments (always two_tournaments) 0 None
         "running,upcoming" 50).

Definition lol_tournament_result : value :=
  Eval vm_compute in
    returned VNone
      (PandaScoreAPI.get_tournament (always (VDict lol_tournament)) 0 "7").

Definition details_content : value :=
  Eval vm_compute in
    content_of
      (fst (main.get_tournament_details (RT := runtime) details_world "7"
              empty_store)).

Definition matches_result : list value :=
  Eval vm_compute in
    returned []
      (PandaScoreAPI.get_matches
         (always (VList [match_record 42 "running" "T1" "G2"])) 0 (Some "7")
         "running,upcoming" 50).

Definition roster_result : list value :=
  Eval vm_compute in
    returned []
      (PandaScoreAPI.get_teams (RT := runtime)
         (always (VList [team_with_players])) 0 None 50).

Definition lol_teams_result : list value :=
  Eval vm_compute in
    returned []
      (PandaScoreAPI.get_teams (RT := runtime) lol_teams 0 (Some "lol") 50).

(** [record_with_league_info] and [lol_tournament] as the tournament fetch
    returns them without a game filter: the first with its [league_info]
    replaced, the second with a [league_info] it did not have. *)
Definition league_info_overwritten : value :=
  VDict [("id", VInt 1); ("league", VDict [("name", VStr "LCK")]);
         ("league_info",
           VDict [("name", VStr "LCK"); ("image_url", VNone);
                  ("region", VNone)])].

Definition league_info_added : value :=
  VDict [("id", VInt 7); ("name", VStr "Worlds");
         ("videogame", VDict [("slug", VStr "league-of-legends")]);
         ("league", VDict [("name", VStr "LoL Worlds")]);
         ("league_info",
           VDict [("name", VStr "LoL Worlds"); ("image_url", VNone);
                  ("region", VNone)])].

(** [team_with_players] as the team fetch returns it. *)
Definition team_with_roster : value :=
  VDict [("id", VInt 3);
         ("players", VList [VDict [("name", VStr "Faker"); ("role", VStr "mid")]]);
         ("roster",
           VList [VDict [("name", VStr "Faker"); ("role", VStr "mid");
                         ("hometown", VNone); ("image_url", VNone)]])].

End Sample.

(* ===================================================================== *)
(** * Properties *)
(* ===================================================================== *)

(** ** Facts about the builtins *)

Lemma bind_Ok {A B} (m : result A) (k : A -> result B) (b : B) :
  bind m k = Ok b -> exists a, m = Ok a /\ k a = Ok b.
Proof.
  destruct m as [a|e]; simpl; intros H; [eauto | discriminate].
Qed.

(** Inverts the hypotheses saying that a chain of binds ended in [Ok]. *)
Ltac unbind :=
  repeat match goal with
    | H : bind _ _ = Ok _ |- _ =>
        let x := fresh "x" in
        let E := fresh "E" in
        apply bind_Ok in H; destruct H as [x [E H]]
    | H : Raise _ = Ok _ |- _ => discriminate H
    | H : None = Some _ |- _ => discriminate H
    | H : Some _ = Some _ |- _ => injection H; clear H; intros; try subst
    | H : Ok _ = Ok _ |- _ => injection H; clear H; intros; try subst
    | H : (if ?c then _ else _) = Ok _ |- _ => destruct c eqn:?
    | H : _ = Ok _ |- _ => discriminate H
    end.

Lemma py_eq_str (v : value) (s : string) :
  py_eq v (VStr s) = true -> v = VStr s.
Proof.
  destruct v as [|b|z|f|t|l|d]; simpl; try discriminate.
  intros H. apply String.eqb_eq in H. now subst.
Qed.

Lemma dict_get_set_same (k : string) (v : value) (d : pydict) :
  dict_get k (dict_set k v d) = Some v.
Proof.
  induction d as [|[k' v'] d IH]; simpl.
  - now rewrite String.eqb_refl.
  - destruct (String.eqb k k') eqn:E; simpl; rewrite E; auto.
Qed.

Lemma dict_get_set_other (k k' : string) (v : value) (d : pydict) :
  k <> k' -> dict_get k (dict_set k' v d) = dict_get k d.
Proof.
  intros Hne. induction d as [|[k0 v0] d IH]; simpl.
  - destruct (String.eqb k k') eqn:E; auto.
    apply String.eqb_eq in E. contradiction.
  - destruct (String.eqb k' k0) eqn:E'; simpl.
    + apply String.eqb_eq in E'. subst k0.
      destruct (String.eqb k k') eqn:E; auto.
      apply String.eqb_eq in E. contradiction.
    + destruct (String.eqb k k0); auto.
Qed.

Lemma dict_has_set (k k' : string) (v : value) (d : pydict) :
  dict_has k d = true -> dict_has k (dict_set k' v d) = true.
Proof.
  unfold dict_has. intros H.
  destruct (String.eqb k k') eqn:E.
  - apply String.eqb_eq in E. subst. now rewrite dict_get_set_same.
  - apply String.eqb_neq in E. now rewrite dict_get_set_other.
Qed.

(** ** The win rate *)

Lemma count_wins_dicts (matches : list value) (team_id : value) :
  Forall (fun m => is_dict m = true) matches ->
  PandaScoreAPI.count_wins matches team_id
  = Ok (List.length (filter (is_win team_id) matches)).
Proof.
  induction 1 as [|m rest Hm _ IH]; simpl; [reflexivity|].
  destruct m; try discriminate. simpl. rewrite IH. simpl.
  now destruct (py_eq _ team_id).
Qed.

(** C4. The win rate of an empty match list is 0.0; for a non-empty list of
    N matches (each a JSON object) of which W have [winner_id] equal to the
    team id, it is the double (W / N) * 100. *)
Theorem calculate_win_rate_exact (matches : list value) (team_id : value) :
  Forall (fun m => is_dict m = true) matches ->
  PandaScoreAPI._calculate_win_rate (VList matches) team_id
  = Ok (match matches with
        | [] => 0%float
        | _ =>
            let W := List.length (filter (is_win team_id) matches) in
            let N := List.length matches in
            PrimFloat.mul
              (PrimFloat.div (PandaScoreAPI.float_of_nat W)
                             (PandaScoreAPI.float_of_nat N))
              100%float
        end).
Proof.
  intros Hd. unfold PandaScoreAPI._calculate_win_rate.
  destruct matches as [|m rest]; [reflexivity|].
  cbn [truthy negb py_iter bind].
  now rewrite (count_wins_dicts (m :: rest) team_id Hd).
Qed.

Lemma calculate_win_rate_exact_witness :
  PandaScoreAPI._calculate_win_rate
    (VList [Sample.won_by 7; Sample.won_by 8; Sample.won_by 9]) (VInt 7)
  = Ok (PrimFloat.mul (PrimFloat.div 1%float 3%float) 100%float).
Proof.
  exact (calculate_win_rate_exact
           [Sample.won_by 7; Sample.won_by 8; Sample.won_by 9] (VInt 7)
           ltac:(repeat constructor)).
Defined.

(** ** Enrichment *)

Lemma enriches_refl (added : list string) (d : pydict) :
  enriches added (VDict d) (VDict d).
Proof. split; auto. Qed.

Lemma enriches_set (added : list string) (k : string) (v : value)
      (raw d : pydict) :
  In k added ->
  enriches added (VDict raw) (VDict d) ->
  enriches added (VDict raw) (VDict (dict_set k v d)).
Proof.
  intros Hin [Hk Hv]. split.
  - intros k0 H0. apply dict_has_set. auto.
  - intros k0 H0. rewrite dict_get_set_other; auto.
    intros ->. contradiction.
Qed.

Ltac enriched :=
  repeat (apply enriches_set; [simpl; tauto|]); apply enriches_refl.

Section Enrichment.
Context {RT : Runtime}.
Variable provider : requests.Provider.

Lemma enhance_tournament_enriches (game : option string) (t e : value) :
  PandaScoreAPI.enhance_tournament game t = Ok (Some e) ->
  is_dict t = true /\ enriches tournament_enrichment_keys t e.
Proof.
  unfold PandaScoreAPI.enhance_tournament. intros H.
  destruct t as [| | | | |l|raw]; try discriminate H.
  split; [reflexivity|].
  unbind;
    repeat match goal with
      | |- context [if ?c then _ else _] => destruct c
      end;
    enriched.
Qed.

Lemma supported_given (game slug : string) :
  PandaScoreAPI.games_get game PandaScoreAPI.SUPPORTED_GAMES = Some slug ->
  given (Some game) = true /\ PandaScoreAPI.supported (Some game) = true.
Proof.
  intros Hg. unfold PandaScoreAPI.supported. rewrite Hg. split; auto.
  simpl. destruct (String.eqb game "") eqn:E; auto.
  apply String.eqb_eq in E. subst. discriminate Hg.
Qed.

Lemma enhance_tournament_slug (game slug : string) (t e : value) :
  PandaScoreAPI.games_get game PandaScoreAPI.SUPPORTED_GAMES = Some slug ->
  PandaScoreAPI.enhance_tournament (Some game) t = Ok (Some e) ->
  videogame_slug e = Some (VStr slug).
Proof.
  intros Hg H.
  destruct (enhance_tournament_enriches _ _ _ H) as [Hd He].
  destruct t as [| | | | |l|raw]; try discriminate Hd.
  assert (Hs : videogame_slug (VDict raw) = Some (VStr slug)).
  { unfold PandaScoreAPI.enhance_tournament in H.
    apply bind_Ok in H. destruct H as [vg [Hvg H]].
    apply bind_Ok in H. destruct H as [gs [Hgs H]].
    apply bind_Ok in H. destruct H as [skip [Hskip H]].
    destruct skip; [discriminate|]. clear H.
    destruct (supported_given _ _ Hg) as [G1 G2].
    rewrite G1, G2 in Hskip. unfold PandaScoreAPI.games_getitem in Hskip.
    rewrite Hg in Hskip. simpl in Hskip. injection Hskip as Hskip.
    apply negb_false_iff in Hskip. apply py_eq_str in Hskip. subst gs.
    simpl in Hvg. injection Hvg as <-. simpl.
    destruct (dict_get "videogame" raw) as [v|]; [|discriminate].
    destruct v; try discriminate. simpl in Hgs.
    destruct (dict_get "slug" d); congruence. }
  destruct e as [| | | | | |d]; simpl in He; try discriminate.
  destruct He as [_ He]. unfold videogame_slug in *.
  rewrite He; auto. simpl. intuition discriminate.
Qed.

Lemma filter_tournaments_from (game : option string) (raw result : list value) :
  PandaScoreAPI.filter_tournaments game raw = Ok result ->
  Forall (fun e => exists t, In t raw /\
                   PandaScoreAPI.enhance_tournament game t = Ok (Some e))
         result.
Proof.
  revert result. induction raw as [|t rest IH]; simpl; intros result H.
  - injection H as <-. constructor.
  - unbind. specialize (IH _ E0).
    assert (IH' : Forall (fun e => exists t0, (t = t0 \/ In t0 rest) /\
              PandaScoreAPI.enhance_tournament game t0 = Ok (Some e)) x0).
    { eapply Forall_impl; [|exact IH]. intros e [t0 [? ?]]. eauto. }
    destruct x as [e|]; [constructor; eauto | assumption].
Qed.

Lemma provider_records_intro (n : nat) (endpoint : string) (params : pydict)
      (response : requests.Response) (content : value) (raw : list value) :
  requests.get provider n endpoint params = Ok response ->
  requests.json response = Ok content ->
  py_iter content = Ok raw ->
  provider_records provider n endpoint params = Some raw.
Proof.
  unfold requests.get, requests.json, provider_records.
  destruct (provider n endpoint params) as [msg|r]; [discriminate|].
  intros [= ->]. destruct (requests.body response); [discriminate|].
  intros [= ->] ->. reflexivity.
Qed.

Lemma get_tournaments_fetched (n : nat) (game : option string)
      (status : string) (per_page : Z) (result : list value) :
  PandaScoreAPI.get_tournaments provider n game status per_page = Ok result ->
  exists endpoint params raw,
    provider_records provider n endpoint params = Some raw /\
    PandaScoreAPI.filter_tournaments game raw = Ok result.
Proof.
  unfold PandaScoreAPI.get_tournaments. intros H.
  destruct (given game && negb (PandaScoreAPI.supported game));
    [discriminate|].
  cbv zeta in H.
  apply bind_Ok in H. destruct H as [params [_ H]].
  apply bind_Ok in H. destruct H as [response [Hget H]].
  apply bind_Ok in H. destruct H as [u [_ H]].
  apply bind_Ok in H. destruct H as [content [Hjson H]].
  apply bind_Ok in H. destruct H as [raw [Hiter H]].
  eauto 6 using provider_records_intro.
Qed.

Lemma enhance_team_enriches (k k' : nat) (game : option string)
      (t e : value) :
  PandaScoreAPI.enhance_team provider k game t = Ok (e, k') ->
  enriches team_enrichment_keys t e.
Proof.
  unfold PandaScoreAPI.enhance_team, PandaScoreAPI.list_index_error.
  intros H.
  destruct t as [| | | | |l|raw]; try discriminate H.
  - unbind. reflexivity.
  - unbind; enriched.
Qed.

Lemma enhance_teams_enrich (game : option string) (raw : list value) :
  forall k result,
    PandaScoreAPI.enhance_teams provider k game raw = Ok result ->
    Forall2 (enriches team_enrichment_keys) raw result.
Proof.
  induction raw as [|t rest IH]; simpl; intros k result H.
  - injection H as <-. constructor.
  - unbind. destruct x as [e k']. unbind.
    constructor; eauto using enhance_team_enriches.
Qed.

Lemma get_teams_fetched (n : nat) (game : option string) (per_page : Z)
      (result : list value) :
  PandaScoreAPI.get_teams provider n game per_page = Ok result ->
  exists endpoint params raw,
    provider_records provider n endpoint params = Some raw /\
    PandaScoreAPI.enhance_teams provider (S n) game raw = Ok result.
Proof.
  unfold PandaScoreAPI.get_teams. intros H.
  destruct (given game && negb (PandaScoreAPI.supported game));
    [discriminate|].
  cbv zeta in H.
  apply bind_Ok in H. destruct H as [params [_ H]].
  apply bind_Ok in H. destruct H as [response [Hget H]].
  apply bind_Ok in H. destruct H as [u [_ H]].
  apply bind_Ok in H. destruct H as [content [Hjson H]].
  apply bind_Ok in H. destruct H as [raw [Hiter H]].
  eauto 6 using provider_records_intro.
Qed.

(** C3. With a game filter from the supported set, every record the
    tournament fetch returns has the videogame slug expected for that
    game. *)
Theorem get_tournaments_post_filter (n : nat) (game slug status : string)
        (per_page : Z) (result : list value) :
  PandaScoreAPI.games_get game PandaScoreAPI.SUPPORTED_GAMES = Some slug ->
  PandaScoreAPI.get_tournaments provider n (Some game) status per_page
  = Ok result ->
  Forall (fun record => videogame_slug record = Some (VStr slug)) result.
Proof.
  intros Hg H.
  destruct (get_tournaments_fetched _ _ _ _ _ H) as (_ & _ & raw & _ & Hf).
  eapply Forall_impl; [|exact (filter_tournaments_from _ _ _ Hf)].
  intros e (t & _ & He). eauto using enhance_tournament_slug.
Qed.

(** C10, as amended. Every record the tournament fetch or the team fetch
    returns comes from a record the provider sent, keeps every key of it,
    and agrees with it on every key other than the enrichment keys
    (league_info, series_info, game_details; roster, recent_performance),
    which are the only keys it can add or overwrite. *)
Theorem enrichment_keeps_other_keys (n : nat) (game : option string)
        (status : string) (per_page : Z) :
  (forall result,
      PandaScoreAPI.get_tournaments provider n game status per_page
      = Ok result ->
      exists endpoint params raw,
        provider_records provider n endpoint params = Some raw /\
        Forall (fun e => exists t, In t raw /\
                         enriches tournament_enrichment_keys t e) result)
  /\
  (forall result,
      PandaScoreAPI.get_teams provider n game per_page = Ok result ->
      exists endpoint params raw,
        provider_records provider n endpoint params = Some raw /\
        Forall2 (enriches team_enrichment_keys) raw result).
Proof.
  split; intros result H.
  - destruct (get_tournaments_fetched _ _ _ _ _ H)
      as (endpoint & params & raw & Hr & Hf).
    exists endpoint, params, raw. split; [assumption|].
    eapply Forall_impl; [|exact (filter_tournaments_from _ _ _ Hf)].
    intros e (t & Hin & He). exists t. split; [assumption|].
    now apply enhance_tournament_enriches in He.
  - destruct (get_teams_fetched _ _ _ _ H)
      as (endpoint & params & raw & Hr & Hf).
    eauto 6 using enhance_teams_enrich.
Qed.
End Enrichment.

Lemma get_tournaments_post_filter_witness :
  Forall (fun record => videogame_slug record = Some (VStr "league-of-legends"))
         [VDict [("id", VInt 2); ("name", VStr "LCK");
                 ("videogame", VDict [("slug", VStr "league-of-legends")]);
                 ("game_details",
                   VDict [("patch_version", VNone);
                          ("tournament_type", VStr "Unknown");
                          ("region", VStr "International")])]].
Proof.
  exact (get_tournaments_post_filter
           (Sample.always
              (VList [VDict [("id", VInt 1);
                             ("videogame", VDict [("slug", VStr "valorant")])];
                      Sample.lol_record 2 "LCK"]))
           0 "lol" "league-of-legends" "running,upcoming" 50 _
           eq_refl eq_refl).
Defined.

(** C10, as first stated, fails: a record that already has a [league_info]
    key comes back with that key's value replaced. *)
Lemma enrichment_overwrites_enrichment_key :
  exists enriched,
    PandaScoreAPI.get_tournaments
      (Sample.always (VList [VDict Sample.record_with_league_info]))
      0 None "running,upcoming" 50
    = Ok [VDict enriched]
    /\ ~ keeps_every_key Sample.record_with_league_info enriched.
Proof.
  eexists. split; [vm_compute; reflexivity|].
  intros Hk. specialize (Hk "league_info" (VStr "as sent") eq_refl).
  discriminate Hk.
Qed.

Lemma enrichment_keeps_other_keys_witness :
  (exists endpoint params raw,
      provider_records
        (Sample.always (VList [VDict Sample.record_with_league_info;
                               VDict Sample.lol_tournament]))
        0 endpoint params = Some raw /\
      Forall (fun e => exists t, In t raw /\
                       enriches tournament_enrichment_keys t e)
             [Sample.league_info_overwritten; Sample.league_info_added])
  /\
  (exists endpoint params raw,
      provider_records (Sample.always (VList [Sample.team_with_players]))
        0 endpoint params = Some raw /\
      Forall2 (enriches team_enrichment_keys) raw [Sample.team_with_roster]).
Proof.
  split.
  - exact (proj1 (enrichment_keeps_other_keys (RT := Sample.runtime)
                    (Sample.always (VList [VDict Sample.record_with_league_info;
                                           VDict Sample.lol_tournament]))
                    0 None "running,upcoming" 50)
                 [Sample.league_info_overwritten; Sample.league_info_added]
                 ltac:(vm_compute; reflexivity)).
  - exact (proj2 (enrichment_keeps_other_keys (RT := Sample.runtime)
                    (Sample.always (VList [Sample.team_with_players]))
                    0 None "running,upcoming" 50)
                 [Sample.team_with_roster]
                 ltac:(vm_compute; reflexivity)).
Defined.

(** ** Request validation and the prediction endpoints *)

Section Handlers.
Context {RT : Runtime}.
Variable w : World.

Lemma enhance_tournament_empty_game (t : value) :
  PandaScoreAPI.enhance_tournament (Some "") t
  = PandaScoreAPI.enhance_tournament None t.
Proof. reflexivity. Qed.

Lemma filter_tournaments_empty_game (items : list value) :
  PandaScoreAPI.filter_tournaments (Some "") items
  = PandaScoreAPI.filter_tournaments None items.
Proof.
  induction items as [|t rest IH]; [reflexivity|].
  cbn [PandaScoreAPI.filter_tournaments].
  now rewrite enhance_tournament_empty_game, IH.
Qed.

(** The client's tournament fetch takes [""] for no game at all. *)
Lemma fetch_tournaments_empty_game (provider : requests.Provider) (n : nat)
      (status : string) (per_page : Z) :
  PandaScoreAPI.get_tournaments provider n (Some "") status per_page
  = PandaScoreAPI.get_tournaments provider n None status per_page.
Proof.
  unfold PandaScoreAPI.get_tournaments.
  change (given (Some "")) with false. change (given None) with false.
  change (is_str (Some "") "lol") with false.
  change (is_str (Some "") "valorant") with false.
  change (is_str None "lol") with false.
  change (is_str None "valorant") with false.
  cbn [andb orb negb bind].
  destruct (requests.get provider n _ _) as [r|e]; [|reflexivity]. cbn [bind].
  destruct (requests.raise_for_status r); [|reflexivity]. cbn [bind].
  destruct (requests.json r) as [v|]; [|reflexivity]. cbn [bind].
  destruct (py_iter v); [|reflexivity]. cbn [bind].
  apply filter_tournaments_empty_game.
Qed.

(** C6, as amended. For every non-empty game value outside the supported
    set, GET /tournaments fails with status 400 and a message that lists
    exactly the supported games, and the store is untouched; an empty game
    value is treated as no filter: the request is answered, and the store
    left, exactly as when no game is given. *)
Theorem unsupported_game_is_client_error (game status : string)
        (store : Store) :
  (game <> "" ->
   PandaScoreAPI.games_get game PandaScoreAPI.SUPPORTED_GAMES = None ->
   main.get_tournaments w (Some game) status store
   = (Failed 400 "Unsupported game. Supported games are: lol, valorant", store))
  /\
  main.get_tournaments w (Some "") status store
  = main.get_tournaments w None status store.
Proof.
  split.
  - intros Hne Hg. unfold main.get_tournaments, main.get_tournaments_try.
    assert (G : given (Some game) && negb (PandaScoreAPI.supported (Some game))
                = true).
    { unfold PandaScoreAPI.supported. rewrite Hg. simpl.
      apply String.eqb_neq in Hne. now rewrite Hne. }
    rewrite G. reflexivity.
  - unfold main.get_tournaments, main.get_tournaments_try.
    change (given (Some "")) with false. change (given None) with false.
    cbn [andb]. now rewrite fetch_tournaments_empty_game.
Qed.

Lemma py_eq_str_false (v : value) (s : string) :
  v <> VStr s -> py_eq v (VStr s) = false.
Proof.
  intros Hne. destruct (py_eq v (VStr s)) eqn:E; auto.
  apply py_eq_str in E. contradiction.
Qed.

Lemma get_match_found (match_id : string) (response : requests.Response)
      (content : value) :
  provider w 0%nat (PandaScoreAPI.BASE_URL ++ "/matches/" ++ match_id)%string []
  = inr response ->
  requests.ok response = true ->
  requests.body response = inr content ->
  PandaScoreAPI.get_match (provider w) 0 match_id = Ok content.
Proof.
  intros Hp Hok Hb.
  unfold PandaScoreAPI.get_match, requests.get, requests.raise_for_status,
    requests.json.
  rewrite Hp. simpl. rewrite Hok. simpl. now rewrite Hb.
Qed.

(** C7. For a match the provider knows (a non-empty JSON object), the
    prediction write fails with status 400 when the match's status is
    "finished", and otherwise succeeds and echoes the submitted payload as
    recorded; in both cases the store is left as it was. *)
Theorem create_prediction_contract (match_id : string) (prediction : value)
        (store : Store) (response : requests.Response) (match_data : pydict) :
  provider w 0%nat (PandaScoreAPI.BASE_URL ++ "/matches/" ++ match_id)%string []
  = inr response ->
  requests.ok response = true ->
  requests.body response = inr (VDict match_data) ->
  match_data <> [] ->
  (dict_get "status" match_data = Some (VStr "finished") ->
   main.create_prediction w match_id prediction store
   = (Failed 400 "Cannot make predictions for finished matches", store))
  /\
  (dict_get "status" match_data <> Some (VStr "finished") ->
   main.create_prediction w match_id prediction store
   = (OK (VDict [("status", VStr "success");
                 ("message", VStr "Prediction recorded");
                 ("prediction", prediction)]),
      store)).
Proof.
  intros Hp Hok Hb Hne.
  unfold main.create_prediction, main.create_prediction_try.
  rewrite (get_match_found _ _ _ Hp Hok Hb).
  destruct match_data as [|kv rest]; [contradiction|].
  cbn [bind truthy negb py_get].
  split; intros Hs.
  - rewrite Hs. reflexivity.
  - rewrite py_eq_str_false; [reflexivity|].
    destruct (dict_get "status" (kv :: rest)); congruence.
Qed.

(** The prediction read hands the result of the match-list fetch, a list,
    to code written for one match: it cannot succeed. *)
Lemma get_match_prediction_never_succeeds (match_id : string) (store : Store)
      (content : value) :
  fst (main.get_match_prediction w match_id store) <> OK content.
Proof.
  unfold main.get_match_prediction, main.get_match_prediction_try.
  destruct (PandaScoreAPI.get_matches _ _ _ _ _) as [matches|e]; simpl.
  - destruct matches; simpl; discriminate.
  - destruct e; simpl; discriminate.
Qed.

(** An error status from the provider on the single-match fetch reaches the
    caller of the prediction write as status 500. *)
Lemma create_prediction_upstream_error (match_id : string)
      (prediction : value) (store : Store) (response : requests.Response) :
  provider w 0%nat (PandaScoreAPI.BASE_URL ++ "/matches/" ++ match_id)%string []
  = inr response ->
  requests.ok response = false ->
  main.create_prediction w match_id prediction store
  = (Failed 500
       ("Failed to create prediction: " ++ requests.http_error response)%string,
     store).
Proof.
  intros Hp Hok.
  unfold main.create_prediction, main.create_prediction_try,
    PandaScoreAPI.get_match, requests.get, requests.raise_for_status.
  rewrite Hp. simpl. rewrite Hok. reflexivity.
Qed.
End Handlers.

(** C6, as first stated, fails twice over: an empty game value is taken as
    no filter at all by GET /tournaments, and GET /teams answers an
    unsupported game with status 500. *)
Lemma unsupported_game_not_always_client_error :
  fst (main.get_tournaments (RT := Sample.runtime)
         (Sample.world (Sample.always (VList [])))
         (Some "") "running,upcoming" Sample.empty_store)
  = OK (VDict [("tournaments", VList [])])
  /\
  fst (main.get_teams (RT := Sample.runtime)
         (Sample.world (Sample.always (VList [])))
         (Some "dota2") Sample.empty_store)
  = Failed 500
      "Failed to fetch teams: Unsupported game. Supported games are: lol, valorant".
Proof. split; vm_compute; reflexivity. Qed.

Lemma unsupported_game_is_client_error_witness :
  main.get_tournaments (RT := Sample.runtime)
    (Sample.world (Sample.always (VList [])))
    (Some "dota2") "running,upcoming" Sample.empty_store
  = (Failed 400 "Unsupported game. Supported games are: lol, valorant",
     Sample.empty_store)
  /\
  main.get_tournaments (RT := Sample.runtime)
    (Sample.world (Sample.always Sample.two_tournaments))
    (Some "") "running,upcoming" Sample.empty_store
  = main.get_tournaments (RT := Sample.runtime)
      (Sample.world (Sample.always Sample.two_tournaments))
      None "running,upcoming" Sample.empty_store.
Proof.
  split.
  - apply (proj1 (unsupported_game_is_client_error (RT := Sample.runtime)
                    (Sample.world (Sample.always (VList [])))
                    "dota2" "running,upcoming" Sample.empty_store)).
    + discriminate.
    + reflexivity.
  - exact (proj2 (unsupported_game_is_client_error (RT := Sample.runtime)
                    (Sample.world (Sample.always Sample.two_tournaments))
                    "dota2" "running,upcoming" Sample.empty_store)).
Defined.

Lemma create_prediction_contract_witness :
  main.create_prediction (RT := Sample.runtime)
    (Sample.world (Sample.always (Sample.match_record 7 "finished" "T1" "G2")))
    "7" Sample.prediction Sample.empty_store
  = (Failed 400 "Cannot make predictions for finished matches",
     Sample.empty_store)
  /\
  main.create_prediction (RT := Sample.runtime)
    (Sample.world (Sample.always (Sample.match_record 7 "running" "T1" "G2")))
    "7" Sample.prediction Sample.empty_store
  = (OK (VDict [("status", VStr "success");
                ("message", VStr "Prediction recorded");
                ("prediction", Sample.prediction)]),
     Sample.empty_store).
Proof.
  split.
  - refine (proj1 (create_prediction_contract (RT := Sample.runtime)
                     (Sample.world _) "7" Sample.prediction Sample.empty_store
                     (requests.mkResponse 200 "HTTP error"
                        (inr (Sample.match_record 7 "finished" "T1" "G2")))
                     (Sample.match_fields 7 "finished" "T1" "G2")
                     eq_refl eq_refl eq_refl _) eq_refl).
    discriminate.
  - refine (proj2 (create_prediction_contract (RT := Sample.runtime)
                     (Sample.world _) "7" Sample.prediction Sample.empty_store
                     (requests.mkResponse 200 "HTTP error"
                        (inr (Sample.match_record 7 "running" "T1" "G2")))
                     (Sample.match_fields 7 "running" "T1" "G2")
                     eq_refl eq_refl eq_refl _) _).
    + discriminate.
    + discriminate.
Defined.

(** C8. On a match the provider lists, with its two opponents, the
    prediction read answers with status 500 instead of the placeholder. *)
Theorem get_match_prediction_found_is_500 :
  main.get_match_prediction (RT := Sample.runtime)
    (Sample.world (Sample.always (VList [Sample.match_record 42 "running" "T1" "G2"])))
    "42" Sample.empty_store
  = (Failed 500
       "Failed to get match prediction: 'list' object has no attribute 'get'",
     Sample.empty_store).
Proof. vm_compute. reflexivity. Qed.

(** C9. When the provider answers the single-match request with 404, the
    prediction write answers with status 500, not 404. *)
Theorem create_prediction_missing_match_is_500 :
  main.create_prediction (RT := Sample.runtime)
    (Sample.world Sample.not_found) "999" Sample.prediction Sample.empty_store
  = (Failed 500 "Failed to create prediction: 404 Client Error: Not Found",
     Sample.empty_store).
Proof.
  exact (create_prediction_upstream_error (RT := Sample.runtime)
           (Sample.world Sample.not_found) "999" Sample.prediction
           Sample.empty_store
           (requests.mkResponse 404 "404 Client Error: Not Found"
              (inr (VDict [("error", VStr "Not Found")])))
           eq_refl eq_refl).
Qed.

(** ** The session against the upsert of the glossary *)

Section SessionFacts.
Context {R : Type} {M : Mapped R} {L : MappedLaws R}.
Variable w : World.

Lemma find_index_None (f : R -> bool) (l : list R) :
  Session.find_index f l = None <-> existsb f l = false.
Proof.
  induction l as [|r l IH]; simpl; [tauto|].
  destruct (f r); simpl; [split; discriminate|].
  destruct (Session.find_index f l).
  - split; [discriminate|]. intros H. apply IH in H. discriminate.
  - split; auto. intros _. now apply IH.
Qed.

Lemma find_index_Some (f : R -> bool) (l : list R) (i : nat) :
  Session.find_index f l = Some i ->
  exists r, nth_error l i = Some r /\ f r = true.
Proof.
  revert i. induction l as [|r l IH]; simpl; intros i H; [discriminate|].
  destruct (f r) eqn:E.
  - injection H as <-. exists r. auto.
  - destruct (Session.find_index f l) as [j|]; [|discriminate].
    injection H as <-. simpl. auto.
Qed.

Lemma find_index_app (f : R -> bool) (l tail : list R) (i : nat) :
  Session.find_index f l = Some i ->
  Session.find_index f (l ++ tail) = Some i.
Proof.
  revert i. induction l as [|r l IH]; simpl; intros i H; [discriminate|].
  destruct (f r); [assumption|].
  destruct (Session.find_index f l) as [j|]; [|discriminate].
  now rewrite (IH j eq_refl).
Qed.

Lemma update_nth_app (f : R -> R) (l tail : list R) (i : nat) (r : R) :
  nth_error l i = Some r ->
  Session.update_nth i f (l ++ tail) = Session.update_nth i f l ++ tail.
Proof.
  revert i. induction l as [|x l IH]; intros [|i]; simpl; try discriminate; auto.
  intros H. now rewrite IH.
Qed.

Lemma flush_app (table news more : list R) :
  Session.flush table (news ++ more)
  = bind (Session.flush table news) (fun t => Session.flush t more).
Proof.
  revert table. induction news as [|p news IH]; intros table; simpl; auto.
  destruct (existsb _ table); [reflexivity|].
  destruct (primary_key p) as [i|]; [destruct (existsb _ table); [reflexivity|]|];
    apply IH.
Qed.

Lemma existsb_key (e : string) (t t' : list R) :
  same_keys t t' ->
  existsb (Session.has_external_id e) t = existsb (Session.has_external_id e) t'.
Proof.
  induction 1 as [|r r' t t' [He Hp] _ IH]; simpl; auto.
  unfold Session.has_external_id at 1 3. now rewrite He, IH.
Qed.

Lemma existsb_pk (i : Z) (t t' : list R) :
  same_keys t t' ->
  existsb (Session.has_primary_key i) t = existsb (Session.has_primary_key i) t'.
Proof.
  induction 1 as [|r r' t t' [He Hp] _ IH]; simpl; auto.
  unfold Session.has_primary_key at 1 3. now rewrite Hp, IH.
Qed.

Lemma next_id_key (t t' : list R) :
  same_keys t t' -> Session.next_id t = Session.next_id t'.
Proof.
  unfold Session.next_id. intros H. f_equal.
  induction H as [|r r' t t' [He Hp] _ IH]; simpl; auto.
  now rewrite Hp, IH.
Qed.

Lemma same_keys_snoc (t t' : list R) (x : R) :
  same_keys t t' -> same_keys (t ++ [x]) (t' ++ [x]).
Proof.
  intros H. apply Forall2_app; [assumption|]. repeat constructor.
Qed.

(** Flushing only looks at the keys of the rows already there. *)
Lemma flush_key (news : list R) :
  forall t t' r',
    same_keys t t' ->
    Session.flush t' news = Ok r' ->
    exists tail, r' = t' ++ tail /\ Session.flush t news = Ok (t ++ tail).
Proof.
  induction news as [|p news IH]; simpl; intros t t' r' Hk H.
  - injection H as <-. exists []. now rewrite !app_nil_r.
  - rewrite (existsb_key _ _ _ Hk).
    destruct (existsb (Session.has_external_id _) t'); [discriminate|].
    destruct (primary_key p) as [i|].
    + rewrite (existsb_pk _ _ _ Hk).
      destruct (existsb (Session.has_primary_key i) t'); [discriminate|].
      destruct (IH _ _ _ (same_keys_snoc _ _ _ Hk) H) as [tail [-> Hf]].
      rewrite Hf. eexists (_ :: tail).
      change (?x :: tail) with ([x] ++ tail). now rewrite !app_assoc.
    + rewrite (next_id_key _ _ Hk).
      destruct (IH _ _ _ (same_keys_snoc _ _ _ Hk) H) as [tail [-> Hf]].
      rewrite Hf. eexists (_ :: tail).
      change (?x :: tail) with ([x] ++ tail). now rewrite !app_assoc.
Qed.

Lemma same_keys_refl (t : list R) : same_keys t t.
Proof. induction t; constructor; auto. Qed.

Lemma update_nth_key (d : R) (i : nat) (t : list R) (r : R) :
  nth_error t i = Some r ->
  external_id r = external_id d ->
  same_keys t (Session.update_nth i (fun dst => setattrs dst d) t).
Proof.
  revert i. induction t as [|x t IH]; intros [|i]; simpl; try discriminate.
  - intros [= ->] He. constructor; [|apply same_keys_refl].
    now rewrite setattrs_external_id, setattrs_primary_key, He.
  - intros H He. constructor; [auto|]. apply IH; assumption.
Qed.

Lemma has_external_id_true (e : string) (r : R) :
  Session.has_external_id e r = true -> external_id r = e.
Proof. apply String.eqb_eq. Qed.

Lemma flush_one (table : list R) (d : R) (r1 : list R) :
  primary_key d = None ->
  Session.flush table [d] = Ok r1 -> r1 = upsert table d.
Proof.
  intros Hpk. simpl. unfold upsert.
  destruct (existsb _ table) eqn:E; [discriminate|].
  apply find_index_None in E. rewrite E, Hpk. now intros [= <-].
Qed.

Lemma query_first_cases (e : string) (s s' : Session.t) (o : option nat) :
  Session.query_first w e s = Ok (o, s') ->
  o = Session.find_index (Session.has_external_id e) (Session.rows s') /\
  ((effect s = Ok (Session.rows s') /\ Session.pending s' = []) \/
   (Session.rows s' = Session.rows s /\ Session.pending s' = Session.pending s)).
Proof.
  unfold Session.query_first, Session.round_trip, Session.flush_if_auto, effect.
  intros H. destruct (db_error w _); [discriminate|]. simpl in H.
  destruct (autoflush w); simpl in H.
  - destruct (Session.flush _ _) as [table|]; [|discriminate]. simpl in H.
    injection H as <- <-. simpl. auto.
  - injection H as <- <-. simpl. auto.
Qed.

(** One iteration of the reconciliation loop, seen through [effect]. *)
Lemma upsert_step (d : R) (s s' : Session.t) (o : option nat) (r1 : list R) :
  primary_key d = None ->
  Session.query_first w (external_id d) s = Ok (o, s') ->
  effect (match o with
          | Some i => Session.overwrite i d s'
          | None => Session.add d s'
          end) = Ok r1 ->
  exists r0, effect s = Ok r0 /\ r1 = upsert r0 d.
Proof.
  intros Hpk Hq H1. apply query_first_cases in Hq. destruct Hq as [-> Hs].
  destruct (Session.find_index _ (Session.rows s')) as [i|] eqn:Ef.
  - destruct (find_index_Some _ _ _ Ef) as [r [Hnth Hr]].
    apply has_external_id_true in Hr.
    unfold effect in H1. simpl in H1.
    destruct (flush_key _ _ _ _ (update_nth_key d i _ r Hnth Hr) H1)
      as [tail [-> Hflush]].
    assert (Hup : Session.update_nth i (fun dst => setattrs dst d)
                    (Session.rows s') ++ tail
                  = upsert (Session.rows s' ++ tail) d).
    { unfold upsert. rewrite (find_index_app _ _ tail _ Ef).
      now rewrite (update_nth_app _ _ tail _ _ Hnth). }
    destruct Hs as [[Hs Hp]|[Hr' Hp]].
    + rewrite Hp in Hflush. simpl in Hflush. injection Hflush as Ht.
      rewrite <- (app_nil_r (Session.rows s')) in Ht at 1.
      apply app_inv_head in Ht. subst tail. rewrite !app_nil_r in *.
      exists (Session.rows s'). auto.
    + exists (Session.rows s' ++ tail). split; [|assumption].
      unfold effect. now rewrite <- Hr', <- Hp.
  - unfold effect in H1. simpl in H1. rewrite flush_app in H1.
    apply bind_Ok in H1. destruct H1 as [r0 [H0 H1]].
    apply (flush_one _ _ _ Hpk) in H1.
    destruct Hs as [[Hs Hp]|[Hr' Hp]].
    + rewrite Hp in H0. simpl in H0. injection H0 as <-. eauto.
    + exists r0. split; [|assumption]. unfold effect. now rewrite <- Hr', <- Hp.
Qed.
End SessionFacts.

Section UpsertFacts.
Context {R : Type} {M : Mapped R} {L : MappedLaws R}.

Lemma same_keys_external_id (t t' : list R) :
  same_keys t t' -> map external_id t = map external_id t'.
Proof.
  induction 1 as [|r r' t t' [He _] _ IH]; simpl; congruence.
Qed.

Lemma existsb_false_not_In (e : string) (t : list R) :
  existsb (Session.has_external_id e) t = false ->
  ~ In e (map external_id t).
Proof.
  induction t as [|r t IH]; simpl; [tauto|].
  intros H. apply orb_false_iff in H. destruct H as [Hr Ht].
  intros [Heq|Hin]; [|now apply IH].
  unfold Session.has_external_id in Hr. rewrite Heq, String.eqb_refl in Hr.
  discriminate.
Qed.

Lemma existsb_false_filter (e : string) (t : list R) :
  existsb (Session.has_external_id e) t = false -> rows_with e t = [].
Proof.
  induction t as [|r t IH]; simpl; auto.
  intros H. apply orb_false_iff in H. destruct H as [-> Ht]. auto.
Qed.

Lemma new_row_external_id (i : Z) (d : R) :
  external_id (with_primary_key i (insert_defaults d)) = external_id d.
Proof.
  now rewrite with_primary_key_external_id, insert_defaults_external_id.
Qed.

Lemma upsert_unique (t : list R) (d : R) :
  unique_external_ids t -> unique_external_ids (upsert t d).
Proof.
  unfold unique_external_ids, upsert. intros Hu.
  destruct (Session.find_index _ t) as [i|] eqn:Ef.
  - destruct (find_index_Some _ _ _ Ef) as [r [Hnth Hr]].
    apply has_external_id_true in Hr.
    now rewrite <- (same_keys_external_id _ _ (update_nth_key d i t r Hnth Hr)).
  - apply find_index_None in Ef. apply existsb_false_not_In in Ef.
    rewrite map_app. simpl. rewrite new_row_external_id.
    apply NoDup_app; [assumption | repeat constructor; simpl; tauto |].
    intros x Hx [<-|[]]. contradiction.
Qed.

Lemma has_external_id_other (e : string) (r : R) :
  external_id r <> e -> Session.has_external_id e r = false.
Proof. intros H. now apply String.eqb_neq. Qed.

Lemma filter_update_nth_out (f : R -> bool) (g : R -> R) (t : list R)
      (i : nat) (r : R) :
  nth_error t i = Some r -> f r = false -> f (g r) = false ->
  filter f (Session.update_nth i g t) = filter f t.
Proof.
  revert i. induction t as [|x t IH]; intros [|i]; simpl; try discriminate.
  - intros [= ->] -> ->. reflexivity.
  - intros H H1 H2. now rewrite (IH _ H H1 H2).
Qed.

(** Upserting one key leaves the rows of every other key alone. *)
Lemma upsert_other (t : list R) (d : R) (e : string) :
  external_id d <> e -> rows_with e (upsert t d) = rows_with e t.
Proof.
  intros Hne. unfold upsert, rows_with.
  destruct (Session.find_index _ t) as [i|] eqn:Ef.
  - destruct (find_index_Some _ _ _ Ef) as [r [Hnth Hr]].
    apply has_external_id_true in Hr.
    apply (filter_update_nth_out _ _ _ _ _ Hnth); apply has_external_id_other.
    + congruence.
    + now rewrite setattrs_external_id.
  - rewrite filter_app. simpl.
    rewrite has_external_id_other; [apply app_nil_r|].
    now rewrite new_row_external_id.
Qed.

Lemma unique_filter (e : string) (t : list R) :
  unique_external_ids t ->
  forall i r, nth_error t i = Some r -> external_id r = e ->
              rows_with e t = [r].
Proof.
  unfold unique_external_ids, rows_with.
  induction t as [|x t IH]; intros Hu [|i] r; simpl; try discriminate;
    inversion Hu as [|? ? Hx Hu']; subst.
  - intros [= ->] He. unfold Session.has_external_id at 1.
    rewrite He, String.eqb_refl. f_equal.
    apply existsb_false_filter.
    destruct (existsb _ t) eqn:E; auto.
    apply existsb_exists in E. destruct E as [y [Hy Hey]].
    apply has_external_id_true in Hey. exfalso. apply Hx.
    rewrite He, <- Hey. now apply in_map.
  - intros Hnth He. rewrite has_external_id_other; [eauto|].
    intros Hxe. apply Hx. rewrite Hxe, <- He.
    apply in_map. eapply nth_error_In; eauto.
Qed.

Lemma nth_error_update_nth (g : R -> R) (t : list R) (i : nat) (r : R) :
  nth_error t i = Some r ->
  nth_error (Session.update_nth i g t) i = Some (g r).
Proof.
  revert i. induction t as [|x t IH]; intros [|i]; simpl; try discriminate; auto.
  now intros [= ->].
Qed.

(** Upserting a key leaves exactly one row of it: the row there was, with
    the new values, or else the inserted one. *)
Lemma upsert_same (t : list R) (d : R) :
  unique_external_ids t ->
  rows_with (external_id d) (upsert t d)
  = [match rows_with (external_id d) t with
     | r :: _ => setattrs r d
     | [] => with_primary_key (Session.next_id t) (insert_defaults d)
     end].
Proof.
  intros Hu. pose proof (upsert_unique t d Hu) as Hu'. unfold upsert in *.
  destruct (Session.find_index _ t) as [i|] eqn:Ef.
  - destruct (find_index_Some _ _ _ Ef) as [r [Hnth Hr]].
    apply has_external_id_true in Hr.
    rewrite (unique_filter _ _ Hu _ _ Hnth Hr).
    apply (unique_filter _ _ Hu' i).
    + exact (nth_error_update_nth (fun dst => setattrs dst d) t i r Hnth).
    + apply setattrs_external_id.
  - apply find_index_None in Ef.
    unfold rows_with at 1. rewrite filter_app.
    fold (rows_with (external_id d) t).
    rewrite (existsb_false_filter _ _ Ef). simpl.
    unfold Session.has_external_id.
    now rewrite new_row_external_id, String.eqb_refl.
Qed.

Lemma upsert_all_unique (ds : list R) :
  forall t, unique_external_ids t -> unique_external_ids (fold_left upsert ds t).
Proof.
  induction ds as [|d ds IH]; simpl; auto using upsert_unique.
Qed.


(** A key that has a row keeps exactly one row, under the same primary key,
    however many records are upserted. *)
Lemma upsert_all_present (e : string) (ds : list R) :
  forall t r,
    unique_external_ids t -> rows_with e t = [r] ->
    exists r', rows_with e (fold_left upsert ds t) = [r'] /\
               forall d, setattrs r' d = setattrs r d.
Proof.
  induction ds as [|d0 ds IH]; simpl; intros t r Hu Hr; [eauto|].
  destruct (String.eqb (external_id d0) e) eqn:E.
  - apply String.eqb_eq in E. subst e.
    pose proof (upsert_same t d0 Hu) as Hs. rewrite Hr in Hs.
    destruct (IH _ _ (upsert_unique t d0 Hu) Hs) as [r' [Hr' Hset]].
    exists r'. split; [assumption|].
    intros d. now rewrite Hset, setattrs_setattrs.
  - apply String.eqb_neq in E.
    apply (IH _ r (upsert_unique t d0 Hu)). now rewrite upsert_other.
Qed.

Lemma upsert_all_In (ds : list R) (d : R) :
  In d ds ->
  forall t, unique_external_ids t ->
            exists r, rows_with (external_id d) (fold_left upsert ds t) = [r].
Proof.
  induction ds as [|d0 ds IH]; simpl; [tauto|].
  intros [->|Hin] t Hu.
  - destruct (upsert_all_present (external_id d) ds _ _
                (upsert_unique t d Hu) (upsert_same t d Hu)) as [r' [Hr' _]].
    eauto.
  - apply IH; auto using upsert_unique.
Qed.

End UpsertFacts.

Section ModelLaws.
Context {RT : Runtime}.

#[export] Instance Tournament_Laws : MappedLaws Tournament.
Proof. split; reflexivity. Qed.

#[export] Instance Team_Laws : MappedLaws Team.
Proof. split; reflexivity. Qed.
End ModelLaws.

Section Reconciliation.
Context {RT : Runtime}.
Variable w : World.

Lemma tournament_dict_transient (t_data : value) (d : Tournament) :
  main.tournament_dict t_data = Ok d -> primary_key d = None.
Proof.
  unfold main.tournament_dict. intros H. unbind. reflexivity.
Qed.

Lemma new_Team_transient (t_data : value) (team : Team) :
  main.new_Team t_data = Ok team -> primary_key team = None.
Proof.
  unfold main.new_Team. intros H. unbind. reflexivity.
Qed.

Lemma commit_effect {R : Type} {M : Mapped R} (s : Session.t) (table : list R) :
  Session.commit w s = Ok table -> effect s = Ok table.
Proof.
  unfold Session.commit, Session.round_trip, effect.
  destruct (db_error w _); [discriminate|]. auto.
Qed.

Lemma process_tournaments_effect (data : list value) :
  forall s sF table,
    main.process_tournaments w data s = Ok sF ->
    effect sF = Ok table ->
    exists ds t0,
      PandaScoreAPI.map_result main.tournament_dict data = Ok ds /\
      effect s = Ok t0 /\
      table = fold_left upsert ds t0.
Proof.
  induction data as [|t_data rest IH]; simpl; intros s sF table Hp He.
  - injection Hp as <-. exists [], table. auto.
  - apply bind_Ok in Hp. destruct Hp as [d [Hd Hp]].
    apply bind_Ok in Hp. destruct Hp as [[o s'] [Hq Hp]].
    destruct (IH _ _ _ Hp He) as (ds & t1 & Hds & H1 & ->).
    destruct (upsert_step w d s s' o t1 (tournament_dict_transient _ _ Hd) Hq H1)
      as (t0 & H0 & ->).
    exists (d :: ds), t0. rewrite Hd, Hds. auto.
Qed.

Lemma get_tournaments_OK (game : option string) (status : string)
      (store store' : Store) (content : value) :
  main.get_tournaments w game status store = (OK content, store') ->
  exists data ds,
    content = VDict [("tournaments", VList data)] /\
    PandaScoreAPI.get_tournaments (provider w) 0 game status 50 = Ok data /\
    PandaScoreAPI.map_result main.tournament_dict data = Ok ds /\
    store' = mkStore (fold_left upsert ds (tournaments store)) (teams store).
Proof.
  unfold main.get_tournaments, main.get_tournaments_try. intros H.
  destruct (given game && negb (PandaScoreAPI.supported game));
    [discriminate|].
  destruct (PandaScoreAPI.get_tournaments _ _ _ _ _) as [data|e];
    [|destruct e; discriminate].
  cbn [bind] in H.
  destruct (main.process_tournaments w data _) as [sF|e] eqn:Hp;
    [|destruct e; discriminate].
  cbn [bind] in H.
  destruct (Session.commit w sF) as [table|e] eqn:Hc; [|discriminate].
  injection H as <- <-.
  destruct (process_tournaments_effect _ _ _ _ Hp (commit_effect _ _ Hc))
    as (ds & t0 & Hds & H0 & ->).
  injection H0 as <-. eauto 6.
Qed.

Lemma get_tournaments_Failed (game : option string) (status : string)
      (store store' : Store) (status_code : Z) (detail : string) :
  main.get_tournaments w game status store = (Failed status_code detail, store') ->
  store' = store.
Proof.
  unfold main.get_tournaments.
  destruct (main.get_tournaments_try _ _ _ _) as [[c t]|[]]; congruence.
Qed.

(** A rejected commit reaches the caller as a 500 and leaves the store. *)
Lemma get_tournaments_commit_fails (game : option string) (status : string)
      (store : Store) (data : list value) (db : Session.t) (e : exn) :
  given game && negb (PandaScoreAPI.supported game) = false ->
  PandaScoreAPI.get_tournaments (provider w) 0 game status 50 = Ok data ->
  main.process_tournaments w data (Session.begin (tournaments store)) = Ok db ->
  Session.commit w db = Raise e ->
  main.get_tournaments w game status store
  = (Failed 500 "Failed to save tournaments to database", store).
Proof.
  intros Hg Hd Hp Hc. unfold main.get_tournaments, main.get_tournaments_try.
  rewrite Hg, Hd. cbn [bind]. rewrite Hp. cbn [bind]. now rewrite Hc.
Qed.

Lemma process_teams_pending (data : list value) :
  forall s sF,
    main.process_teams w data s = Ok sF ->
    exists ts,
      PandaScoreAPI.map_result main.new_Team data = Ok ts /\
      Session.rows sF = Session.rows s /\
      Session.pending sF = Session.pending s ++ ts.
Proof.
  induction data as [|t_data rest IH]; simpl; intros s sF Hp.
  - injection Hp as <-. exists []. now rewrite app_nil_r.
  - apply bind_Ok in Hp. destruct Hp as [team [Ht Hp]].
    apply bind_Ok in Hp. destruct Hp as [s1 [Hm Hp]].
    unfold Session.merge in Hm.
    rewrite (new_Team_transient _ _ Ht) in Hm. injection Hm as <-.
    destruct (IH _ _ Hp) as (ts & Hts & Hr & Hpe).
    exists (team :: ts). rewrite Ht, Hts. simpl in *.
    rewrite Hpe, <- app_assoc. auto.
Qed.

Lemma get_teams_OK (game : option string) (store store' : Store)
      (content : value) :
  main.get_teams w game store = (OK content, store') ->
  exists data ts,
    content = VDict [("teams", VList data)] /\
    PandaScoreAPI.get_teams (provider w) 0 game 50 = Ok data /\
    PandaScoreAPI.map_result main.new_Team data = Ok ts /\
    Session.flush (teams store) ts = Ok (teams store') /\
    tournaments store' = tournaments store.
Proof.
  unfold main.get_teams, main.get_teams_try. intros H.
  destruct (PandaScoreAPI.get_teams _ _ _ _) as [data|e]; [|discriminate].
  cbn [bind] in H.
  destruct (main.process_teams w data _) as [sF|e] eqn:Hp; [|discriminate].
  cbn [bind] in H.
  destruct (Session.commit w sF) as [table|e] eqn:Hc; [|discriminate].
  injection H as <- <-.
  destruct (process_teams_pending _ _ _ Hp) as (ts & Hts & Hr & Hpe).
  apply commit_effect in Hc. unfold effect in Hc.
  rewrite Hr, Hpe in Hc. simpl in Hc. eauto 8.
Qed.

Lemma get_teams_Failed (game : option string) (store store' : Store)
      (status_code : Z) (detail : string) :
  main.get_teams w game store = (Failed status_code detail, store') ->
  status_code = 500%Z /\ store' = store.
Proof.
  unfold main.get_teams.
  destruct (main.get_teams_try _ _ _) as [[c t]|e]; [discriminate|].
  now intros [= <- _ <-].
Qed.
End Reconciliation.

Section FlushFacts.
Context {R : Type} {M : Mapped R} {L : MappedLaws R}.

Lemma flush_inserts (news : list R) :
  Forall (fun p => primary_key p = None) news ->
  forall table table',
    Session.flush table news = Ok table' ->
    table' = fold_left insert news table.
Proof.
  induction 1 as [|p news Hp _ IH]; simpl; intros table table' H;
    unfold Session.IntegrityError in H.
  - now injection H.
  - destruct (existsb _ table); [discriminate|]. rewrite Hp in H.
    now apply IH in H.
Qed.

Lemma existsb_snoc (e : string) (table : list R) (x : R) :
  existsb (Session.has_external_id e) table = true ->
  existsb (Session.has_external_id e) (table ++ [x]) = true.
Proof. intros H. rewrite existsb_app, H. reflexivity. Qed.

(** An insert whose external id is already in the table makes the flush
    fail, wherever it stands among the pending objects. *)
Lemma flush_conflict (news : list R) (p : R) :
  In p news ->
  forall table table',
    existsb (Session.has_external_id (external_id p)) table = true ->
    Session.flush table news <> Ok table'.
Proof.
  induction news as [|q news IH]; simpl; [tauto|].
  intros [->|Hin] table table' Hex H; unfold Session.IntegrityError in H.
  - rewrite Hex in H. discriminate H.
  - destruct (existsb (Session.has_external_id (external_id q)) table);
      [discriminate H|].
    destruct (primary_key q) as [i|];
      [destruct (existsb (Session.has_primary_key i) table);
       [discriminate H|]|];
      apply IH in H; auto using existsb_snoc.
Qed.
End FlushFacts.

Section MapResult.
Context {A B : Type}.
Variable f : A -> result B.

Lemma map_result_In (l : list A) :
  forall ys x y,
    PandaScoreAPI.map_result f l = Ok ys -> In x l -> f x = Ok y -> In y ys.
Proof.
  induction l as [|a l IH]; simpl; intros ys x y H Hin Hx; [contradiction|].
  apply bind_Ok in H. destruct H as [b [Hb H]].
  apply bind_Ok in H. destruct H as [bs [Hbs H]].
  injection H as <-. destruct Hin as [->|Hin].
  - left. congruence.
  - right. eauto.
Qed.

Lemma map_result_Forall (P : B -> Prop) (l : list A) :
  forall ys,
    PandaScoreAPI.map_result f l = Ok ys ->
    Forall (fun x => forall y, f x = Ok y -> P y) l ->
    Forall P ys.
Proof.
  induction l as [|a l IH]; simpl; intros ys H Hl.
  - injection H as <-. constructor.
  - apply bind_Ok in H. destruct H as [b [Hb H]].
    apply bind_Ok in H. destruct H as [bs [Hbs H]].
    injection H as <-. inversion Hl; subst. constructor; auto.
Qed.

End MapResult.

(** ** Reconciliation of fetched records with the store *)

Section ReconciliationClaims.
Context {RT : Runtime}.


Variable w : World.

(** GET /teams with a team the store already has cannot succeed: the merge
    adds a second row of that external id, which the flush refuses. *)
Lemma get_teams_known_team_fails (game : option string) (store : Store)
      (data : list value) (t_data : value) (team : Team) :
  PandaScoreAPI.get_teams (provider w) 0 game 50 = Ok data ->
  In t_data data ->
  main.new_Team t_data = Ok team ->
  rows_with (Team_external_id team) (teams store) <> [] ->
  exists detail, main.get_teams w game store = (Failed 500 detail, store).
Proof.
  intros Hdata Hin Hteam Hrows.
  destruct (main.get_teams w game store) as [[content|c detail] store'] eqn:E.
  - exfalso. apply get_teams_OK in E.
    destruct E as (data' & ts & _ & Hdata' & Hts & Hflush & _).
    assert (data' = data) by congruence. subst data'.
    apply (flush_conflict ts team (map_result_In _ _ _ _ _ Hts Hin Hteam)
             _ _) in Hflush; [assumption|].
    destruct (existsb _ (teams store)) eqn:Ex; [reflexivity|].
    apply existsb_false_filter in Ex. contradiction.
  - apply get_teams_Failed in E. destruct E as [-> ->]. eauto.
Qed.

(** C5. A refresh is all or nothing. GET /tournaments either fails and
    leaves the store as it was, or succeeds and the store is the old one with
    every fetched record upserted; GET /teams either fails with status 500
    and leaves the store as it was, or succeeds and the store is the old one
    with every fetched team inserted. When it is the commit that fails, the
    caller gets status 500 and the store is as it was. *)
Theorem reconciliation_is_atomic (game : option string) (status : string)
        (store : Store) :
  (forall response store',
      main.get_tournaments w game status store = (response, store') ->
      (exists status_code detail,
          response = Failed status_code detail /\ store' = store) \/
      (exists data ds,
          response = OK (VDict [("tournaments", VList data)]) /\
          PandaScoreAPI.map_result main.tournament_dict data = Ok ds /\
          store' = mkStore (fold_left upsert ds (tournaments store))
                           (teams store)))
  /\
  (forall response store',
      main.get_teams w game store = (response, store') ->
      (exists detail, response = Failed 500 detail /\ store' = store) \/
      (exists data ts,
          response = OK (VDict [("teams", VList data)]) /\
          PandaScoreAPI.map_result main.new_Team data = Ok ts /\
          store' = mkStore (tournaments store)
                           (fold_left insert ts (teams store))))
  /\
  (forall data db e,
      given game && negb (PandaScoreAPI.supported game) = false ->
      PandaScoreAPI.get_tournaments (provider w) 0 game status 50 = Ok data ->
      main.process_tournaments w data (Session.begin (tournaments store))
      = Ok db ->
      Session.commit w db = Raise e ->
      main.get_tournaments w game status store
      = (Failed 500 "Failed to save tournaments to database", store))
  /\
  (forall data db e,
      PandaScoreAPI.get_teams (provider w) 0 game 50 = Ok data ->
      main.process_teams w data (Session.begin (teams store)) = Ok db ->
      Session.commit w db = Raise e ->
      exists detail, main.get_teams w game store = (Failed 500 detail, store)).
Proof.
  repeat split.
  - intros [content|c detail] store' H.
    + right. apply get_tournaments_OK in H.
      destruct H as (data & ds & -> & _ & Hds & ->). eauto.
    + left. apply get_tournaments_Failed in H. subst. eauto.
  - intros [content|c detail] store' H.
    + right. apply get_teams_OK in H.
      destruct H as (data & ts & -> & _ & Hts & Hflush & Ht).
      exists data, ts. split; [reflexivity|]. split; [assumption|].
      destruct store' as [tournaments' teams']. simpl in *. subst.
      f_equal. apply (flush_inserts ts); [|assumption].
      apply (map_result_Forall _ _ _ _ Hts).
      apply Forall_forall. intros x _ y. apply new_Team_transient.
    + left. apply get_teams_Failed in H. destruct H as [-> ->]. eauto.
  - intros. eapply get_tournaments_commit_fails; eauto.
  - intros data db e Hdata Hp Hc. unfold main.get_teams, main.get_teams_try.
    rewrite Hdata. cbn [bind]. rewrite Hp. cbn [bind]. rewrite Hc.
    cbn [bind]. eauto.
Qed.
End ReconciliationClaims.


(** C2. A second GET /teams that fetches a team already stored, with a new
    name, is answered with status 500 and leaves the stored row with its old
    values: the merge is keyed by the primary key, which the handler never
    sets, so it inserts, and the insert violates the unique external id. *)
Theorem get_teams_second_fetch_fails :
  main.get_teams (RT := Sample.runtime)
    (Sample.world (Sample.always (VList [Sample.record 1 "T1"])))
    None Sample.empty_store
  = (OK (VDict [("teams", VList [Sample.record 1 "T1"])]), Sample.store_with_T1)
  /\
  main.get_teams (RT := Sample.runtime)
    (Sample.world (Sample.always (VList [Sample.record 1 "T1 Esports"])))
    None Sample.store_with_T1
  = (Failed 500 "Failed to fetch teams: UNIQUE constraint failed",
     Sample.store_with_T1).
Proof. split; vm_compute; reflexivity. Qed.

Lemma reconciliation_is_atomic_witness :
  main.get_tournaments (RT := Sample.runtime)
    (Sample.commit_fails (Sample.always (VList [Sample.record 1 "LCK"])))
    None "running,upcoming" Sample.empty_store
  = (Failed 500 "Failed to save tournaments to database", Sample.empty_store).
Proof.
  exact (proj1 (proj2 (proj2
           (reconciliation_is_atomic (RT := Sample.runtime)
              (Sample.commit_fails
                 (Sample.always (VList [Sample.record 1 "LCK"])))
              None "running,upcoming" Sample.empty_store)))
           [Sample.record 1 "LCK"]
           (Session.mk []
              [mkTournament None "1" (VStr "LCK") (VStr "Unknown Game") None
                 None (VStr "unknown") (VStr "")] 1)
           (Error "OperationalError" "database is locked")
           eq_refl eq_refl eq_refl eq_refl).
Defined.

(* ===================================================================== *)
(** * Further properties of the code *)

(** ** The provider client *)

Section Client.
Context {RT : Runtime}.
Variable provider : requests.Provider.

Lemma supported_cases (g : string) :
  PandaScoreAPI.supported (Some g) = true -> g = "lol" \/ g = "valorant".
Proof.
  unfold PandaScoreAPI.supported. simpl.
  destruct (String.eqb g "lol") eqn:E1; [apply String.eqb_eq in E1; auto|].
  destruct (String.eqb g "valorant") eqn:E2; [apply String.eqb_eq in E2; auto|].
  discriminate.
Qed.

(** The branch that would add a [videogame] parameter to the tournament
    request is never taken: a game that passed the check is one of the two
    that have an endpoint of their own. *)
Lemma videogame_param_unreachable (game : option string) :
  given game && negb (PandaScoreAPI.supported game) = false ->
  given game && negb (is_str game "lol" || is_str game "valorant") = false.
Proof.
  destruct game as [g|]; [|reflexivity]. intros H.
  destruct (given (Some g)); [|reflexivity]. simpl in H.
  apply negb_false_iff in H.
  destruct (supported_cases _ H) as [-> | ->]; reflexivity.
Qed.

Lemma games_getitem_supported (game : option string) :
  PandaScoreAPI.supported game = true ->
  exists slug, PandaScoreAPI.games_getitem game = Ok slug.
Proof.
  intros H. destruct game as [g|]; [|discriminate].
  destruct (supported_cases _ H) as [-> | ->]; simpl; eauto.
Qed.

(** X1. A reply with an error status to the request of a fetch makes the
    fetch raise the HTTPError of that reply: no retry, no partial result. *)
Theorem upstream_error_fails_fetch (n : nat) (response : requests.Response) :
  (forall endpoint params, provider n endpoint params = inr response) ->
  requests.ok response = false ->
  (forall game status per_page,
      given game && negb (PandaScoreAPI.supported game) = false ->
      PandaScoreAPI.get_tournaments provider n game status per_page
      = Raise (Error "HTTPError" (requests.http_error response)))
  /\
  (forall game per_page,
      given game && negb (PandaScoreAPI.supported game) = false ->
      PandaScoreAPI.get_teams provider n game per_page
      = Raise (Error "HTTPError" (requests.http_error response)))
  /\
  (forall tournament_id,
      PandaScoreAPI.get_tournament provider n tournament_id
      = Raise (Error "HTTPError" (requests.http_error response)))
  /\
  (forall match_id,
      PandaScoreAPI.get_match provider n match_id
      = Raise (Error "HTTPError" (requests.http_error response)))
  /\
  (forall tournament_id status per_page,
      PandaScoreAPI.get_matches provider n tournament_id status per_page
      = Raise (Error "HTTPError" (requests.http_error response))).
Proof.
  intros Hp Hok.
  assert (Hget : forall endpoint params,
             requests.get provider n endpoint params = Ok response).
  { intros. unfold requests.get. now rewrite Hp. }
  assert (Hraise : requests.raise_for_status response
                   = Raise (Error "HTTPError" (requests.http_error response))).
  { unfold requests.raise_for_status. now rewrite Hok. }
  repeat split.
  - intros game status per_page Hg. unfold PandaScoreAPI.get_tournaments.
    rewrite Hg, (videogame_param_unreachable _ Hg). cbn [bind].
    rewrite Hget. cbn [bind]. now rewrite Hraise.
  - intros game per_page Hg. unfold PandaScoreAPI.get_teams. rewrite Hg.
    destruct (given game) eqn:G.
    + simpl in Hg. apply negb_false_iff in Hg.
      destruct (games_getitem_supported _ Hg) as [slug ->]. cbn [bind].
      rewrite Hget. cbn [bind]. now rewrite Hraise.
    + cbn [bind]. rewrite Hget. cbn [bind]. now rewrite Hraise.
  - intros. unfold PandaScoreAPI.get_tournament. rewrite Hget. cbn [bind].
    now rewrite Hraise.
  - intros. unfold PandaScoreAPI.get_match. rewrite Hget. cbn [bind].
    now rewrite Hraise.
  - intros. unfold PandaScoreAPI.get_matches. cbv zeta. rewrite Hget.
    cbn [bind]. now rewrite Hraise.
Qed.

(** X2. Both list fetches refuse a non-empty game outside the supported
    set with a ValueError that lists the supported games, before any request
    is made. *)
Theorem unsupported_game_raises_ValueError (n : nat) (game status : string)
        (per_page : Z) :
  game <> "" ->
  PandaScoreAPI.games_get game PandaScoreAPI.SUPPORTED_GAMES = None ->
  PandaScoreAPI.get_tournaments provider n (Some game) status per_page
  = Raise (Error "ValueError"
             "Unsupported game. Supported games are: lol, valorant")
  /\
  PandaScoreAPI.get_teams provider n (Some game) per_page
  = Raise (Error "ValueError"
             "Unsupported game. Supported games are: lol, valorant").
Proof.
  intros Hne Hg.
  assert (G : given (Some game) && negb (PandaScoreAPI.supported (Some game))
              = true).
  { unfold PandaScoreAPI.supported. rewrite Hg. simpl.
    apply String.eqb_neq in Hne. now rewrite Hne. }
  unfold PandaScoreAPI.get_tournaments, PandaScoreAPI.get_teams.
  rewrite G. split; reflexivity.
Qed.

Lemma filter_tournaments_unfiltered (game : option string) (raw : list value) :
  given game = false ->
  forall result,
    PandaScoreAPI.filter_tournaments game raw = Ok result ->
    Forall2 (enriches tournament_enrichment_keys) raw result.
Proof.
  intros Hg. induction raw as [|t rest IH]; simpl; intros result H.
  - injection H as <-. constructor.
  - apply bind_Ok in H. destruct H as [kept [Hk H]].
    apply bind_Ok in H. destruct H as [others [Ho H]].
    destruct kept as [e|].
    + injection H as <-. constructor; auto.
      now apply enhance_tournament_enriches in Hk.
    + exfalso. unfold PandaScoreAPI.enhance_tournament in Hk.
      rewrite Hg in Hk. simpl in Hk.
      apply bind_Ok in Hk. destruct Hk as [vg [_ Hk]].
      apply bind_Ok in Hk. destruct Hk as [slug [_ Hk]].
      cbn [bind] in Hk. destruct t; try discriminate Hk.
      unbind; discriminate.
Qed.

(** X3. Without a game filter ([None] or the empty string) the tournament
    fetch drops nothing: it returns one enriched record for each record the
    provider sent, in the provider's order. *)
Theorem get_tournaments_unfiltered_keeps_all (n : nat) (game : option string)
        (status : string) (per_page : Z) (result : list value) :
  given game = false ->
  PandaScoreAPI.get_tournaments provider n game status per_page = Ok result ->
  exists endpoint params raw,
    provider_records provider n endpoint params = Some raw /\
    Forall2 (enriches tournament_enrichment_keys) raw result.
Proof.
  intros Hg H.
  destruct (get_tournaments_fetched _ _ _ _ _ _ H)
    as (endpoint & params & raw & Hr & Hf).
  eauto 6 using filter_tournaments_unfiltered.
Qed.

(** X4. The tournament fetch sends [per_page] and [status] and nothing
    else: its result is the one it has against a provider that is only ever
    asked with these two parameters. *)
Theorem get_tournaments_sends_two_params (n : nat) (game : option string)
        (status : string) (per_page : Z) :
  PandaScoreAPI.get_tournaments provider n game status per_page
  = PandaScoreAPI.get_tournaments
      (fun k endpoint _ =>
         provider k endpoint [("per_page", VInt per_page); ("status", VStr status)])
      n game status per_page.
Proof.
  unfold PandaScoreAPI.get_tournaments.
  destruct (given game && negb (PandaScoreAPI.supported game)) eqn:Hg;
    [reflexivity|].
  rewrite (videogame_param_unreachable _ Hg). reflexivity.
Qed.
End Client.

(** ** The single tournament fetch and the tournament detail endpoint *)

Section TournamentDetail.
Context {RT : Runtime}.
Variable provider : requests.Provider.

Lemma requests_get_Ok (n : nat) (endpoint : string) (params : pydict)
      (response : requests.Response) :
  requests.get provider n endpoint params = Ok response ->
  provider n endpoint params = inr response.
Proof.
  unfold requests.get. destruct (provider n endpoint params); congruence.
Qed.

Lemma raise_for_status_Ok (response : requests.Response) (u : unit) :
  requests.raise_for_status response = Ok u -> requests.ok response = true.
Proof.
  unfold requests.raise_for_status. destruct (requests.ok response); congruence.
Qed.

Lemma json_Ok (response : requests.Response) (content : value) :
  requests.json response = Ok content -> requests.body response = inr content.
Proof.
  unfold requests.json. destruct (requests.body response); congruence.
Qed.

(** What a successful single tournament fetch was given and what it made of
    it: [slug] is what [videogame.get("slug")] read. *)
Lemma get_tournament_Ok (n : nat) (tournament_id : string) (e : value) :
  PandaScoreAPI.get_tournament provider n tournament_id = Ok e ->
  exists response raw enriched slug,
    provider n (PandaScoreAPI.BASE_URL ++ "/tournaments/" ++ tournament_id)%string []
    = inr response /\
    requests.ok response = true /\
    requests.body response = inr (VDict raw) /\
    e = VDict enriched /\
    enriches tournament_enrichment_keys (VDict raw) (VDict enriched) /\
    (exists videogame,
        dict_get_or "videogame" (VDict []) raw = VDict videogame /\
        slug = dict_get_or "slug" VNone videogame) /\
    dict_get "game_details" enriched
    = if py_eq slug (VStr "league-of-legends") then Some (lol_game_details raw)
      else if py_eq slug (VStr "valorant") then Some (valorant_game_details raw)
      else dict_get "game_details" raw.
Proof.
  unfold PandaScoreAPI.get_tournament. cbv zeta. intros H.
  apply bind_Ok in H. destruct H as [response [Hget H]].
  apply bind_Ok in H. destruct H as [u [Hok H]].
  apply bind_Ok in H. destruct H as [tournament [Hjson H]].
  apply requests_get_Ok in Hget. apply raise_for_status_Ok in Hok.
  apply json_Ok in Hjson.
  unfold PandaScoreAPI.list_index_error in H.
  destruct tournament as [| | | | |l|raw]; try discriminate H.
  - destruct (list_contains "league" l); [discriminate H|].
    destruct (list_contains "series" l); discriminate H.
  - apply bind_Ok in H. destruct H as [e1 [H1 H]].
    apply bind_Ok in H. destruct H as [e2 [H2 H]].
    apply bind_Ok in H. destruct H as [videogame [Hv H]].
    apply bind_Ok in H. destruct H as [slug [Hs H]].
    assert (E1 : enriches tournament_enrichment_keys (VDict raw) (VDict e1)
                 /\ dict_get "game_details" e1 = dict_get "game_details" raw).
    { clear - H1. destruct (dict_has "league" raw); unbind.
      - split; [enriched|]. now rewrite dict_get_set_other.
      - split; [enriched|reflexivity]. }
    assert (E2 : enriches tournament_enrichment_keys (VDict raw) (VDict e2)
                 /\ dict_get "game_details" e2 = dict_get "game_details" raw).
    { clear - H2 E1. destruct E1 as [E1 G1].
      destruct (dict_has "series" raw); unbind.
      - split; [apply enriches_set; [simpl; tauto | assumption]|].
        now rewrite dict_get_set_other.
      - auto. }
    destruct E2 as [E2 G2].
    simpl in Hv. injection Hv as <-.
    fold (dict_get_or "videogame" (VDict []) raw) in Hs.
    destruct (dict_get_or "videogame" (VDict []) raw) as [| | | | | |vg] eqn:Evg;
      try discriminate Hs.
    simpl in Hs. injection Hs as <-.
    fold (dict_get_or "slug" VNone vg) in H |- *.
    exists response, raw.
    destruct (py_eq (dict_get_or "slug" VNone vg) (VStr "league-of-legends"))
      eqn:Elol;
      [|destruct (py_eq (dict_get_or "slug" VNone vg) (VStr "valorant"))
          eqn:Eval];
      injection H as <-; eexists; exists (dict_get_or "slug" VNone vg);
      rewrite ?Elol, ?Eval;
      (split; [exact Hget|]); (split; [exact Hok|]);
      (split; [exact Hjson|]); (split; [reflexivity|]);
      (split; [first [exact E2
                     | apply enriches_set; [simpl; tauto | exact E2]]|]);
      (split; [exists vg; auto|]);
      first [apply dict_get_set_same | exact G2].
Qed.

(** X5. What the single tournament fetch returns is the provider's record
    with every key kept, changed at the enrichment keys only, and with the
    detail block chosen by the record's own videogame slug: the League of
    Legends block, the Valorant block, or none. *)
Theorem get_tournament_enrichment (n : nat) (tournament_id : string)
        (e : value) :
  PandaScoreAPI.get_tournament provider n tournament_id = Ok e ->
  exists response raw enriched,
    provider n (PandaScoreAPI.BASE_URL ++ "/tournaments/" ++ tournament_id)%string []
    = inr response /\
    requests.body response = inr (VDict raw) /\
    e = VDict enriched /\
    enriches tournament_enrichment_keys (VDict raw) (VDict enriched) /\
    (videogame_slug (VDict raw) = Some (VStr "league-of-legends") ->
     dict_get "game_details" enriched = Some (lol_game_details raw)) /\
    (videogame_slug (VDict raw) = Some (VStr "valorant") ->
     dict_get "game_details" enriched = Some (valorant_game_details raw)) /\
    (videogame_slug (VDict raw) <> Some (VStr "league-of-legends") ->
     videogame_slug (VDict raw) <> Some (VStr "valorant") ->
     dict_get "game_details" enriched = dict_get "game_details" raw).
Proof.
  intros H.
  destruct (get_tournament_Ok _ _ _ H)
    as (response & raw & enriched & slug & Hp & _ & Hb & -> & He
        & (vg & Hvg & ->) & Hd).
  exists response, raw, enriched.
  do 4 (split; [solve [auto]|]). split; [|split].
  - intros Hs. rewrite Hd.
    unfold videogame_slug, dict_get_or in *.
    destruct (dict_get "videogame" raw) as [[| | | | | |v]|]; try discriminate Hs.
    injection Hvg as <-. now rewrite Hs.
  - intros Hs. rewrite Hd.
    unfold videogame_slug, dict_get_or in *.
    destruct (dict_get "videogame" raw) as [[| | | | | |v]|]; try discriminate Hs.
    injection Hvg as <-. now rewrite Hs.
  - intros Hl Hv. rewrite Hd.
    assert (Hslug : forall s,
               dict_get_or "slug" VNone vg = VStr s ->
               videogame_slug (VDict raw) = Some (VStr s)).
    { intros s Hs. unfold videogame_slug, dict_get_or in *.
      destruct (dict_get "videogame" raw) as [[| | | | | |v]|];
        try discriminate Hvg; injection Hvg as <-.
      - destruct (dict_get "slug" v); [congruence | discriminate].
      - discriminate Hs. }
    destruct (py_eq _ (VStr "league-of-legends")) eqn:E1.
    { apply py_eq_str in E1. apply Hslug in E1. contradiction. }
    destruct (py_eq _ (VStr "valorant")) eqn:E2.
    { apply py_eq_str in E2. apply Hslug in E2. contradiction. }
    reflexivity.
Qed.
End TournamentDetail.

(** ** Which exceptions reach the blanket handlers *)

Lemma raises_plain_Ok {A : Type} (a : A) : raises_plain (Ok a).
Proof. intros e H. discriminate H. Qed.

Lemma raises_plain_Error {A : Type} (cls msg : string) :
  raises_plain (Raise (A := A) (Error cls msg)).
Proof. intros e [= <-]. exact I. Qed.

Lemma raises_plain_bind {A B : Type} (m : result A) (k : A -> result B) :
  raises_plain m -> (forall a, raises_plain (k a)) -> raises_plain (bind m k).
Proof.
  intros Hm Hk e H. destruct m as [a|e']; simpl in H.
  - exact (Hk a e H).
  - apply Hm. congruence.
Qed.

Lemma raises_plain_map_result {A B : Type} (f : A -> result B) (l : list A) :
  (forall x, raises_plain (f x)) -> raises_plain (PandaScoreAPI.map_result f l).
Proof.
  intros Hf. induction l as [|x l IH]; simpl.
  - apply raises_plain_Ok.
  - apply raises_plain_bind; [apply Hf|]. intros y.
    apply raises_plain_bind; [apply IH|]. intros ys. apply raises_plain_Ok.
Qed.

(** Decomposes a goal [raises_plain m] along the binds, conditionals and
    matches of [m]. *)
Ltac plain :=
  repeat first
    [ apply raises_plain_Ok
    | apply raises_plain_Error
    | apply raises_plain_map_result; intros
    | apply raises_plain_bind; [|intros]
    | match goal with
      | |- raises_plain (if ?c then _ else _) => destruct c
      | |- raises_plain (match ?x with _ => _ end) => destruct x
      | |- raises_plain (let _ := _ in _) => cbv zeta
      end ].

Lemma py_get_plain (obj : value) (k : string) (default : value) :
  raises_plain (py_get obj k default).
Proof. unfold py_get, AttributeError. plain. Qed.

Lemma dict_getitem_plain (k : string) (d : pydict) :
  raises_plain (dict_getitem k d).
Proof. unfold dict_getitem, KeyError. plain. Qed.

Lemma py_iter_plain (obj : value) : raises_plain (py_iter obj).
Proof. unfold py_iter, TypeError. plain. Qed.

Lemma py_getitem_plain (obj : value) (k : string) :
  raises_plain (py_getitem obj k).
Proof. unfold py_getitem, TypeError. plain. apply dict_getitem_plain. Qed.

Lemma py_setitem_plain (obj : value) (k : string) (v : value) :
  raises_plain (py_setitem obj k v).
Proof. unfold py_setitem, TypeError. plain. Qed.

Section ClientErrors.
Context {RT : Runtime}.
Variable provider : requests.Provider.

Lemma requests_get_plain (n : nat) (endpoint : string) (params : pydict) :
  raises_plain (requests.get provider n endpoint params).
Proof. unfold requests.get. plain. Qed.

Lemma raise_for_status_plain (r : requests.Response) :
  raises_plain (requests.raise_for_status r).
Proof. unfold requests.raise_for_status. plain. Qed.

Lemma json_plain (r : requests.Response) : raises_plain (requests.json r).
Proof. unfold requests.json. plain. Qed.

Lemma get_match_plain (n : nat) (match_id : string) :
  raises_plain (PandaScoreAPI.get_match provider n match_id).
Proof.
  unfold PandaScoreAPI.get_match. cbv zeta.
  apply raises_plain_bind; [apply requests_get_plain|]. intros r.
  apply raises_plain_bind; [apply raise_for_status_plain|]. intros _.
  apply json_plain.
Qed.

Lemma opponent_entry_plain (o : value) :
  raises_plain (PandaScoreAPI.opponent_entry o).
Proof.
  unfold PandaScoreAPI.opponent_entry.
  repeat (apply raises_plain_bind; [apply py_get_plain|]; intros).
  apply raises_plain_Ok.
Qed.

Lemma enhance_match_plain (m : value) :
  raises_plain (PandaScoreAPI.enhance_match m).
Proof.
  unfold PandaScoreAPI.enhance_match, PandaScoreAPI.list_index_error,
    TypeError, AttributeError.
  destruct m; try apply raises_plain_Error.
  - destruct (list_contains "opponents" l);
      [apply raises_plain_Error | apply raises_plain_Ok].
  - destruct (dict_has "opponents" d); [|apply raises_plain_Ok].
    apply raises_plain_bind; [apply dict_getitem_plain|]. intros.
    apply raises_plain_bind; [apply py_iter_plain|]. intros.
    apply raises_plain_bind;
      [apply raises_plain_map_result, opponent_entry_plain|].
    intros. apply raises_plain_Ok.
Qed.

Lemma get_matches_plain (n : nat) (tournament_id : option string)
      (status : string) (per_page : Z) :
  raises_plain (PandaScoreAPI.get_matches provider n tournament_id status per_page).
Proof.
  unfold PandaScoreAPI.get_matches. cbv zeta.
  apply raises_plain_bind; [apply requests_get_plain|]. intros r.
  apply raises_plain_bind; [apply raise_for_status_plain|]. intros _.
  apply raises_plain_bind; [apply json_plain|]. intros.
  apply raises_plain_bind; [apply py_iter_plain|]. intros.
  apply raises_plain_map_result, enhance_match_plain.
Qed.

Lemma get_tournament_plain (n : nat) (tournament_id : string) :
  raises_plain (PandaScoreAPI.get_tournament provider n tournament_id).
Proof.
  unfold PandaScoreAPI.get_tournament. cbv zeta.
  apply raises_plain_bind; [apply requests_get_plain|]. intros r.
  apply raises_plain_bind; [apply raise_for_status_plain|]. intros _.
  apply raises_plain_bind; [apply json_plain|]. intros t.
  unfold PandaScoreAPI.list_index_error, TypeError, AttributeError.
  destruct t; try apply raises_plain_Error.
  - destruct (list_contains "league" l); [apply raises_plain_Error|].
    destruct (list_contains "series" l); apply raises_plain_Error.
  - apply raises_plain_bind.
    { destruct (dict_has "league" d); [|apply raises_plain_Ok].
      apply raises_plain_bind; [apply dict_getitem_plain|]. intros.
      repeat (apply raises_plain_bind; [apply py_get_plain|]; intros).
      apply raises_plain_Ok. }
    intros e1. apply raises_plain_bind.
    { destruct (dict_has "series" d); [|apply raises_plain_Ok].
      apply raises_plain_bind; [apply dict_getitem_plain|]. intros.
      repeat (apply raises_plain_bind; [apply py_get_plain|]; intros).
      apply raises_plain_Ok. }
    intros e2.
    apply raises_plain_bind; [apply py_get_plain|]. intros vg.
    apply raises_plain_bind; [apply py_get_plain|]. intros slug.
    destruct (py_eq slug (VStr "league-of-legends")); [apply raises_plain_Ok|].
    destruct (py_eq slug (VStr "valorant")); apply raises_plain_Ok.
Qed.
End ClientErrors.

(** ** The detail and prediction endpoints *)

Section DetailAndPrediction.
Context {RT : Runtime}.
Variable w : World.

Lemma enriches_empty (added : list string) (raw : pydict) :
  enriches added (VDict raw) (VDict []) -> raw = [].
Proof.
  intros [Hk _]. destruct raw as [|[k v] raw]; [reflexivity|].
  specialize (Hk k). unfold dict_has in Hk. simpl in Hk.
  rewrite String.eqb_refl in Hk. discriminate (Hk eq_refl).
Qed.

(** X6. A successful tournament detail answer is the enriched tournament
    with the enhanced match list of that tournament under [matches], every
    other key as the single tournament fetch returned it; the tournament is
    fetched first, its matches second, and the store is not touched. *)
Theorem get_tournament_details_attaches_matches (tournament_id : string)
        (store store' : Store) (content : value) :
  main.get_tournament_details w tournament_id store = (OK content, store') ->
  exists enriched matches d,
    PandaScoreAPI.get_tournament (provider w) 0 tournament_id
    = Ok (VDict enriched) /\
    PandaScoreAPI.get_matches (provider w) 1 (Some tournament_id)
      "running,upcoming" 50 = Ok matches /\
    content = VDict d /\
    dict_get "matches" d = Some (VList matches) /\
    (forall k, k <> "matches" -> dict_get k d = dict_get k enriched) /\
    store' = store.
Proof.
  unfold main.get_tournament_details, main.get_tournament_details_try.
  destruct (PandaScoreAPI.get_tournament (provider w) 0 tournament_id)
    as [t|e] eqn:Ht; [|destruct e; discriminate].
  cbn [bind].
  destruct (get_tournament_Ok _ _ _ _ Ht)
    as (_ & _ & enriched & _ & _ & _ & _ & -> & _).
  destruct (negb (truthy (VDict enriched))); [discriminate|].
  destruct (PandaScoreAPI.get_matches _ _ _ _ _) as [matches|e];
    [|destruct e; discriminate].
  cbn [bind py_setitem]. intros [= <- <-].
  exists enriched, matches, (dict_set "matches" (VList matches) enriched).
  repeat split; auto using dict_get_set_same, dict_get_set_other.
Qed.

(** X7. The tournament detail endpoint answers 404 exactly when the provider
    answers the tournament request with a success status and an empty JSON
    object; an error status from the provider, its own 404 included, reaches
    the caller as status 500. Whatever the failure, the store is left alone. *)
Theorem get_tournament_details_failures (tournament_id : string)
        (store : Store) :
  (forall response,
      provider w 0%nat
        (PandaScoreAPI.BASE_URL ++ "/tournaments/" ++ tournament_id)%string []
      = inr response ->
      requests.ok response = false ->
      main.get_tournament_details w tournament_id store
      = (Failed 500 ("Failed to fetch tournament details: "
                       ++ requests.http_error response)%string, store))
  /\
  (forall response,
      provider w 0%nat
        (PandaScoreAPI.BASE_URL ++ "/tournaments/" ++ tournament_id)%string []
      = inr response ->
      requests.ok response = true ->
      requests.body response = inr (VDict []) ->
      main.get_tournament_details w tournament_id store
      = (Failed 404 ("Tournament with ID " ++ tournament_id ++ " not found")%string,
         store))
  /\
  (forall status_code detail store',
      main.get_tournament_details w tournament_id store
      = (Failed status_code detail, store') ->
      store' = store /\
      (status_code = 404 \/ status_code = 500) /\
      (status_code = 404 ->
       exists response,
         provider w 0%nat
           (PandaScoreAPI.BASE_URL ++ "/tournaments/" ++ tournament_id)%string []
         = inr response /\
         requests.ok response = true /\
         requests.body response = inr (VDict []))).
Proof.
  split; [|split].
  - intros response Hp Hok.
    unfold main.get_tournament_details, main.get_tournament_details_try,
      PandaScoreAPI.get_tournament, requests.get, requests.raise_for_status.
    cbv zeta. rewrite Hp. cbn [bind]. rewrite Hok. reflexivity.
  - intros response Hp Hok Hb.
    unfold main.get_tournament_details, main.get_tournament_details_try,
      PandaScoreAPI.get_tournament, requests.get, requests.raise_for_status,
      requests.json.
    cbv zeta. rewrite Hp. cbn [bind]. rewrite Hok. cbn [bind]. rewrite Hb.
    reflexivity.
  - intros status_code detail store'.
    unfold main.get_tournament_details, main.get_tournament_details_try.
    destruct (PandaScoreAPI.get_tournament (provider w) 0 tournament_id)
      as [t|e] eqn:Ht.
    + cbn [bind].
      destruct (get_tournament_Ok _ _ _ _ Ht)
        as (response & raw & enriched & _ & Hp & Hok & Hb & -> & He & _).
      destruct enriched as [|kv enriched]; cbn [truthy negb].
      * intros [= <- <- <-]. split; [reflexivity|]. split; [now left|].
        intros _. exists response. apply enriches_empty in He. subst raw. auto.
      * pose proof (get_matches_plain (provider w) 1 (Some tournament_id)
                      "running,upcoming" 50) as Hm.
        destruct (PandaScoreAPI.get_matches _ _ _ _ _) as [matches|e].
        { discriminate. }
        specialize (Hm e eq_refl). destruct e; [contradiction|].
        cbn [bind]. intros [= <- <- <-].
        split; [reflexivity|]. split; [now right|]. discriminate.
    + pose proof (get_tournament_plain (provider w) 0 tournament_id e Ht) as He.
      destruct e; [contradiction|]. cbn [bind]. intros [= <- <- <-].
      split; [reflexivity|]. split; [now right|]. discriminate.
Qed.

(** X8. The prediction read never answers 200. It answers 404 when the match
    list fetch returns no match, and 500 in every other case: when the fetch
    fails, and when it returns matches, which the handler then treats as one
    match. The store is left alone. *)
Theorem get_match_prediction_outcomes (match_id : string) (store : Store) :
  exists status_code detail,
    main.get_match_prediction w match_id store
    = (Failed status_code detail, store) /\
    ((status_code = 404 /\
      PandaScoreAPI.get_matches (provider w) 0 (Some match_id)
        "running,upcoming" 50 = Ok []) \/
     (status_code = 500 /\
      PandaScoreAPI.get_matches (provider w) 0 (Some match_id)
        "running,upcoming" 50 <> Ok [])).
Proof.
  unfold main.get_match_prediction, main.get_match_prediction_try.
  pose proof (get_matches_plain (provider w) 0 (Some match_id)
                "running,upcoming" 50) as Hm.
  destruct (PandaScoreAPI.get_matches _ _ _ _ _) as [[|m ms]|e].
  - do 2 eexists. split; [reflexivity|]. left. auto.
  - do 2 eexists. split; [reflexivity|]. right. split; [reflexivity|].
    discriminate.
  - specialize (Hm e eq_refl). destruct e; [contradiction|].
    do 2 eexists. split; [reflexivity|]. right. split; [reflexivity|].
    discriminate.
Qed.

(** X9. The prediction write answers 404 exactly when the provider answers
    the match request with a success status and a body that is false in a
    condition (null, false, zero, an empty string, list or object). A body
    that is true and not an object is answered with status 500. *)
Theorem create_prediction_not_found (match_id : string) (prediction : value)
        (store : Store) :
  (forall response content,
      provider w 0%nat (PandaScoreAPI.BASE_URL ++ "/matches/" ++ match_id)%string []
      = inr response ->
      requests.ok response = true ->
      requests.body response = inr content ->
      (truthy content = false ->
       main.create_prediction w match_id prediction store
       = (Failed 404 ("Match with ID " ++ match_id ++ " not found")%string,
          store)) /\
      (truthy content = true -> is_dict content = false ->
       main.create_prediction w match_id prediction store
       = (Failed 500 ("Failed to create prediction: '" ++ type_name content
                        ++ "' object has no attribute 'get'")%string,
          store)))
  /\
  (forall detail store',
      main.create_prediction w match_id prediction store
      = (Failed 404 detail, store') ->
      exists response content,
        provider w 0%nat
          (PandaScoreAPI.BASE_URL ++ "/matches/" ++ match_id)%string []
        = inr response /\
        requests.ok response = true /\
        requests.body response = inr content /\
        truthy content = false).
Proof.
  split.
  - intros response content Hp Hok Hb.
    unfold main.create_prediction, main.create_prediction_try.
    rewrite (get_match_found w _ _ _ Hp Hok Hb). cbn [bind].
    split.
    + intros ->. reflexivity.
    + intros -> Hd. cbn [negb].
      destruct content; try discriminate Hd; reflexivity.
  - intros detail store'.
    unfold main.create_prediction, main.create_prediction_try.
    destruct (PandaScoreAPI.get_match (provider w) 0 match_id)
      as [content|e] eqn:Hm.
    + cbn [bind]. unfold PandaScoreAPI.get_match in Hm. cbv zeta in Hm.
      apply bind_Ok in Hm. destruct Hm as [response [Hget Hm]].
      apply bind_Ok in Hm. destruct Hm as [u [Hok Hm]].
      apply requests_get_Ok in Hget. apply raise_for_status_Ok in Hok.
      apply json_Ok in Hm.
      destruct (truthy content) eqn:Ht; cbn [negb].
      * pose proof (py_get_plain content "status" VNone) as Hg.
        destruct (py_get content "status" VNone) as [status|e].
        { cbn [bind]. destruct (py_eq status (VStr "finished")); discriminate. }
        specialize (Hg e eq_refl). destruct e; [contradiction|]. discriminate.
      * intros _. eauto 6.
    + pose proof (get_match_plain (provider w) 0 match_id e Hm) as He.
      destruct e; [contradiction|]. discriminate.
Qed.
End DetailAndPrediction.

(** ** What the enrichment puts into a record *)

Section EnrichmentContents.
Context {RT : Runtime}.
Variable provider : requests.Provider.

Lemma opponent_entry_normalized (o n : value) :
  PandaScoreAPI.opponent_entry o = Ok n -> n = normalized_opponent o.
Proof.
  unfold PandaScoreAPI.opponent_entry, normalized_opponent, opponent_field.
  intros H. destruct o as [| | | | | |o]; try discriminate H.
  simpl in H. destruct (dict_get "opponent" o) as [team|].
  - destruct team as [| | | | | |team]; try discriminate H.
    simpl in H. now injection H as <-.
  - simpl in H. now injection H as <-.
Qed.

Lemma map_result_map {A B : Type} (f : A -> result B) (g : A -> B) (l : list A) :
  (forall x y, f x = Ok y -> y = g x) ->
  forall ys, PandaScoreAPI.map_result f l = Ok ys -> ys = map g l.
Proof.
  intros Hf. induction l as [|x l IH]; simpl; intros ys H.
  - now injection H as <-.
  - apply bind_Ok in H. destruct H as [y [Hy H]].
    apply bind_Ok in H. destruct H as [ys' [Hys H]].
    injection H as <-. f_equal; auto.
Qed.

Lemma map_result_Forall2 {A B : Type} (f : A -> result B) (P : A -> B -> Prop)
      (l : list A) :
  (forall x y, f x = Ok y -> P x y) ->
  forall ys, PandaScoreAPI.map_result f l = Ok ys -> Forall2 P l ys.
Proof.
  intros Hf. induction l as [|x l IH]; simpl; intros ys H.
  - injection H as <-. constructor.
  - apply bind_Ok in H. destruct H as [y [Hy H]].
    apply bind_Ok in H. destruct H as [ys' [Hys H]].
    injection H as <-. constructor; auto.
Qed.

Lemma enhance_match_normalizes (m e : value) :
  PandaScoreAPI.enhance_match m = Ok e -> normalizes m e.
Proof.
  unfold PandaScoreAPI.enhance_match, PandaScoreAPI.list_index_error, normalizes.
  intros H. destruct m as [| | | | |l|d]; try discriminate H.
  - destruct (list_contains "opponents" l); [discriminate H|].
    now injection H as <-.
  - unfold dict_has, dict_getitem in H.
    destruct (dict_get "opponents" d) as [opponents|].
    + cbn [bind] in H.
      apply bind_Ok in H. destruct H as [items [Hi H]].
      apply bind_Ok in H. destruct H as [ns [Hn H]].
      injection H as <-.
      apply (map_result_map _ normalized_opponent) in Hn;
        [|apply opponent_entry_normalized].
      subst ns. eexists. split; [reflexivity|]. split.
      * intros k Hk. now apply dict_get_set_other.
      * exists items. split; [assumption|]. apply dict_get_set_same.
    + injection H as <-. exists d. auto.
Qed.

(** X10. The match list fetch returns one match for each match the provider
    sent, in order. A match keeps every key but [opponents]; each opponent is
    replaced by the fixed shape of id, name, image_url and acronym under
    [opponent], a field the provider did not send being null. *)
Theorem get_matches_normalizes_opponents (n : nat)
        (tournament_id : option string) (status : string) (per_page : Z)
        (result : list value) :
  PandaScoreAPI.get_matches provider n tournament_id status per_page
  = Ok result ->
  exists endpoint params raw,
    provider_records provider n endpoint params = Some raw /\
    Forall2 normalizes raw result.
Proof.
  unfold PandaScoreAPI.get_matches. cbv zeta. intros H.
  apply bind_Ok in H. destruct H as [response [Hget H]].
  apply bind_Ok in H. destruct H as [u [_ H]].
  apply bind_Ok in H. destruct H as [content [Hjson H]].
  apply bind_Ok in H. destruct H as [raw [Hiter H]].
  do 2 eexists. exists raw. split.
  - eapply provider_records_intro; eauto.
  - eapply map_result_Forall2; [|exact H]. apply enhance_match_normalizes.
Qed.

Lemma roster_entry_of (player entry : value) :
  PandaScoreAPI.roster_entry player = Ok entry ->
  exists p, player = VDict p /\ entry = roster_of p.
Proof.
  unfold PandaScoreAPI.roster_entry. intros H.
  destruct player as [| | | | | |p]; try discriminate H.
  simpl in H. injection H as <-. eauto.
Qed.

Lemma enhance_team_roster (k k' : nat) (game : option string) (t e : value) :
  PandaScoreAPI.enhance_team provider k game t = Ok (e, k') ->
  has_roster t e.
Proof.
  unfold PandaScoreAPI.enhance_team, PandaScoreAPI.list_index_error, has_roster.
  intros H. destruct t as [| | | | |l|t]; try discriminate H.
  - destruct (list_contains "players" l); [discriminate H|].
    destruct (is_str game "lol"); [discriminate H|].
    injection H as <- _. now destruct l.
  - apply bind_Ok in H. destruct H as [e1 [H1 H]].
    assert (R1 : match dict_get "players" t with
                 | Some players =>
                     exists items roster,
                       py_iter players = Ok items /\
                       dict_get "roster" e1 = Some (VList roster) /\
                       Forall2 (fun player entry =>
                                  exists p, player = VDict p /\
                                            entry = roster_of p)
                               items roster
                 | None => dict_get "roster" e1 = dict_get "roster" t
                 end).
    { clear H. unfold dict_has, dict_getitem in H1.
      destruct (dict_get "players" t) as [players|].
      - cbn [bind] in H1.
        apply bind_Ok in H1. destruct H1 as [items [Hi H1]].
        apply bind_Ok in H1. destruct H1 as [roster [Hr H1]].
        injection H1 as <-. exists items, roster.
        split; [assumption|]. split; [apply dict_get_set_same|].
        eapply map_result_Forall2; [|exact Hr]. apply roster_entry_of.
      - now injection H1 as <-. }
    assert (R : exists d, e = VDict d /\ dict_get "roster" d = dict_get "roster" e1).
    { clear R1 H1. destruct (is_str game "lol").
      - apply bind_Ok in H. destruct H as [id [_ H]]. cbv zeta in H.
        apply bind_Ok in H. destruct H as [response [_ H]].
        destruct (requests.ok response).
        + apply bind_Ok in H. destruct H as [ms [_ H]].
          apply bind_Ok in H. destruct H as [wr [_ H]].
          injection H as <- _. eexists. split; [reflexivity|].
          now apply dict_get_set_other.
        + injection H as <- _. eauto.
      - injection H as <- _. eauto. }
    destruct R as (d & -> & Hd). rewrite Hd. exact R1.
Qed.

Lemma enhance_teams_roster (game : option string) (raw : list value) :
  forall k result,
    PandaScoreAPI.enhance_teams provider k game raw = Ok result ->
    Forall2 has_roster raw result.
Proof.
  induction raw as [|t rest IH]; simpl; intros k result H.
  - injection H as <-. constructor.
  - apply bind_Ok in H. destruct H as [[e k'] [He H]].
    apply bind_Ok in H. destruct H as [es [Hes H]].
    injection H as <-. constructor; eauto using enhance_team_roster.
Qed.

(** X11. The team fetch returns one record for each team the provider sent.
    A team with a [players] key gets a [roster] with one entry per player,
    made of the player's name, role, hometown and image_url, null where the
    player has none; a team without [players] gets no roster. *)
Theorem get_teams_attaches_roster (n : nat) (game : option string)
        (per_page : Z) (result : list value) :
  PandaScoreAPI.get_teams provider n game per_page = Ok result ->
  exists endpoint params raw,
    provider_records provider n endpoint params = Some raw /\
    Forall2 has_roster raw result.
Proof.
  intros H.
  destruct (get_teams_fetched _ _ _ _ _ H)
    as (endpoint & params & raw & Hr & Hf).
  eauto 6 using enhance_teams_roster.
Qed.
End EnrichmentContents.

Section RecentPerformanceFacts.
Context {RT : Runtime}.
Variable provider : requests.Provider.

Lemma enhance_team_lol (k k' : nat) (team e : value) :
  PandaScoreAPI.enhance_team provider k (Some "lol") team = Ok (e, k') ->
  k' = S k /\ recent_performance_of provider k team e.
Proof.
  unfold PandaScoreAPI.enhance_team, PandaScoreAPI.list_index_error,
    recent_performance_of.
  intros H. destruct team as [| | | | |l|t]; try discriminate H.
  - destruct (list_contains "players" l); discriminate H.
  - apply bind_Ok in H. destruct H as [e1 [H1 H]].
    assert (R1 : dict_get "recent_performance" e1
                 = dict_get "recent_performance" t).
    { clear H. destruct (dict_has "players" t); unbind; auto.
      now apply dict_get_set_other. }
    cbn [is_str] in H. rewrite String.eqb_refl in H.
    apply bind_Ok in H. destruct H as [id [Hid H]]. cbv zeta in H.
    apply bind_Ok in H. destruct H as [response [Hget H]].
    unfold dict_getitem in Hid.
    destruct (dict_get "id" t) as [id'|] eqn:Eid; [|discriminate Hid].
    injection Hid as ->.
    unfold requests.get in Hget.
    destruct (provider k _ _) as [msg|r] eqn:Hp; [discriminate Hget|].
    injection Hget as ->.
    destruct (requests.ok response) eqn:Hok.
    + apply bind_Ok in H. destruct H as [ms [Hms H]].
      apply bind_Ok in H. destruct H as [wr [Hwr H]].
      injection H as <- <-. split; [reflexivity|].
      exists t. eexists. exists id, response.
      do 2 (split; [reflexivity|]). split; [exact Eid|].
      split; [exact Hp|]. rewrite Hok.
      exists ms, wr. unfold requests.json in Hms.
      destruct (requests.body response); [discriminate|].
      injection Hms as ->. split; [reflexivity|]. split; [assumption|].
      apply dict_get_set_same.
    + injection H as <- <-. split; [reflexivity|].
      exists t, e1, id, response.
      do 2 (split; [reflexivity|]). split; [exact Eid|].
      split; [exact Hp|]. now rewrite Hok.
Qed.

Lemma enhance_teams_lol (raw : list value) :
  forall k result,
    PandaScoreAPI.enhance_teams provider k (Some "lol") raw = Ok result ->
    List.length result = List.length raw /\
    forall i team e,
      nth_error raw i = Some team -> nth_error result i = Some e ->
      recent_performance_of provider (k + i) team e.
Proof.
  induction raw as [|t rest IH]; simpl; intros k result H.
  - injection H as <-. split; [reflexivity|]. intros [|i]; discriminate.
  - apply bind_Ok in H. destruct H as [[e k'] [He H]].
    apply bind_Ok in H. destruct H as [es [Hes H]].
    injection H as <-. apply enhance_team_lol in He. destruct He as [-> He].
    destruct (IH _ _ Hes) as [Hlen Hnth]. split; [simpl; congruence|].
    intros [|i] team e'; simpl.
    + intros [= <-] [= <-]. now rewrite Nat.add_0_r.
    + intros Ht Hr. rewrite Nat.add_succ_r. exact (Hnth i team e' Ht Hr).
Qed.

(** X12. For League of Legends the team fetch makes one more request per
    team, in the provider's order, for the team's five most recent matches.
    A reply with a success status puts those matches and their win rate under
    [recent_performance]; a reply with an error status is tolerated, the team
    being returned without it. *)
Theorem get_teams_lol_recent_performance (n : nat) (per_page : Z)
        (result : list value) :
  PandaScoreAPI.get_teams provider n (Some "lol") per_page = Ok result ->
  exists endpoint params raw,
    provider_records provider n endpoint params = Some raw /\
    List.length result = List.length raw /\
    forall i team e,
      nth_error raw i = Some team -> nth_error result i = Some e ->
      recent_performance_of provider (S n + i) team e.
Proof.
  intros H.
  destruct (get_teams_fetched _ _ _ _ _ H)
    as (endpoint & params & raw & Hr & Hf).
  exists endpoint, params, raw. split; [assumption|].
  exact (enhance_teams_lol _ _ _ Hf).
Qed.

Lemma enhance_team_other_game (provider' : requests.Provider) (k : nat)
      (game : option string) (team : value) :
  is_str game "lol" = false ->
  PandaScoreAPI.enhance_team provider k game team
  = PandaScoreAPI.enhance_team provider' k game team /\
  forall e k', PandaScoreAPI.enhance_team provider k game team = Ok (e, k') ->
               k' = k.
Proof.
  intros Hg. unfold PandaScoreAPI.enhance_team. rewrite Hg.
  split; [reflexivity|]. intros e k' H.
  unfold PandaScoreAPI.list_index_error in H.
  destruct team as [| | | | |l|t]; try discriminate H.
  - destruct (list_contains "players" l); [discriminate H|]. now injection H.
  - apply bind_Ok in H. destruct H as [e1 [_ H]]. now injection H.
Qed.

Lemma enhance_teams_other_game (provider' : requests.Provider)
      (game : option string) (teams : list value) :
  is_str game "lol" = false ->
  forall k,
    PandaScoreAPI.enhance_teams provider k game teams
    = PandaScoreAPI.enhance_teams provider' k game teams.
Proof.
  intros Hg. induction teams as [|t rest IH]; simpl; intros k; [reflexivity|].
  destruct (enhance_team_other_game provider' k game t Hg) as [<- Hk].
  destruct (PandaScoreAPI.enhance_team provider k game t) as [[e k']|err];
    [|reflexivity].
  cbn [bind]. now rewrite IH.
Qed.

(** X13. For any game but League of Legends the team fetch makes its list
    request and no other: its result is the same against any provider that
    answers that one request the same way. *)
Theorem get_teams_single_request (provider' : requests.Provider) (n : nat)
        (game : option string) (per_page : Z) :
  is_str game "lol" = false ->
  (forall endpoint params,
      provider n endpoint params = provider' n endpoint params) ->
  PandaScoreAPI.get_teams provider n game per_page
  = PandaScoreAPI.get_teams provider' n game per_page.
Proof.
  intros Hg Hp. unfold PandaScoreAPI.get_teams.
  destruct (given game && negb (PandaScoreAPI.supported game)); [reflexivity|].
  cbv zeta.
  destruct (if given game then _ else _) as [params|e]; [|reflexivity].
  cbn [bind]. unfold requests.get. rewrite Hp.
  destruct (provider' n _ params) as [msg|response]; [reflexivity|].
  cbn [bind].
  destruct (requests.raise_for_status response); [|reflexivity]. cbn [bind].
  destruct (requests.json response) as [content|]; [|reflexivity]. cbn [bind].
  destruct (py_iter content); [|reflexivity]. cbn [bind].
  now apply enhance_teams_other_game.
Qed.
End RecentPerformanceFacts.

(** ** What a refresh does to the rows already stored *)

Section StableKeys.
Context {R : Type} {M : Mapped R} {L : MappedLaws R}.

Lemma same_keys_trans (a b c : list R) :
  same_keys a b -> same_keys b c -> same_keys a c.
Proof.
  unfold same_keys. intros Hab. revert c.
  induction Hab as [|x y a b [He Hp] _ IH]; intros c Hbc.
  - inversion Hbc. constructor.
  - inversion Hbc as [|y' z b' c' [He' Hp'] Hbc']; subst.
    constructor; [split; congruence | auto].
Qed.

Lemma upsert_keeps (t : list R) (d : R) :
  exists kept added, upsert t d = kept ++ added /\ same_keys t kept.
Proof.
  unfold upsert.
  destruct (Session.find_index _ t) as [i|] eqn:Ef.
  - destruct (find_index_Some _ _ _ Ef) as [r [Hnth Hr]].
    apply has_external_id_true in Hr.
    eexists. exists []. rewrite app_nil_r. split; [reflexivity|].
    exact (update_nth_key d i t r Hnth Hr).
  - eexists. eexists. split; [reflexivity|]. apply same_keys_refl.
Qed.

Lemma upsert_all_keeps (ds : list R) :
  forall t, exists kept added,
    fold_left upsert ds t = kept ++ added /\ same_keys t kept.
Proof.
  induction ds as [|d ds IH]; simpl; intros t.
  - exists t, []. rewrite app_nil_r. split; [reflexivity|apply same_keys_refl].
  - destruct (upsert_keeps t d) as (k1 & a1 & -> & H1).
    destruct (IH (k1 ++ a1)) as (k2 & a2 & -> & H2).
    apply Forall2_app_inv_l in H2.
    destruct H2 as (k2a & k2b & Ha & Hb & ->).
    exists k2a, (k2b ++ a2). rewrite app_assoc. split; [reflexivity|].
    exact (same_keys_trans _ _ _ H1 Ha).
Qed.
End StableKeys.

Section RefreshAndStoredRows.
Context {RT : Runtime}.
Variable w : World.

(** X14. GET /tournaments never deletes a row and never changes the primary
    key or the external id of one: whatever the outcome, the table afterwards
    begins with rows that carry, one for one and in the same order, the keys
    of the rows before, and the teams table is as it was. *)
Theorem get_tournaments_keeps_rows (game : option string) (status : string)
        (store store' : Store) (response : HTTPResponse) :
  main.get_tournaments w game status store = (response, store') ->
  exists kept added,
    tournaments store' = kept ++ added /\
    same_keys (tournaments store) kept /\
    teams store' = teams store.
Proof.
  intros H. destruct response as [content|status_code detail].
  - apply get_tournaments_OK in H. destruct H as (data & ds & _ & _ & _ & ->).
    destruct (upsert_all_keeps ds (tournaments store)) as (kept & added & E & Hk).
    exists kept, added. simpl. auto.
  - apply get_tournaments_Failed in H. subst store'.
    exists (tournaments store), []. rewrite app_nil_r.
    split; [reflexivity|]. split; [apply same_keys_refl | reflexivity].
Qed.

Lemma insert_all_appends (ts : list Team) :
  forall table,
    Forall (fun t => Team_id t = None /\ Team_rating t = None) ts ->
    exists added,
      fold_left insert ts table = table ++ added /\
      Forall2 inserted_row ts added.
Proof.
  induction ts as [|t ts IH]; simpl; intros table Hts.
  - exists []. rewrite app_nil_r. split; [reflexivity|constructor].
  - inversion Hts as [|? ? [Hid Hr] Hts']; subst.
    destruct (IH (insert table t) Hts') as (added & -> & Hadded).
    unfold insert at 1. rewrite <- app_assoc. eexists. split; [reflexivity|].
    constructor; [|exact Hadded].
    eexists. simpl. rewrite Hr. reflexivity.
Qed.

Lemma new_Team_fresh (t_data : value) (team : Team) :
  main.new_Team t_data = Ok team ->
  Team_id team = None /\ Team_rating team = None.
Proof.
  unfold main.new_Team. intros H. unbind. split; reflexivity.
Qed.

(** X15. GET /teams never changes or deletes a stored team: when it succeeds,
    the table is the old one followed by one new row for each fetched team,
    in the provider's order, with the columns built from the record and the
    rating 1500.0; the tournaments table is as it was. *)
Theorem get_teams_appends_rows (game : option string) (store store' : Store)
        (content : value) :
  main.get_teams w game store = (OK content, store') ->
  exists data ts added,
    content = VDict [("teams", VList data)] /\
    PandaScoreAPI.map_result main.new_Team data = Ok ts /\
    teams store' = teams store ++ added /\
    Forall2 inserted_row ts added /\
    tournaments store' = tournaments store.
Proof.
  intros H. apply get_teams_OK in H.
  destruct H as (data & ts & -> & _ & Hts & Hflush & Ht).
  assert (Hfresh : Forall (fun t => Team_id t = None /\ Team_rating t = None) ts).
  { apply (map_result_Forall _ _ _ _ Hts).
    apply Forall_forall. intros x _ y. apply new_Team_fresh. }
  apply (flush_inserts ts) in Hflush.
  - destruct (insert_all_appends ts (teams store) Hfresh) as (added & E & Ha).
    exists data, ts, added. rewrite Hflush, E. auto.
  - eapply Forall_impl; [|exact Hfresh]. intros t [Hid _]. exact Hid.
Qed.

Lemma parse_date_plain (x : value) : raises_plain (parse_date x).
Proof.
  unfold parse_date, AttributeError.
  destruct (truthy x); [|apply raises_plain_Ok].
  destruct x; try apply raises_plain_Error.
  destruct (fromisoformat _); [apply raises_plain_Error | apply raises_plain_Ok].
Qed.

Lemma tournament_dict_plain (t_data : value) :
  raises_plain (main.tournament_dict t_data).
Proof.
  unfold main.tournament_dict.
  repeat first
    [ apply raises_plain_Ok
    | apply raises_plain_bind;
      [first [apply py_get_plain | apply py_getitem_plain
             | apply parse_date_plain]|]; intros ].
Qed.

Lemma flush_plain (news table : list Tournament) :
  raises_plain (Session.flush table news).
Proof.
  revert table. induction news as [|p news IH]; simpl; intros table.
  - apply raises_plain_Ok.
  - unfold Session.IntegrityError.
    destruct (existsb _ table); [apply raises_plain_Error|].
    destruct (Tournament_id p); [|apply IH].
    destruct (existsb _ table); [apply raises_plain_Error | apply IH].
Qed.

Lemma query_first_plain (e : string) (s : Session.t (R := Tournament)) :
  raises_plain (Session.query_first w e s).
Proof.
  unfold Session.query_first, Session.round_trip, Session.flush_if_auto.
  apply raises_plain_bind.
  { destruct (db_error w _); [apply raises_plain_Error | apply raises_plain_Ok]. }
  intros s1. apply raises_plain_bind; [|intros; apply raises_plain_Ok].
  destruct (autoflush w); [|apply raises_plain_Ok].
  apply raises_plain_bind; [apply flush_plain|]. intros. apply raises_plain_Ok.
Qed.

Lemma process_tournaments_plain (data : list value) :
  forall s, raises_plain (main.process_tournaments w data s).
Proof.
  induction data as [|t_data rest IH]; simpl; intros s.
  - apply raises_plain_Ok.
  - apply raises_plain_bind; [apply tournament_dict_plain|]. intros d.
    apply raises_plain_bind; [apply query_first_plain|]. intros [o s'].
    apply IH.
Qed.

Lemma map_result_all_Ok {A B : Type} (f : A -> result B) (l : list A)
      (ys : list B) (x : A) :
  PandaScoreAPI.map_result f l = Ok ys -> In x l -> exists y, f x = Ok y.
Proof.
  revert ys. induction l as [|a l IH]; simpl; intros ys H Hin; [contradiction|].
  apply bind_Ok in H. destruct H as [b [Hb H]].
  apply bind_Ok in H. destruct H as [bs [Hbs H]].
  destruct Hin as [->|Hin]; eauto.
Qed.

(** X16. One fetched record the handler cannot read fails the whole refresh:
    when building the row of any one fetched tournament (or team) raises, as
    it does for a record without [id], the request is answered with status
    500 and the store is left as it was, the readable records included. *)
Theorem unreadable_record_fails_refresh (game : option string)
        (status : string) (store : Store) :
  (forall data t_data e,
      PandaScoreAPI.get_tournaments (provider w) 0 game status 50 = Ok data ->
      In t_data data ->
      main.tournament_dict t_data = Raise e ->
      exists detail,
        main.get_tournaments w game status store = (Failed 500 detail, store))
  /\
  (forall data t_data e,
      PandaScoreAPI.get_teams (provider w) 0 game 50 = Ok data ->
      In t_data data ->
      main.new_Team t_data = Raise e ->
      exists detail, main.get_teams w game store = (Failed 500 detail, store))
  /\
  (forall d,
      dict_get "id" d = None ->
      main.tournament_dict (VDict d) = Raise (Error "KeyError" "'id'") /\
      main.new_Team (VDict d) = Raise (Error "KeyError" "'id'")).
Proof.
  split; [|split].
  - intros data t_data e Hdata Hin He.
    destruct (main.get_tournaments w game status store)
      as [[content|status_code detail] store'] eqn:E.
    + exfalso. apply get_tournaments_OK in E.
      destruct E as (data' & ds & _ & Hdata' & Hds & _).
      assert (data' = data) by congruence. subst data'.
      destruct (map_result_all_Ok _ _ _ _ Hds Hin) as [y Hy]. congruence.
    + pose proof (get_tournaments_Failed _ _ _ _ _ _ _ E). subst store'.
      exists detail. f_equal. f_equal.
      unfold main.get_tournaments, main.get_tournaments_try in E.
      destruct (given game && negb (PandaScoreAPI.supported game)) eqn:Hg.
      { unfold PandaScoreAPI.get_tournaments in Hdata. rewrite Hg in Hdata.
        discriminate Hdata. }
      rewrite Hdata in E. cbn [bind] in E.
      pose proof (process_tournaments_plain data
                    (Session.begin (tournaments store))) as Hp.
      destruct (main.process_tournaments w data _) as [db|err].
      * cbn [bind] in E. destruct (Session.commit w db); congruence.
      * specialize (Hp err eq_refl). destruct err; [contradiction|].
        cbn [bind] in E. congruence.
  - intros data t_data e Hdata Hin He.
    destruct (main.get_teams w game store)
      as [[content|status_code detail] store'] eqn:E.
    + exfalso. apply get_teams_OK in E.
      destruct E as (data' & ts & _ & Hdata' & Hts & _).
      assert (data' = data) by congruence. subst data'.
      destruct (map_result_all_Ok _ _ _ _ Hts Hin) as [y Hy]. congruence.
    + apply get_teams_Failed in E. destruct E as [-> ->]. eauto.
  - intros d Hid. unfold main.tournament_dict, main.new_Team.
    cbn [py_get bind py_getitem]. unfold dict_getitem. rewrite Hid.
    split; reflexivity.
Qed.
End RefreshAndStoredRows.

(** ** Refreshing twice with the same records *)

Section Idempotence.
Context {R : Type} {M : Mapped R} {L : MappedLaws R}.
Hypothesis setattrs_new_row : forall i (d : R),
  setattrs (with_primary_key i (insert_defaults d)) d
  = with_primary_key i (insert_defaults d).

Lemma overwrite_row_external_id (d r : R) :
  external_id (overwrite_row d r) = external_id r.
Proof.
  unfold overwrite_row.
  destruct (Session.has_external_id (external_id d) r) eqn:E; [|reflexivity].
  apply has_external_id_true in E. now rewrite setattrs_external_id.
Qed.

Lemma overwrite_row_setattrs (d r x : R) :
  setattrs (overwrite_row d r) x = setattrs r x.
Proof.
  unfold overwrite_row.
  destruct (Session.has_external_id (external_id d) r); [|reflexivity].
  apply setattrs_setattrs.
Qed.

Lemma overwrite_rows_facts (ds : list R) :
  forall r, external_id (overwrite_rows ds r) = external_id r /\
            forall x, setattrs (overwrite_rows ds r) x = setattrs r x.
Proof.
  unfold overwrite_rows.
  induction ds as [|d ds IH]; simpl; intros r; [auto|].
  destruct (IH (overwrite_row d r)) as [He Hs]. split.
  - now rewrite He, overwrite_row_external_id.
  - intros x. now rewrite Hs, overwrite_row_setattrs.
Qed.

Lemma map_overwrite_absent (d : R) (t : list R) :
  existsb (Session.has_external_id (external_id d)) t = false ->
  map (overwrite_row d) t = t.
Proof.
  induction t as [|r t IH]; simpl; [reflexivity|].
  intros H. apply orb_false_iff in H. destruct H as [Hr Ht].
  unfold overwrite_row at 1. rewrite Hr. now rewrite IH.
Qed.

Lemma unique_tail_absent (r : R) (t : list R) :
  unique_external_ids (r :: t) ->
  existsb (Session.has_external_id (external_id r)) t = false.
Proof.
  unfold unique_external_ids. simpl. intros Hu.
  inversion Hu as [|? ? Hx _]; subst.
  destruct (existsb _ t) eqn:E; [|reflexivity].
  apply existsb_exists in E. destruct E as [y [Hy Hey]].
  apply has_external_id_true in Hey. exfalso. apply Hx.
  rewrite <- Hey. now apply in_map.
Qed.

(** Upserting a key that has a row overwrites that row and nothing else. *)
Lemma upsert_present (t : list R) (d : R) :
  unique_external_ids t ->
  existsb (Session.has_external_id (external_id d)) t = true ->
  upsert t d = map (overwrite_row d) t.
Proof.
  unfold upsert. intros Hu Hex.
  destruct (Session.find_index _ t) as [i|] eqn:Ef;
    [|apply find_index_None in Ef; congruence].
  clear Hex. revert i Ef.
  induction t as [|r t IH]; simpl; intros i Ef; [discriminate|].
  destruct (Session.has_external_id (external_id d) r) eqn:Er.
  - injection Ef as <-. simpl. unfold overwrite_row at 1. rewrite Er.
    f_equal. symmetry. apply map_overwrite_absent.
    apply has_external_id_true in Er. rewrite <- Er.
    now apply unique_tail_absent.
  - destruct (Session.find_index _ t) as [j|] eqn:Ej; [|discriminate].
    injection Ef as <-. simpl. unfold overwrite_row at 1. rewrite Er.
    f_equal. apply IH; [|reflexivity].
    unfold unique_external_ids in *. simpl in Hu. now inversion Hu.
Qed.

Lemma existsb_map_overwrite (e : string) (d : R) (t : list R) :
  existsb (Session.has_external_id e) (map (overwrite_row d) t)
  = existsb (Session.has_external_id e) t.
Proof.
  induction t as [|r t IH]; simpl; [reflexivity|].
  unfold Session.has_external_id at 1 3.
  now rewrite overwrite_row_external_id, IH.
Qed.

Lemma upsert_all_present_rows (ds : list R) :
  forall t,
    unique_external_ids t ->
    Forall (fun d => existsb (Session.has_external_id (external_id d)) t = true)
           ds ->
    fold_left upsert ds t = map (overwrite_rows ds) t.
Proof.
  induction ds as [|d ds IH]; simpl; intros t Hu Hds.
  - unfold overwrite_rows. simpl. symmetry. apply map_id.
  - inversion Hds as [|? ? Hd Hds']; subst.
    pose proof (upsert_unique t d Hu) as Hu'.
    rewrite (upsert_present t d Hu Hd) in *.
    rewrite IH; [now rewrite map_map| assumption |].
    eapply Forall_impl; [|exact Hds'].
    intros x Hx. now rewrite existsb_map_overwrite.
Qed.

Lemma In_upsert (t : list R) (d r : R) :
  unique_external_ids t ->
  In r (upsert t d) ->
  (exists r0, In r0 t /\ r = overwrite_row d r0) \/
  r = with_primary_key (Session.next_id t) (insert_defaults d).
Proof.
  intros Hu Hin.
  destruct (existsb (Session.has_external_id (external_id d)) t) eqn:Ex.
  - rewrite (upsert_present t d Hu Ex) in Hin.
    apply in_map_iff in Hin. destruct Hin as [r0 [<- Hr0]]. eauto.
  - unfold upsert in Hin. apply find_index_None in Ex. rewrite Ex in Hin.
    apply in_app_or in Hin. destruct Hin as [Hin | [ <- | [] ] ]; [|auto].
    left. exists r. split; [assumption|].
    apply find_index_None in Ex.
    unfold overwrite_row.
    destruct (Session.has_external_id (external_id d) r) eqn:Er; [|reflexivity].
    assert (existsb (Session.has_external_id (external_id d)) t = true).
    { apply existsb_exists. eauto. }
    congruence.
Qed.

Lemma overwrite_rows_app (ds1 ds2 : list R) (r : R) :
  overwrite_rows (ds1 ++ ds2) r = overwrite_rows ds2 (overwrite_rows ds1 r).
Proof. unfold overwrite_rows. apply fold_left_app. Qed.

(** After a refresh, every row already has the values the same records
    would write again. *)
Lemma upsert_all_fixed (ds : list R) :
  forall t r,
    unique_external_ids t ->
    In r (fold_left upsert ds t) ->
    overwrite_rows ds r = r.
Proof.
  induction ds as [|d ds IH] using rev_ind; intros t r Hu Hin;
    [reflexivity|].
  rewrite fold_left_app in Hin. simpl in Hin.
  rewrite overwrite_rows_app.
  destruct (overwrite_rows_facts ds r) as [He Hs].
  unfold overwrite_rows at 1. simpl.
  apply In_upsert in Hin; [|now apply upsert_all_unique].
  destruct Hin as [ [r0 [Hr0 ->] ] | -> ].
  - specialize (IH t r0 Hu Hr0). unfold overwrite_row at 1 3.
    destruct (overwrite_rows_facts ds (overwrite_row d r0)) as [He' Hs'].
    unfold Session.has_external_id at 1. rewrite He'.
    rewrite overwrite_row_external_id.
    fold (Session.has_external_id (external_id d) r0).
    destruct (Session.has_external_id (external_id d) r0) eqn:E.
    + rewrite Hs'. unfold overwrite_row. rewrite E. apply setattrs_setattrs.
    + unfold overwrite_row in *. rewrite E in *. exact IH.
  - unfold overwrite_row.
    unfold Session.has_external_id. rewrite He, new_row_external_id.
    rewrite String.eqb_refl, Hs. apply setattrs_new_row.
Qed.

Lemma upsert_all_keys_present (ds : list R) :
  forall t,
    unique_external_ids t ->
    Forall (fun d => existsb (Session.has_external_id (external_id d))
                       (fold_left upsert ds t) = true) ds.
Proof.
  intros t Hu. apply Forall_forall. intros d Hd.
  destruct (upsert_all_In ds d Hd t Hu) as [r Hr].
  destruct (existsb _ _) eqn:E; [reflexivity|].
  apply existsb_false_filter in E. congruence.
Qed.

(** Upserting the same records a second time changes nothing. *)
Lemma upsert_all_idempotent (ds : list R) (t : list R) :
  unique_external_ids t ->
  fold_left upsert ds (fold_left upsert ds t) = fold_left upsert ds t.
Proof.
  intros Hu.
  rewrite upsert_all_present_rows;
    [| now apply upsert_all_unique | now apply upsert_all_keys_present].
  rewrite <- (map_id (fold_left upsert ds t)) at 2.
  apply map_ext_in. intros r Hr. eapply upsert_all_fixed; eauto.
Qed.
End Idempotence.

Section IdempotentRefresh.
Context {RT : Runtime}.

(** X17. Refreshing is idempotent: when GET /tournaments succeeds twice in a
    row on the same fetched records, the second request leaves the store
    exactly as the first left it. *)
Theorem get_tournaments_idempotent
        (w1 w2 : World) (game1 game2 : option string) (status1 status2 : string)
        (store0 store1 store2 : Store) (data : list value) :
  unique_external_ids (tournaments store0) ->
  main.get_tournaments w1 game1 status1 store0
  = (OK (VDict [("tournaments", VList data)]), store1) ->
  main.get_tournaments w2 game2 status2 store1
  = (OK (VDict [("tournaments", VList data)]), store2) ->
  store2 = store1.
Proof.
  intros Hu H1 H2.
  apply get_tournaments_OK in H1.
  destruct H1 as (data1 & ds1 & [= <-] & _ & Hds1 & ->).
  apply get_tournaments_OK in H2.
  destruct H2 as (data2 & ds2 & [= <-] & _ & Hds2 & ->).
  assert (ds2 = ds1) by congruence. subst ds2. cbn [tournaments teams].
  f_equal. apply upsert_all_idempotent; [reflexivity | assumption].
Qed.
End IdempotentRefresh.

(** ** A tournament whose videogame is not an object *)

Section VideogameObject.
Context {RT : Runtime}.

(** X18. The single tournament fetch needs [videogame] to be an object when
    the key is there: on a record whose [videogame] is null, or anything else
    that is not an object, it raises. When the record's [league] and
    [series], where present, are objects, what it raises is the
    AttributeError of [videogame.get], while the list fetch, which reads the
    same key behind an [isinstance] test, returns that record without a game
    filter: every key kept, changed at [league_info] and [series_info]
    only. *)
Theorem get_tournament_needs_videogame_object
        (provider provider' : requests.Provider) (n : nat)
        (tournament_id status : string) (per_page : Z)
        (response response' : requests.Response) (raw : pydict) (v : value) :
  dict_get "videogame" raw = Some v ->
  is_dict v = false ->
  provider n (PandaScoreAPI.BASE_URL ++ "/tournaments/" ++ tournament_id)%string []
  = inr response ->
  requests.ok response = true ->
  requests.body response = inr (VDict raw) ->
  (forall endpoint params, provider' n endpoint params = inr response') ->
  requests.ok response' = true ->
  requests.body response' = inr (VList [VDict raw]) ->
  (exists cls msg,
      PandaScoreAPI.get_tournament provider n tournament_id
      = Raise (Error cls msg)) /\
  ((forall league, dict_get "league" raw = Some league -> is_dict league = true) ->
   (forall series, dict_get "series" raw = Some series -> is_dict series = true) ->
   PandaScoreAPI.get_tournament provider n tournament_id
   = AttributeError v "get" /\
   exists enriched,
     PandaScoreAPI.get_tournaments provider' n None status per_page
     = Ok [VDict enriched] /\
     enriches ["league_info"; "series_info"] (VDict raw) (VDict enriched)).
Proof.
  intros Hv Hd Hp Hok Hb Hp' Hok' Hb'. split.
  - pose proof (get_tournament_plain provider n tournament_id) as Hplain.
    destruct (PandaScoreAPI.get_tournament provider n tournament_id)
      as [e|err] eqn:E.
    + exfalso.
      destruct (get_tournament_Ok _ _ _ _ E)
        as (r & raw' & _ & _ & Hp2 & _ & Hb2 & _ & _ & (vg & Hvg & _) & _).
      assert (r = response) by congruence. subst r.
      assert (raw' = raw) by congruence. subst raw'.
      unfold dict_get_or in Hvg. rewrite Hv in Hvg. subst v. discriminate Hd.
    + specialize (Hplain err eq_refl). destruct err; [contradiction|]. eauto.
  - intros Hl Hs.
    assert (G : match v with
                | VDict _ => py_get v "slug" VNone
                | _ => Ok VNone
                end = Ok VNone)
      by (destruct v; try discriminate Hd; reflexivity).
    assert (A : py_get v "slug" VNone = AttributeError v "get")
      by (destruct v; try discriminate Hd; reflexivity).
    unfold PandaScoreAPI.get_tournament, PandaScoreAPI.get_tournaments,
      requests.get, requests.raise_for_status, requests.json.
    cbn [given andb is_str orb negb bind]. rewrite Hp, Hp'. cbn [bind].
    rewrite Hok, Hok'. cbn [bind]. rewrite Hb, Hb'.
    cbn [bind py_iter PandaScoreAPI.filter_tournaments].
    unfold PandaScoreAPI.enhance_tournament, dict_has, dict_getitem.
    cbn [py_get bind given andb is_str]. rewrite Hv, G. cbn [bind].
    destruct (dict_get "league" raw) as [l|] eqn:El;
      [specialize (Hl l eq_refl); destruct l; try discriminate Hl|];
      (destruct (dict_get "series" raw) as [s|] eqn:Es;
       [specialize (Hs s eq_refl); destruct s; try discriminate Hs|]);
      cbn [bind py_get]; rewrite A;
      (split; [reflexivity|]);
      (eexists; split; [reflexivity|]);
      enriched.
Qed.
End VideogameObject.

(** ** The statements above on concrete inputs *)

Lemma upstream_error_fails_fetch_witness :
  PandaScoreAPI.get_match Sample.not_found 0 "999"
  = Raise (Error "HTTPError" "404 Client Error: Not Found").
Proof.
  exact (proj1 (proj2 (proj2 (proj2
           (upstream_error_fails_fetch (RT := Sample.runtime)
              Sample.not_found 0 Sample.not_found_response
              (fun _ _ => eq_refl) eq_refl)))) "999").
Defined.

Lemma unsupported_game_raises_ValueError_witness :
  PandaScoreAPI.get_tournaments Sample.not_found 0 (Some "dota2")
    "running,upcoming" 50
  = Raise (Error "ValueError"
             "Unsupported game. Supported games are: lol, valorant")
  /\
  PandaScoreAPI.get_teams (RT := Sample.runtime) Sample.not_found 0
    (Some "dota2") 50
  = Raise (Error "ValueError"
             "Unsupported game. Supported games are: lol, valorant").
Proof.
  exact (unsupported_game_raises_ValueError (RT := Sample.runtime)
           Sample.not_found 0 "dota2" "running,upcoming" 50
           ltac:(discriminate) eq_refl).
Defined.

Lemma get_tournaments_unfiltered_keeps_all_witness :
  exists endpoint params raw,
    provider_records (Sample.always Sample.two_tournaments) 0 endpoint params
    = Some raw /\
    Forall2 (enriches tournament_enrichment_keys) raw Sample.unfiltered_result.
Proof.
  exact (get_tournaments_unfiltered_keeps_all
           (Sample.always Sample.two_tournaments) 0 None "running,upcoming" 50
           Sample.unfiltered_result eq_refl
           ltac:(vm_compute; reflexivity)).
Defined.

Lemma get_tournament_enrichment_witness :
  exists response raw enriched,
    Sample.always (VDict Sample.lol_tournament) 0%nat
      (PandaScoreAPI.BASE_URL ++ "/tournaments/" ++ "7")%string []
    = inr response /\
    requests.body response = inr (VDict raw) /\
    Sample.lol_tournament_result = VDict enriched /\
    enriches tournament_enrichment_keys (VDict raw) (VDict enriched) /\
    (videogame_slug (VDict raw) = Some (VStr "league-of-legends") ->
     dict_get "game_details" enriched = Some (lol_game_details raw)) /\
    (videogame_slug (VDict raw) = Some (VStr "valorant") ->
     dict_get "game_details" enriched = Some (valorant_game_details raw)) /\
    (videogame_slug (VDict raw) <> Some (VStr "league-of-legends") ->
     videogame_slug (VDict raw) <> Some (VStr "valorant") ->
     dict_get "game_details" enriched = dict_get "game_details" raw).
Proof.
  exact (get_tournament_enrichment
           (Sample.always (VDict Sample.lol_tournament)) 0 "7"
           Sample.lol_tournament_result ltac:(vm_compute; reflexivity)).
Defined.

Lemma get_tournament_details_attaches_matches_witness :
  exists enriched matches d,
    PandaScoreAPI.get_tournament (provider Sample.details_world) 0 "7"
    = Ok (VDict enriched) /\
    PandaScoreAPI.get_matches (provider Sample.details_world) 1 (Some "7")
      "running,upcoming" 50 = Ok matches /\
    Sample.details_content = VDict d /\
    dict_get "matches" d = Some (VList matches) /\
    (forall k, k <> "matches" -> dict_get k d = dict_get k enriched) /\
    Sample.empty_store = Sample.empty_store.
Proof.
  exact (get_tournament_details_attaches_matches (RT := Sample.runtime)
           Sample.details_world "7" Sample.empty_store Sample.empty_store
           Sample.details_content ltac:(vm_compute; reflexivity)).
Defined.

Lemma get_matches_normalizes_opponents_witness :
  exists endpoint params raw,
    provider_records
      (Sample.always (VList [Sample.match_record 42 "running" "T1" "G2"]))
      0 endpoint params = Some raw /\
    Forall2 normalizes raw Sample.matches_result.
Proof.
  exact (get_matches_normalizes_opponents
           (Sample.always (VList [Sample.match_record 42 "running" "T1" "G2"]))
           0 (Some "7") "running,upcoming" 50 Sample.matches_result
           ltac:(vm_compute; reflexivity)).
Defined.

Lemma get_teams_attaches_roster_witness :
  exists endpoint params raw,
    provider_records (Sample.always (VList [Sample.team_with_players]))
      0 endpoint params = Some raw /\
    Forall2 has_roster raw Sample.roster_result.
Proof.
  exact (get_teams_attaches_roster (RT := Sample.runtime)
           (Sample.always (VList [Sample.team_with_players])) 0 None 50
           Sample.roster_result ltac:(vm_compute; reflexivity)).
Defined.

Lemma get_teams_lol_recent_performance_witness :
  exists endpoint params raw,
    provider_records Sample.lol_teams 0 endpoint params = Some raw /\
    List.length Sample.lol_teams_result = List.length raw /\
    forall i team e,
      nth_error raw i = Some team ->
      nth_error Sample.lol_teams_result i = Some e ->
      recent_performance_of (RT := Sample.runtime) Sample.lol_teams (1 + i)
        team e.
Proof.
  exact (get_teams_lol_recent_performance (RT := Sample.runtime)
           Sample.lol_teams 0 50 Sample.lol_teams_result
           ltac:(vm_compute; reflexivity)).
Defined.

Lemma get_teams_single_request_witness :
  PandaScoreAPI.get_teams (RT := Sample.runtime)
    (Sample.always (VList [Sample.team_with_players])) 0 (Some "valorant") 50
  = PandaScoreAPI.get_teams (RT := Sample.runtime)
      (Sample.first_then (VList [Sample.team_with_players]) (VList []))
      0 (Some "valorant") 50.
Proof.
  exact (get_teams_single_request (RT := Sample.runtime)
           (Sample.always (VList [Sample.team_with_players]))
           (Sample.first_then (VList [Sample.team_with_players]) (VList []))
           0 (Some "valorant") 50 eq_refl (fun _ _ => eq_refl)).
Defined.

Lemma get_tournaments_keeps_rows_witness :
  exists kept added,
    tournaments Sample.store_after_second = kept ++ added /\
    same_keys (tournaments Sample.store_after_first) kept /\
    teams Sample.store_after_second = teams Sample.store_after_first.
Proof.
  exact (get_tournaments_keeps_rows (RT := Sample.runtime)
           Sample.second_refresh None "running,upcoming"
           Sample.store_after_first Sample.store_after_second
           (OK (VDict [("tournaments",
                        VList [Sample.record 1 "LCK Spring";
                               Sample.record 2 "LEC"])]))
           ltac:(vm_compute; reflexivity)).
Defined.

Lemma get_teams_appends_rows_witness :
  exists data ts added,
    VDict [("teams", VList [Sample.record 1 "T1"])]
    = VDict [("teams", VList data)] /\
    PandaScoreAPI.map_result (main.new_Team (RT := Sample.runtime)) data = Ok ts /\
    teams Sample.store_with_T1 = teams Sample.empty_store ++ added /\
    Forall2 inserted_row ts added /\
    tournaments Sample.store_with_T1 = tournaments Sample.empty_store.
Proof.
  exact (get_teams_appends_rows (RT := Sample.runtime)
           (Sample.world (Sample.always (VList [Sample.record 1 "T1"])))
           None Sample.empty_store Sample.store_with_T1
           (VDict [("teams", VList [Sample.record 1 "T1"])])
           ltac:(vm_compute; reflexivity)).
Defined.

Lemma get_tournaments_idempotent_witness :
  Sample.store_after_second = Sample.store_after_second.
Proof.
  exact (get_tournaments_idempotent (RT := Sample.runtime)
           Sample.second_refresh Sample.second_refresh None None
           "running,upcoming" "running,upcoming"
           Sample.store_after_first Sample.store_after_second
           Sample.store_after_second
           [Sample.record 1 "LCK Spring"; Sample.record 2 "LEC"]
           ltac:(repeat constructor; simpl; tauto)
           ltac:(vm_compute; reflexivity)
           ltac:(vm_compute; reflexivity)).
Defined.

Lemma get_tournament_needs_videogame_object_witness :
  PandaScoreAPI.get_tournament
    (Sample.always (VDict Sample.null_videogame)) 0 "8"
  = Raise (Error "AttributeError" "'NoneType' object has no attribute 'get'") /\
  exists enriched,
    PandaScoreAPI.get_tournaments
      (Sample.always (VList [VDict Sample.null_videogame])) 0 None
      "running,upcoming" 50
    = Ok [VDict enriched] /\
    enriches ["league_info"; "series_info"]
             (VDict Sample.null_videogame) (VDict enriched).
Proof.
  exact (proj2 (get_tournament_needs_videogame_object
                  (Sample.always (VDict Sample.null_videogame))
                  (Sample.always (VList [VDict Sample.null_videogame]))
                  0 "8" "running,upcoming" 50
                  (requests.mkResponse 200 "HTTP error"
                     (inr (VDict Sample.null_videogame)))
                  (requests.mkResponse 200 "HTTP error"
                     (inr (VList [VDict Sample.null_videogame])))
                  Sample.null_videogame VNone
                  eq_refl eq_refl eq_refl eq_refl eq_refl (fun _ _ => eq_refl)
                  eq_refl eq_refl)
               ltac:(intros l H; vm_compute in H; injection H as <-;
                     reflexivity)
               ltac:(intros s H; discriminate H)).
Defined.

(** ** GET /teams and an unsupported game *)

Section TeamsUnsupportedGame.
Context {RT : Runtime}.
Variable w : World.

(** X20. GET /teams does not validate its game argument: for every non-empty
    game outside the supported set the client's ValueError reaches the
    blanket handler, and the answer is status 500 with the handler's prefix
    before the list of supported games; the store is untouched. *)
Theorem get_teams_unsupported_game_is_server_error (game : string)
        (store : Store) :
  game <> "" ->
  PandaScoreAPI.games_get game PandaScoreAPI.SUPPORTED_GAMES = None ->
  main.get_teams w (Some game) store
  = (Failed 500
       "Failed to fetch teams: Unsupported game. Supported games are: lol, valorant",
     store).
Proof.
  intros Hne Hg.
  unfold main.get_teams, main.get_teams_try, PandaScoreAPI.get_teams.
  assert (G : given (Some game) && negb (PandaScoreAPI.supported (Some game))
              = true).
  { unfold PandaScoreAPI.supported. rewrite Hg. simpl.
    apply String.eqb_neq in Hne. now rewrite Hne. }
  rewrite G. reflexivity.
Qed.
End TeamsUnsupportedGame.

Lemma get_teams_unsupported_game_is_server_error_witness :
  main.get_teams (RT := Sample.runtime)
    (Sample.world (Sample.always (VList [Sample.team_with_players])))
    (Some "dota2") Sample.store_with_T1
  = (Failed 500
       "Failed to fetch teams: Unsupported game. Supported games are: lol, valorant",
     Sample.store_with_T1).
Proof.
  apply (get_teams_unsupported_game_is_server_error (RT := Sample.runtime)).
  - discriminate.
  - reflexivity.
Defined.

(** ** When GET /teams can succeed *)

Section TeamsSucceed.
Context {R : Type} {M : Mapped R} {L : MappedLaws R}.

Lemma existsb_snoc_false (e : string) (table : list R) (x : R) :
  existsb (Session.has_external_id e) (table ++ [x]) = false ->
  existsb (Session.has_external_id e) table = false /\ external_id x <> e.
Proof.
  rewrite existsb_app. simpl. rewrite orb_false_r. intros H.
  apply orb_false_iff in H. destruct H as [Ht Hx]. split; [assumption|].
  now apply String.eqb_neq.
Qed.

(** A flush succeeds only when the external ids of the pending objects are
    new to the table and differ from each other. *)
Lemma flush_Ok_fresh (news : list R) :
  forall table table',
    Session.flush table news = Ok table' ->
    Forall (fun p => rows_with (external_id p) table = []) news /\
    NoDup (map external_id news).
Proof.
  induction news as [|p news IH]; simpl; intros table table' H.
  - split; constructor.
  - unfold Session.IntegrityError in H.
    destruct (existsb (Session.has_external_id (external_id p)) table) eqn:Ex;
      [discriminate H|].
    assert (Hrest : exists x, external_id x = external_id p /\
                              Session.flush (table ++ [x]) news = Ok table').
    { destruct (primary_key p) as [i|].
      - destruct (existsb (Session.has_primary_key i) table);
          [discriminate H|].
        eexists. split; [|exact H]. apply insert_defaults_external_id.
      - eexists. split; [|exact H]. apply new_row_external_id. }
    destruct Hrest as (x & Hx & Hflush).
    destruct (IH _ _ Hflush) as [Hfresh Hnodup].
    assert (Hboth : Forall (fun q => rows_with (external_id q) table = [] /\
                                     external_id q <> external_id p) news).
    { eapply Forall_impl; [|exact Hfresh]. intros q Hq.
      destruct (existsb (Session.has_external_id (external_id q))
                        (table ++ [x])) eqn:Eq.
      - apply existsb_exists in Eq. destruct Eq as [y [Hy Hey]].
        assert (In y (rows_with (external_id q) (table ++ [x])))
          by (apply filter_In; auto).
        rewrite Hq in *. contradiction.
      - apply existsb_snoc_false in Eq. destruct Eq as [Et Ex'].
        split; [now apply existsb_false_filter | congruence]. }
    split.
    + constructor; [now apply existsb_false_filter|].
      eapply Forall_impl; [|exact Hboth]. now intros q [Hq _].
    + constructor; [|assumption].
      intros Hin. apply in_map_iff in Hin. destruct Hin as [q [Hq Hin]].
      rewrite Forall_forall in Hboth. destruct (Hboth q Hin) as [_ Hne].
      congruence.
Qed.
End TeamsSucceed.

Section TeamsSucceedOnlyOnNew.
Context {RT : Runtime}.
Variable w : World.

(** X19. GET /teams can succeed only on teams it has never stored: when it
    answers 200, no fetched team had a row of its external id before the
    request, and no two fetched teams share an external id. A team that is
    already stored therefore makes every later request that fetches it fail. *)
Theorem get_teams_succeeds_only_on_new_teams (game : option string)
        (store store' : Store) (content : value) :
  main.get_teams w game store = (OK content, store') ->
  exists data ts,
    content = VDict [("teams", VList data)] /\
    PandaScoreAPI.map_result main.new_Team data = Ok ts /\
    Forall (fun team => rows_with (Team_external_id team) (teams store) = []) ts /\
    NoDup (map Team_external_id ts).
Proof.
  intros H. apply get_teams_OK in H.
  destruct H as (data & ts & -> & _ & Hts & Hflush & _).
  destruct (flush_Ok_fresh _ _ _ Hflush) as [Hfresh Hnodup].
  exists data, ts. auto.
Qed.
End TeamsSucceedOnlyOnNew.

Lemma get_teams_succeeds_only_on_new_teams_witness :
  exists data ts,
    VDict [("teams", VList [Sample.record 1 "T1"])]
    = VDict [("teams", VList data)] /\
    PandaScoreAPI.map_result (main.new_Team (RT := Sample.runtime)) data = Ok ts /\
    Forall (fun team =>
              rows_with (Team_external_id team) (teams Sample.empty_store) = [])
           ts /\
    NoDup (map Team_external_id ts).
Proof.
  exact (get_teams_succeeds_only_on_new_teams (RT := Sample.runtime)
           (Sample.world (Sample.always (VList [Sample.record 1 "T1"])))
           None Sample.empty_store Sample.store_with_T1
           (VDict [("teams", VList [Sample.record 1 "T1"])])
           ltac:(vm_compute; reflexivity)).
Defined.
